(** * eduai: media intake, auto-layout and export

    A shallow embedding of the media pipeline of the eduai client:
    - [src/utils/imageUtils.ts]: [validateImageFile], [processImage],
      [moderateImage];
    - [src/utils/storageUtils.ts]: [uploadFileToCloud],
      [processAndUploadFiles], [cleanupObjectUrls];
    - [src/components/AutoLayout.tsx]: [getSectionPlacement], [handleDrop],
      [removeFile], [getCaption] and the alt-text editor; and the
      [MediaUploader] component, with its own [processFiles];
    - [src/components/ProjectStepper.tsx]: the owner of the media list, its
      [processFiles] and the clean-up of its [useEffect]; the three steps
      of its form, with [validateStep], the navigation handlers and
      [handleGenerate];
    - [src/contexts/ProjectContext.tsx]: [createProject], [updateProject],
      [deleteProject];
    - [src/utils/exportUtils.ts]: [exportToPDF], [exportToPPTX],
      [exportToPNG] and the names of the three downloads;
    - the dashboard: [generateProjectWithAI], [handleGenerateProject],
      [handleExport].

    Conventions.  A JavaScript string is a [string]: a sequence of code
    units, here the code units below 256.  A JavaScript number that the code
    only uses as an integer (a length, a byte count, an index, a pixel
    dimension, a time stamp) is a [Z]; a number that the code divides or
    scales (aspect ratio, progress, page coordinates) is a binary64 [float],
    with the machine's own arithmetic.  Browser and library calls whose
    answer the code cannot influence (image decoding, canvas encoding, the
    clock, the remote store, blob URLs, the PDF text splitter and image
    embedding) are read from an explicit environment.  User actions are
    taken one at a time.  An intake is checked against the list of the
    render in which it is started, and its callbacks are state updates,
    which act on the component as it is when they are called: another
    intake may have started, or appended, in between. *)

From Stdlib Require Import ZArith List String Ascii Bool Lia.
From Stdlib Require Import Floats Uint63 Permutation DecimalString.
Import ListNotations.

Open Scope string_scope.
Open Scope Z_scope.

(* ================================================================== *)
(** ** JavaScript strings *)

Module JS.

(** The double quote and the line feed, which a literal cannot hold. *)
Definition dquote : string := String "034"%char "".
Definition newline : string := String "010"%char "".

(** [String(n)] for an integral number. *)
Definition Number_toString (n : Z) : string :=
  NilZero.string_of_int (Z.to_int n).

(** [s.startsWith(p)]. *)
Definition startsWith (s p : string) : bool := String.prefix p s.

(** [s.includes(sub)]: [sub] occurs in [s] at some position. *)
Fixpoint includes (s sub : string) : bool :=
  String.prefix sub s ||
  match s with
  | EmptyString => false
  | String _ s' => includes s' sub
  end.

Definition isUpper (c : ascii) : bool :=
  let n := N_of_ascii c in ((65 <=? n) && (n <=? 90))%N.
Definition isLower (c : ascii) : bool :=
  let n := N_of_ascii c in ((97 <=? n) && (n <=? 122))%N.
Definition isDigit (c : ascii) : bool :=
  let n := N_of_ascii c in ((48 <=? n) && (n <=? 57))%N.

(** Lower-casing of one code unit below 256: [A-Z], and the Latin-1
    capitals U+00C0..U+00DE but the multiplication sign U+00D7, move up by
    32; every other code unit is its own lower case. *)
Definition lowerChar (c : ascii) : ascii :=
  let n := N_of_ascii c in
  if ((65 <=? n) && (n <=? 90))%N then ascii_of_N (n + 32)
  else if ((192 <=? n) && (n <=? 222) && negb (n =? 215))%N
       then ascii_of_N (n + 32)
  else c.

(** [s.toLowerCase()]. *)
Fixpoint toLowerCase (s : string) : string :=
  match s with
  | EmptyString => EmptyString
  | String c s' => String (lowerChar c) (toLowerCase s')
  end.

(** [arr.join(sep)] on an array of strings. *)
Fixpoint join (sep : string) (l : list string) : string :=
  match l with
  | [] => ""
  | [x] => x
  | x :: r => x ++ sep ++ join sep r
  end.

(** [a || b] on an optional string: [undefined] and [''] are falsy. *)
Definition orElse (a : option string) (b : string) : string :=
  match a with
  | Some s => if String.eqb s "" then b else s
  | None => b
  end.

(** [arr.includes(x)] on an array of strings. *)
Definition arrayIncludes (l : list string) (x : string) : bool :=
  existsb (String.eqb x) l.

(** [arr.some(p)]. *)
Definition some {A} (p : A -> bool) (l : list A) : bool := existsb p l.

(** Every code unit of [s] satisfies [p]. *)
Fixpoint every (p : ascii -> bool) (s : string) : bool :=
  match s with
  | EmptyString => true
  | String c s' => p c && every p s'
  end.

(** White space and line terminators among the code units below 256:
    U+0009..U+000D, the space and the no-break space. *)
Definition isWhiteSpace (c : ascii) : bool :=
  let n := N_of_ascii c in
  (((9 <=? n) && (n <=? 13)) || (n =? 32) || (n =? 160))%N.

(** [s.trimStart()], [s.trimEnd()] and [s.trim()]. *)
Fixpoint trimStart (s : string) : string :=
  match s with
  | EmptyString => EmptyString
  | String c r => if isWhiteSpace c then trimStart r else s
  end.

Fixpoint trimEnd (s : string) : string :=
  match s with
  | EmptyString => EmptyString
  | String c r =>
      let r' := trimEnd r in
      if isWhiteSpace c && String.eqb r' "" then EmptyString
      else String c r'
  end.

Definition trim (s : string) : string := trimEnd (trimStart s).

(** [s.length]. *)
Definition length (s : string) : Z := Z.of_nat (String.length s).

(** The outcome of an awaited call: resolved with a value, or rejected
    with the message of an [Error]. *)
Inductive Promise (A : Type) : Type :=
| Resolved (a : A)
| Rejected (message : string).
Arguments Resolved {A} a.
Arguments Rejected {A} message.

End JS.

(* ================================================================== *)
(** ** JavaScript numbers *)

Module Num.

(** The binary64 value of an integer (exact below 2^53). *)
Definition ofZ (z : Z) : float :=
  if z <? 0 then PrimFloat.opp (PrimFloat.of_uint63 (Uint63.of_Z (- z)))
  else PrimFloat.of_uint63 (Uint63.of_Z z).

(** [Math.round(x)] for a finite [x]: the nearest integer, a tie going
    towards plus infinity.  Computed exactly from the mantissa and the
    exponent of [x].  (On NaN and the infinities, where JavaScript answers
    [x] itself, this is 0; the code below never rounds such a value.) *)
Definition Math_round (x : float) : Z :=
  match Prim2SF x with
  | S754_finite s m e =>
      let v := if s then Z.neg m else Z.pos m in
      if 0 <=? e then v * 2 ^ e
      else (2 * v + 2 ^ (- e)) / 2 ^ (1 - e)
  | _ => 0
  end.

(** [Math.min(a, b)] and [Math.max(a, b)] (zeros of opposite signs, which
    the code never compares, are not told apart). *)
Definition Math_min (a b : float) : float :=
  if PrimFloat.is_nan a || PrimFloat.is_nan b then PrimFloat.nan
  else if PrimFloat.ltb b a then b else a.

Definition Math_max (a b : float) : float :=
  if PrimFloat.is_nan a || PrimFloat.is_nan b then PrimFloat.nan
  else if PrimFloat.ltb a b then b else a.

(** Rounding a quotient of integers [n / d] ([d > 0]) to the nearest
    integer, ties upwards, in exact arithmetic. *)
Definition round_div (n d : Z) : Z := (2 * n + d) / (2 * d).

End Num.

(* ================================================================== *)
(** ** Files and media entries *)

(** A browser [File]: name, declared MIME type, byte length, and a handle
    on the binary payload, which the code never inspects. *)
Record File := mkFile {
  name : string;
  type : string;
  size : Z;
  payload : N
}.

(** [interface MediaFile] of [storageUtils.ts]; optional members are
    [option]s. *)
Record MediaFile := mkMediaFile {
  id : string;
  src : string;
  width : Z;
  height : Z;
  aspectRatio : float;
  caption : option string;
  alt : option string;
  file : File;
  uploadProgress : option float;
  isUploading : option bool;
  cloudUrl : option string
}.

(* ================================================================== *)
(** ** imageUtils.ts: validation *)

Module ImageUtils.

Definition ALLOWED_MIME_TYPES : list string :=
  ["image/jpeg"; "image/jpg"; "image/png"; "image/webp"].

Definition MAX_FILE_SIZE : Z := 10 * 1024 * 1024.

Definition MAX_WIDTH : Z := 2000.

Record Validation := mkValidation {
  isValid : bool;
  error : option string
}.

Definition suspiciousExtensions : list string :=
  [".exe"; ".bat"; ".cmd"; ".scr"; ".com"; ".pif"].

Definition tooLargeError (f : File) : string :=
  "File " ++ JS.dquote ++ name f ++ JS.dquote
    ++ " is too large. Maximum size is 10MB.".

Definition unsupportedError (f : File) : string :=
  "File " ++ JS.dquote ++ name f ++ JS.dquote
    ++ " has unsupported format. Only JPG, PNG, and WebP are allowed.".

Definition suspiciousError (f : File) : string :=
  "File " ++ JS.dquote ++ name f ++ JS.dquote
    ++ " appears to be suspicious and cannot be uploaded.".

Definition validateImageFile (f : File) : Validation :=
  if MAX_FILE_SIZE <? size f then
    mkValidation false (Some (tooLargeError f))
  else if negb (JS.arrayIncludes ALLOWED_MIME_TYPES (type f)) then
    mkValidation false (Some (unsupportedError f))
  else
    let fileName := JS.toLowerCase (name f) in
    if JS.some (fun ext => JS.includes fileName ext) suspiciousExtensions
    then mkValidation false (Some (suspiciousError f))
    else mkValidation true None.

(** The three grounds of refusal. *)
Definition oversized (f : File) : Prop := MAX_FILE_SIZE < size f.

Definition unsupported (f : File) : Prop :=
  ~ In (type f) ALLOWED_MIME_TYPES.

Definition suspicious (f : File) : Prop :=
  exists ext, In ext suspiciousExtensions
              /\ JS.includes (JS.toLowerCase (name f)) ext = true.

(** *** Normalisation *)

(** What [canvas.toBlob] hands to its callback: the encoded bytes, by
    length and handle. *)
Record Blob := mkBlob {
  blobSize : Z;
  blobData : N
}.

Record ProcessedImage := mkProcessedImage {
  file : File;
  width : Z;
  height : Z;
  aspectRatio : float
}.

(** The browser's part in [processImage]: [decoded] is the natural size
    ([img.width], [img.height]) with which [img.onload] fires, or [None]
    when [img.onerror] fires instead; [encoded w h] is what
    [canvas.toBlob] yields for the [w] x [h] canvas ([None]: no blob). *)
Record Browser := mkBrowser {
  decoded : option (Z * Z);
  encoded : Z -> Z -> option Blob
}.

(** [processImage]: the promise it returns, settled by [img.onload] or
    [img.onerror].  ([lastModified] of the new [File] is not part of
    [File].) *)
Definition processImage (b : Browser) (f : File) : JS.Promise ProcessedImage :=
  match decoded b with
  | None => JS.Rejected ("Failed to load image: " ++ name f)
  | Some (originalWidth, originalHeight) =>
      let aspectRatio :=
        (Num.ofZ originalWidth / Num.ofZ originalHeight)%float in
      let '(newWidth, newHeight) :=
        if MAX_WIDTH <? originalWidth
        then (MAX_WIDTH,
              Num.Math_round (Num.ofZ MAX_WIDTH / aspectRatio)%float)
        else (originalWidth, originalHeight) in
      match encoded b newWidth newHeight with
      | None => JS.Rejected "Failed to process image"
      | Some blob =>
          let processedFile :=
            mkFile (name f) (type f) (blobSize blob) (blobData blob) in
          JS.Resolved
            (mkProcessedImage processedFile newWidth newHeight
               (Num.ofZ newWidth / Num.ofZ newHeight)%float)
      end
  end.

Record Moderation := mkModeration {
  approved : bool;
  reason : option string
}.

(** [moderateImage]: the placeholder approves every image. *)
Definition moderateImage (f : File) : Moderation :=
  mkModeration true None.

End ImageUtils.

(* ================================================================== *)
(** ** AutoLayout.tsx: section placement *)

Module AutoLayout.

Definition getSectionPlacement (caption : string) : string :=
  let lowerCaption := JS.toLowerCase caption in
  if JS.includes lowerCaption "intro"
     || JS.includes lowerCaption "background"
     || JS.includes lowerCaption "overview"
  then "introduction"
  else if JS.includes lowerCaption "method"
          || JS.includes lowerCaption "approach"
          || JS.includes lowerCaption "process"
  then "methodology"
  else if JS.includes lowerCaption "result"
          || JS.includes lowerCaption "data"
          || JS.includes lowerCaption "chart"
          || JS.includes lowerCaption "graph"
  then "results"
  else "results".

(** The three keyword groups, as the conditions of [getSectionPlacement]
    test them on the lower-cased caption. *)
Definition introKeyword (l : string) : bool :=
  JS.includes l "intro" || JS.includes l "background"
  || JS.includes l "overview".

Definition methodKeyword (l : string) : bool :=
  JS.includes l "method" || JS.includes l "approach"
  || JS.includes l "process".

Definition resultKeyword (l : string) : bool :=
  JS.includes l "result" || JS.includes l "data"
  || JS.includes l "chart" || JS.includes l "graph".

(** [arr.findIndex(p)]: the first index whose element satisfies [p],
    or -1. *)
Fixpoint findIndex {A} (p : A -> bool) (l : list A) : Z :=
  match l with
  | [] => -1
  | x :: r =>
      if p x then 0
      else let k := findIndex p r in if k <? 0 then -1 else k + 1
  end.

(** [arr.splice(start, 1)] for [0 <= start]: the array left and the
    array of the removed elements. *)
Definition splice_delete1 {A} (start : nat) (l : list A)
  : list A * list A :=
  ((firstn start l ++ skipn (S start) l)%list,
   firstn 1 (skipn start l)).

(** [arr.splice(start, 0, x)] for [0 <= start]: [x] goes in before the
    element at [start], or at the end when [start] is past it. *)
Definition splice_insert {A} (start : nat) (x : A) (l : list A) : list A :=
  (firstn start l ++ x :: skipn start l)%list.

(** [handleDrop(e, targetId)].  [draggedItem] is the component's state,
    [onReorder] tells whether the property is set; the result is the
    argument of the [onReorder] call, [None] when the handler returns
    without one. *)
Definition handleDrop (draggedItem : option string) (onReorder : bool)
    (mediaFiles : list MediaFile) (targetId : string)
  : option (list MediaFile) :=
  match draggedItem with
  | None => None
  | Some dragged =>
      if String.eqb dragged "" || String.eqb dragged targetId
         || negb onReorder
      then None
      else
        let draggedIndex :=
          findIndex (fun f => String.eqb (id f) dragged) mediaFiles in
        let targetIndex :=
          findIndex (fun f => String.eqb (id f) targetId) mediaFiles in
        if (draggedIndex =? -1) || (targetIndex =? -1) then None
        else
          let '(newFiles, removed) :=
            splice_delete1 (Z.to_nat draggedIndex) mediaFiles in
          match removed with
          | draggedFile :: _ =>
              Some (splice_insert (Z.to_nat targetIndex) draggedFile
                      newFiles)
          | [] => None (* the index found is in range *)
          end
  end.

(** [removeFile(fileId)]: the argument of its [onReorder] call. *)
Definition removeFile (mediaFiles : list MediaFile) (fileId : string)
  : list MediaFile :=
  filter (fun f => negb (String.eqb (id f) fileId)) mediaFiles.

(** *** Captions and alt text *)

(** What may follow the dot of [/\.[^/.]+$/]: one code unit or more, none
    of them a slash or a dot, up to the end of the string. *)
Definition extensionTail (r : string) : bool :=
  negb (String.eqb r "")
  && JS.every
       (fun c => negb (Ascii.eqb c "/"%char) && negb (Ascii.eqb c "."%char))
       r.

(** [s.replace(/\.[^/.]+$/, '')]: the match, if there is one, starts at
    the first dot that [extensionTail] follows, and runs to the end. *)
Fixpoint stripExtension (s : string) : string :=
  match s with
  | EmptyString => EmptyString
  | String c r =>
      if Ascii.eqb c "."%char && extensionTail r then EmptyString
      else String c (stripExtension r)
  end.

(** [getCaption(file)]. *)
Definition getCaption (mediaFile : MediaFile) : string :=
  JS.orElse (caption mediaFile) (stripExtension (name (file mediaFile))).

(** The state of the alt-text editor: [editingAlt] and [tempAltText]. *)
Record Editor := mkEditor {
  editingAlt : option string;
  tempAltText : string
}.

(** [startEditingAlt(fileId)]. *)
Definition startEditingAlt (mediaFiles : list MediaFile) (fileId : string)
    (ed : Editor) : Editor :=
  match find (fun f => String.eqb (id f) fileId) mediaFiles with
  | Some f => mkEditor (Some fileId) (JS.orElse (alt f) "")
  | None => ed
  end.

(** [{ ...f, alt: tempAltText }]. *)
Definition withAlt (text : string) (f : MediaFile) : MediaFile :=
  mkMediaFile (id f) (src f) (width f) (height f) (aspectRatio f)
    (caption f) (Some text) (file f) (uploadProgress f) (isUploading f)
    (cloudUrl f).

(** [saveAltText(fileId)]: the argument of its [onReorder] call ([None]
    when the property is not set, and the editor is then left open), and
    the editor after it. *)
Definition saveAltText (onReorder : bool) (mediaFiles : list MediaFile)
    (fileId : string) (ed : Editor) : option (list MediaFile) * Editor :=
  if negb onReorder then (None, ed)
  else
    (Some
       (map (fun f => if String.eqb (id f) fileId
                      then withAlt (tempAltText ed) f else f)
          mediaFiles),
     mkEditor None "").

(** [cancelEditingAlt()]. *)
Definition cancelEditingAlt (ed : Editor) : Editor := mkEditor None "".

(** Two entries that differ at most in [alt]. *)
Definition sameButAlt (x x' : MediaFile) : Prop :=
  id x' = id x /\ src x' = src x /\ width x' = width x
  /\ height x' = height x /\ aspectRatio x' = aspectRatio x
  /\ caption x' = caption x /\ file x' = file x
  /\ uploadProgress x' = uploadProgress x
  /\ isUploading x' = isUploading x /\ cloudUrl x' = cloudUrl x.

End AutoLayout.


(* ================================================================== *)
(** ** storageUtils.ts: batch intake *)

Module StorageUtils.

(** What a run of the intake does that its caller can see: the calls of
    the three callbacks and the console lines, in order. *)
Inductive Event : Type :=
| onProgress (fileId : string) (progress : float) (isUploading : bool)
| onComplete (newFiles : list MediaFile)
| onError (error : string)
| console_warn (message detail : string)
| console_error (message detail : string).

(** The remote store's part in [upload]: the call resolves with an error,
    or with success, after which [getPublicUrl] gives the public URL; or
    the call itself rejects, with an error of the given message. *)
Inductive StoreAnswer : Type :=
| StoreError (message : string)
| StorePublicUrl (publicUrl : string)
| StoreRejects (message : string).

(** An interval started during a run, by what it does once the code that
    started it has moved on: the calls it still makes, when something
    clears it in the end (its own callback, or the code that started it);
    or, when nothing ever clears it, the calls of each of its firings,
    given the sample that [Math.random()] returns to that firing. *)
Inductive Interval : Type :=
| cleared (ticks : list Event)
| endless (tick : float -> list Event).

(** The world around one file of the batch: the clock at the start of
    its iteration, the browser's decoding and encoding of it, the samples
    [Math.random()] returns to the progress timer while the upload is
    outstanding, the store's answer, and the identifier the browser puts
    in the blob URL it creates for the file. *)
Record Env := mkEnv {
  now : Z;
  browser : ImageUtils.Browser;
  randoms : list float;
  store : StoreAnswer;
  blobUuid : string
}.

(** [URL.createObjectURL(blob)]: a fresh URL of the [blob:] scheme. *)
Definition createObjectURL (e : Env) : string := "blob:" ++ blobUuid e.

(** [uploadFileToCloud]: the calls it makes until it settles, the promise
    it returns, and the interval it starts.  [supabase] tells whether the
    client is configured.  The interval fires once per sample of
    [randoms e] while the upload is outstanding; [clearInterval] follows
    the [await], so an upload that rejects leaves the interval running.
    (The path under which the file is stored, made of a time stamp and a
    random suffix, only reaches the store, whose answer is read from
    [e].) *)
Definition uploadFileToCloud (supabase : bool) (e : Env) (f : File)
    (progress : float -> list Event)
  : list Event * JS.Promise string * list Interval :=
  if negb supabase then ([], JS.Rejected "Cloud storage not available", [])
  else
    let tick := fun r => progress (Num.Math_min 90 (r * 80 + 10))%float in
    let ticks := flat_map tick (randoms e) in
    match store e with
    | StoreError message =>
        ((ticks ++ [console_error "Upload failed:" message])%list,
         JS.Rejected
           ("Failed to upload " ++ name f ++ ": " ++ message),
         [cleared []])
    | StorePublicUrl publicUrl =>
        ((ticks ++ progress 100%float)%list, JS.Resolved publicUrl,
         [cleared []])
    | StoreRejects message =>
        ((ticks ++ [console_error "Upload failed:" message])%list,
         JS.Rejected
           ("Failed to upload " ++ name f ++ ": " ++ message),
         [endless tick])
    end.

(** The loop's variables, the calls made so far, and the intervals
    started. *)
Record State := mkState {
  newFiles : list MediaFile;
  errors : list string;
  calls : list Event;
  intervals : list Interval
}.

Definition emit (evs : list Event) (st : State) : State :=
  mkState (newFiles st) (errors st) (calls st ++ evs)%list (intervals st).

Definition pushError (msg : string) (st : State) : State :=
  mkState (newFiles st) (errors st ++ [msg])%list (calls st) (intervals st).

Definition pushFile (m : MediaFile) (st : State) : State :=
  mkState (newFiles st ++ [m])%list (errors st) (calls st) (intervals st).

Definition setInterval (started : list Interval) (st : State) : State :=
  mkState (newFiles st) (errors st) (calls st)
    (intervals st ++ started)%list.

(** Assignment to the members of the object at index [k] of an array:
    the array holds the object itself, so the entry changes in place. *)
Definition modifyAt {A} (k : nat) (g : A -> A) (l : list A) : list A :=
  (firstn k l ++
   match skipn k l with
   | [] => []
   | m :: r => g m :: r
   end)%list.

Definition assign (k : nat) (g : MediaFile -> MediaFile) (st : State)
  : State :=
  mkState (modifyAt k g (newFiles st)) (errors st) (calls st)
    (intervals st).

(** [mediaFile.src = cloudUrl; mediaFile.cloudUrl = cloudUrl;
     mediaFile.isUploading = false; mediaFile.uploadProgress = 100]. *)
Definition withCloudUrl (url : string) (m : MediaFile) : MediaFile :=
  mkMediaFile (id m) url (width m) (height m) (aspectRatio m) (caption m)
    (alt m) (file m) (Some 100%float) (Some false) (Some url).

(** [mediaFile.src = URL.createObjectURL(...);
     mediaFile.isUploading = false; mediaFile.uploadProgress = 100]. *)
Definition withLocalUrl (url : string) (m : MediaFile) : MediaFile :=
  mkMediaFile (id m) url (width m) (height m) (aspectRatio m) (caption m)
    (alt m) (file m) (Some 100%float) (Some false) (cloudUrl m).

(** The interval of the local path: every 100 ms, [progress += 20] and a
    call of [onProgress], until [progress >= 100] clears it. *)
Fixpoint simulatedProgress (fuel : nat) (fileId : string)
    (progress : float) : list Event :=
  match fuel with
  | O => []
  | S fuel' =>
      let progress := (progress + 20)%float in
      onProgress fileId progress (PrimFloat.ltb progress 100)
      :: (if PrimFloat.leb 100 progress then []
          else simulatedProgress fuel' fileId progress)
  end.

Definition fileIdOf (e : Env) (i : nat) : string :=
  JS.Number_toString (now e) ++ JS.Number_toString (Z.of_nat i).

(** [validation.error!] pushed to [errors] ([join] prints a missing
    member as the empty string). *)
Definition unwrap (o : option string) : string :=
  match o with Some s => s | None => "" end.

(** One turn of the [for] loop, for the file [f] at index [i]. *)
Definition iteration (supabase : bool) (e : Env) (i : nat) (f : File)
    (st : State) : State :=
  let fileId := fileIdOf e i in
  let validation := ImageUtils.validateImageFile f in
  if negb (ImageUtils.isValid validation) then
    pushError (unwrap (ImageUtils.error validation)) st
  else
    let st := emit [onProgress fileId 10 true] st in
    match ImageUtils.processImage (browser e) f with
    | JS.Rejected err =>
        emit [console_error ("Failed to process " ++ name f ++ ":") err]
          (pushError (name f ++ ": Failed to process image") st)
    | JS.Resolved processedImage =>
        let st := emit [onProgress fileId 20 true] st in
        let moderationResult :=
          ImageUtils.moderateImage (ImageUtils.file processedImage) in
        if negb (ImageUtils.approved moderationResult) then
          pushError
            (name f ++ ": "
               ++ JS.orElse (ImageUtils.reason moderationResult)
                    "Content not approved") st
        else
          let mediaFile :=
            mkMediaFile fileId ""
              (ImageUtils.width processedImage)
              (ImageUtils.height processedImage)
              (ImageUtils.aspectRatio processedImage)
              None None
              (ImageUtils.file processedImage)
              (Some 0%float) (Some true) None in
          let k := List.length (newFiles st) in
          let st := pushFile mediaFile st in
          if supabase then
            let st := emit [onProgress fileId 30 true] st in
            match
              uploadFileToCloud supabase e
                (ImageUtils.file processedImage)
                (fun progress =>
                   [onProgress fileId (Num.Math_max 30 progress) true])
            with
            | (evs, JS.Resolved url, started) =>
                emit [onProgress fileId 100 false]
                  (assign k (withCloudUrl url)
                     (emit evs (setInterval started st)))
            | (evs, JS.Rejected uploadError, started) =>
                emit [onProgress fileId 100 false]
                  (assign k (withLocalUrl (createObjectURL e))
                     (emit
                        (evs ++
                         [console_warn
                            ("Cloud upload failed for " ++ name f
                               ++ ", falling back to local storage:")
                            uploadError])%list
                        (setInterval started st)))
            end
          else
            setInterval [cleared (simulatedProgress 8 fileId 30)]
              (assign k (withLocalUrl (createObjectURL e)) st)
    end.

Fixpoint loop (supabase : bool) (env : nat -> Env) (i : nat)
    (files : list File) (st : State) : State :=
  match files with
  | [] => st
  | f :: rest =>
      loop supabase env (S i) rest (iteration supabase (env i) i f st)
  end.

Definition maxFiles : Z := 12.

Definition limitMessage (existingFiles : list MediaFile) : string :=
  "Maximum " ++ JS.Number_toString maxFiles
    ++ " files allowed. You can add "
    ++ JS.Number_toString (maxFiles - Z.of_nat (List.length existingFiles))
    ++ " more files.".

(** What the caller observes of a run: the calls made until it returns,
    and the intervals it has started. *)
Record Run := mkRun {
  trace : list Event;
  timers : list Interval
}.

(** [processAndUploadFiles(files, userId, projectId, existingFiles,
    onProgress, onComplete, onError)]; [env i] is the world around
    [files[i]]. *)
Definition processAndUploadFiles (supabase : bool) (env : nat -> Env)
    (files : list File) (existingFiles : list MediaFile) : Run :=
  if maxFiles
       <? Z.of_nat (List.length existingFiles) + Z.of_nat (List.length files)
  then mkRun [onError (limitMessage existingFiles)] []
  else
    let st := loop supabase env 0 files (mkState [] [] [] []) in
    mkRun
      (calls st
         ++ (if (0 <? List.length (errors st))%nat
             then [onError (JS.join JS.newline (errors st))] else [])
         ++ (if (0 <? List.length (newFiles st))%nat
             then [onComplete (newFiles st)] else []))%list
      (intervals st).

(** *** What a file of the batch leaves behind

    The loop above, turn by turn: the entry with which the file at index
    [i] ends in [newFiles] (none when it is refused), and the line it adds
    to [errors]. *)

Definition localEntry (e : Env) (i : nat) (p : ImageUtils.ProcessedImage)
  : MediaFile :=
  mkMediaFile (fileIdOf e i) (createObjectURL e) (ImageUtils.width p)
    (ImageUtils.height p) (ImageUtils.aspectRatio p) None None
    (ImageUtils.file p) (Some 100%float) (Some false) None.

Definition cloudEntry (e : Env) (i : nat) (p : ImageUtils.ProcessedImage)
    (url : string) : MediaFile :=
  mkMediaFile (fileIdOf e i) url (ImageUtils.width p)
    (ImageUtils.height p) (ImageUtils.aspectRatio p) None None
    (ImageUtils.file p) (Some 100%float) (Some false) (Some url).

Definition entryOf (supabase : bool) (e : Env) (i : nat) (f : File)
  : list MediaFile :=
  if ImageUtils.isValid (ImageUtils.validateImageFile f) then
    match ImageUtils.processImage (browser e) f with
    | JS.Resolved p =>
        [if supabase then
           match store e with
           | StorePublicUrl url => cloudEntry e i p url
           | StoreError _ | StoreRejects _ => localEntry e i p
           end
         else localEntry e i p]
    | JS.Rejected _ => []
    end
  else [].

Definition errorOf (e : Env) (f : File) : list string :=
  if ImageUtils.isValid (ImageUtils.validateImageFile f) then
    match ImageUtils.processImage (browser e) f with
    | JS.Resolved _ => []
    | JS.Rejected _ => [name f ++ ": Failed to process image"]
    end
  else [unwrap (ImageUtils.error (ImageUtils.validateImageFile f))].

(** The files of a batch with their indices, counted from [i]. *)
Fixpoint indexed (i : nat) (files : list File) : list (nat * File) :=
  match files with
  | [] => []
  | f :: rest => (i, f) :: indexed (S i) rest
  end.

(** The file at index [j] passes validation and normalisation. *)
Definition accepted (env : nat -> Env) (jf : nat * File) : bool :=
  ImageUtils.isValid (ImageUtils.validateImageFile (snd jf))
  && match ImageUtils.processImage (browser (env (fst jf))) (snd jf) with
     | JS.Resolved _ => true
     | JS.Rejected _ => false
     end.

(** The messages handed to the error callback, and the batches handed to
    the completion callback, in a run. *)
Definition errorCalls (r : Run) : list string :=
  flat_map (fun ev => match ev with onError m => [m] | _ => [] end)
    (trace r).

Definition completeCalls (r : Run) : list (list MediaFile) :=
  flat_map (fun ev => match ev with onComplete l => [l] | _ => [] end)
    (trace r).

(** Neither callback of the end of the run. *)
Definition quiet (ev : Event) : Prop :=
  match ev with
  | onComplete _ | onError _ => False
  | _ => True
  end.

(** [cleanupObjectUrls]: the calls of [URL.revokeObjectURL] it makes. *)
Definition cleanupObjectUrls (mediaFiles : list MediaFile) : list string :=
  flat_map
    (fun file =>
       if JS.startsWith (src file) "blob:"
          && negb (match cloudUrl file with
                   | Some u => negb (String.eqb u "")
                   | None => false
                   end)
       then [src file] else [])
    mediaFiles.

(** An entry with a local object URL and no remote URL. *)
Definition localOnly (m : MediaFile) : Prop :=
  JS.startsWith (src m) "blob:" = true /\ cloudUrl m = None.

(** The progress calls of one simulated interval, as long as it runs: the
    last one, which reports more than 100, is made before the interval is
    cleared. *)
Definition fourTicks (fileId : string) : list Event :=
  [onProgress fileId 50 true; onProgress fileId 70 true;
   onProgress fileId 90 true; onProgress fileId 110 false].

End StorageUtils.

(* ================================================================== *)
(** ** ProjectStepper.tsx: the component that owns the media list *)

Module ProjectStepper.

(** The media list, the error messages on display, and the log of the
    [URL.revokeObjectURL] calls made so far. *)
Record Component := mkComponent {
  mediaFiles : list MediaFile;
  errors : list string;
  revoked : list string
}.

(** The clean-up of
    [useEffect(() => () => { if (mediaFiles.length > 0)
       cleanupObjectUrls(mediaFiles) }, [mediaFiles])]
    for the list of the render that installed it. *)
Definition effectCleanup (mediaFiles : list MediaFile) : list string :=
  if (0 <? List.length mediaFiles)%nat
  then StorageUtils.cleanupObjectUrls mediaFiles
  else [].

(** [setMediaFiles(next)] with a fresh array, and the render it causes:
    the dependency [mediaFiles] has changed, so the effect of the previous
    render is cleaned up, with the previous list. *)
Definition setMediaFiles (next : list MediaFile) (c : Component)
  : Component :=
  mkComponent next (errors c)
    (revoked c ++ effectCleanup (mediaFiles c))%list.

Definition setErrors (next : list string) (c : Component) : Component :=
  mkComponent (mediaFiles c) next (revoked c).

(** Unmounting runs the clean-up of the last render. *)
Definition unmount (c : Component) : list string :=
  (revoked c ++ effectCleanup (mediaFiles c))%list.

(** [<AutoLayout mediaFiles={mediaFiles} onReorder={setMediaFiles} />]:
    removing an entry, and dropping a dragged entry on another. *)
Definition removeFile (fileId : string) (c : Component) : Component :=
  setMediaFiles (AutoLayout.removeFile (mediaFiles c) fileId) c.

Definition handleDrop (draggedItem : option string) (targetId : string)
    (c : Component) : Component :=
  match AutoLayout.handleDrop draggedItem true (mediaFiles c) targetId with
  | Some newFiles => setMediaFiles newFiles c
  | None => c
  end.

Section Intake.

(** The caption generator of the component, by its result
    [(caption, alt)] for a file name. *)
Variable generateImageMeta : string -> string * string.

Definition withProgress (fileId : string) (progress : float)
    (uploading : bool) (m : MediaFile) : MediaFile :=
  if String.eqb (id m) fileId
  then mkMediaFile (id m) (src m) (width m) (height m) (aspectRatio m)
         (caption m) (alt m) (file m) (Some progress) (Some uploading)
         (cloudUrl m)
  else m.

Definition withMetadata (m : MediaFile) : MediaFile :=
  let metadata := generateImageMeta (name (file m)) in
  mkMediaFile (id m) (src m) (width m) (height m) (aspectRatio m)
    (Some (fst metadata)) (Some (snd metadata)) (file m)
    (uploadProgress m) (isUploading m) (cloudUrl m).

(** The progress and error callbacks act at once. *)
Definition handleNow (c : Component) (ev : StorageUtils.Event)
  : Component :=
  match ev with
  | StorageUtils.onProgress fileId progress uploading =>
      setMediaFiles
        (map (withProgress fileId progress uploading) (mediaFiles c)) c
  | StorageUtils.onError error => setErrors [error] c
  | _ => c
  end.

(** The completion callback appends once the captions are there. *)
Definition handleComplete (c : Component) (ev : StorageUtils.Event)
  : Component :=
  match ev with
  | StorageUtils.onComplete newFiles =>
      setMediaFiles (mediaFiles c ++ map withMetadata newFiles)%list c
  | _ => c
  end.

(** The calls that an interval makes before the completion callback
    appends: all of them when it is cleared; when it is not, those of its
    firings in that time, one per sample. *)
Definition ticksOf (samples : list float) (t : StorageUtils.Interval)
  : list StorageUtils.Event :=
  match t with
  | StorageUtils.cleared ticks => ticks
  | StorageUtils.endless tick => flat_map tick samples
  end.

Fixpoint ticksBefore (samples : nat -> list float) (k : nat)
    (timers : list StorageUtils.Interval) : list StorageUtils.Event :=
  match timers with
  | [] => []
  | t :: rest =>
      (ticksOf (samples k) t ++ ticksBefore samples (S k) rest)%list
  end.

(** The callbacks of a run that act at once, each a state update
    ([setMediaFiles(prev => ...)], [setErrors]) on the component as it is
    when the call is made: the calls of the run, and those its intervals
    make before the completion callback appends ([samples k]: the samples
    drawn by the firings of the [k]-th interval in that time, if nothing
    clears it). *)
Definition progressCalls (samples : nat -> list float)
    (run : StorageUtils.Run) (c : Component) : Component :=
  fold_left handleNow
    (StorageUtils.trace run
       ++ ticksBefore samples 0 (StorageUtils.timers run))%list
    c.

(** The completion callback, which waits 500 ms for the captions and then
    appends to the list as it is by then. *)
Definition completion (run : StorageUtils.Run) (c : Component)
  : Component :=
  fold_left handleComplete (StorageUtils.trace run) c.

(** A firing of an interval that nothing has cleared, after the
    completion callback has appended; [sample] is what [Math.random()]
    returns to it. *)
Definition laterFiring (t : StorageUtils.Interval) (sample : float)
    (c : Component) : Component :=
  fold_left handleNow (ticksOf [sample] t) c.

(** [processFiles(files)], called in a render whose list is [rendered]:
    the closure hands that list to the intake, which checks the limit
    against it; the callbacks find the component as it is by then, [c],
    which another intake may have changed since that render.  Here the
    callbacks of this intake follow each other with nothing in between:
    those that act at once, then the completion. *)
Definition processFiles (supabase : bool)
    (env : nat -> StorageUtils.Env) (samples : nat -> list float)
    (files : list File) (rendered : list MediaFile) (c : Component)
  : Component :=
  let run :=
    StorageUtils.processAndUploadFiles supabase env files rendered in
  completion run (progressCalls samples run c).

End Intake.

(** Two entries that differ at most in [uploadProgress] and
    [isUploading]. *)
Definition sameButProgress (m m' : MediaFile) : Prop :=
  id m' = id m /\ src m' = src m /\ width m' = width m
  /\ height m' = height m /\ aspectRatio m' = aspectRatio m
  /\ caption m' = caption m /\ alt m' = alt m /\ file m' = file m
  /\ cloudUrl m' = cloudUrl m.

(** *** The three steps of the form *)

Record FormData := mkFormData {
  projectIdea : string;
  subject : string;
  steps : string
}.

(** [currentStep] and [formData]. *)
Record Wizard := mkWizard {
  currentStep : Z;
  formData : FormData
}.

(** The state of the first render. *)
Definition initial : Wizard := mkWizard 1 (mkFormData "" "" "").

(** The three named fields of the form. *)
Inductive Field : Type := projectIdeaField | subjectField | stepsField.

(** [handleInputChange]: [{ ...prev, [name]: value }]. *)
Definition handleInputChange (field : Field) (value : string)
    (w : Wizard) : Wizard :=
  let prev := formData w in
  mkWizard (currentStep w)
    match field with
    | projectIdeaField => mkFormData value (subject prev) (steps prev)
    | subjectField => mkFormData (projectIdea prev) value (steps prev)
    | stepsField => mkFormData (projectIdea prev) (subject prev) value
    end.

(** [validateStep(step)]; step 3 asks for step 1 again. *)
Definition validateStep (formData : FormData) (step : Z) : bool :=
  let first :=
    (20 <=? JS.length (JS.trim (projectIdea formData)))
    && negb (String.eqb (JS.trim (subject formData)) "") in
  if step =? 1 then first
  else if step =? 2 then true
  else if step =? 3 then first
  else false.

Definition setCurrentStep (step : Z) (w : Wizard) : Wizard :=
  mkWizard step (formData w).

Definition handleNext (w : Wizard) : Wizard :=
  if (currentStep w <? 3) && validateStep (formData w) (currentStep w)
  then setCurrentStep (currentStep w + 1) w
  else w.

Definition handleBack (w : Wizard) : Wizard :=
  if 1 <? currentStep w then setCurrentStep (currentStep w - 1) w else w.

Definition handleStepClick (step : Z) (w : Wizard) : Wizard :=
  if (step <=? currentStep w)
     || ((step =? currentStep w + 1)
         && validateStep (formData w) (currentStep w))
  then setCurrentStep step w
  else w.

(** The [keydown] listener of the document; [inside] tells whether the
    target of the event is inside the stepper navigation. *)
Definition handleKeyDown (inside : bool) (key : string) (w : Wizard)
  : Wizard :=
  if inside then
    if String.eqb key "ArrowLeft" && (1 <? currentStep w)
    then setCurrentStep (currentStep w - 1) w
    else if String.eqb key "ArrowRight" && (currentStep w <? 3)
    then setCurrentStep (currentStep w + 1) w
    else w
  else w.

(** [handleGenerate]: the arguments of its [onGenerate] call, if it makes
    one; [onGenerate] tells whether the property is set. *)
Definition handleGenerate (onGenerate : bool) (w : Wizard)
    (mediaFiles : list MediaFile)
  : option (FormData * list MediaFile) :=
  if validateStep (formData w) 1 && onGenerate
  then Some (formData w, mediaFiles)
  else None.

(** The tabs of the navigation: the entries of [steps], by their
    [number]. *)
Inductive Tab : Type := Idea | Media | Generate.

Definition number (t : Tab) : Z :=
  match t with Idea => 1 | Media => 2 | Generate => 3 end.

(** What a user does to the form, one event at a time, each followed by
    the render that installs the handlers of the new state. *)
Inductive Action : Type :=
| clickNext
| clickBack
| clickTab (t : Tab)
| keyDown (inside : bool) (key : string)
| change (field : Field) (value : string).

(** The fields are rendered in step 1 only ([renderStepContent]). *)
Definition act (w : Wizard) (a : Action) : Wizard :=
  match a with
  | clickNext => handleNext w
  | clickBack => handleBack w
  | clickTab t => handleStepClick (number t) w
  | keyDown inside key => handleKeyDown inside key w
  | change field value =>
      if currentStep w =? 1 then handleInputChange field value w else w
  end.

(** An event other than a right arrow pressed inside the navigation. *)
Definition noRightArrow (a : Action) : bool :=
  match a with
  | keyDown true key => negb (String.eqb key "ArrowRight")
  | _ => true
  end.

End ProjectStepper.

(* ================================================================== *)
(** ** The [MediaUploader] component: an uploader that validates on its own *)

Module MediaUploader.

Definition allowedTypes : list string :=
  ["image/jpeg"; "image/jpg"; "image/png"; "image/webp"].

Definition maxSize : Z := 10 * 1024 * 1024.

Definition maxFiles : Z := 12.

Definition unsupportedError (file : File) : string :=
  name file
    ++ ": Unsupported file type. Only JPG, PNG, and WebP are allowed.".

Definition tooLargeError (file : File) : string :=
  name file ++ ": File too large. Maximum size is 10MB.".

Definition failedError (file : File) : string :=
  name file ++ ": Failed to process image".

(** The two checks at the head of a turn of the loop: the message pushed
    to [uploadErrors], if the turn ends there. *)
Definition check (file : File) : option string :=
  if negb (JS.arrayIncludes allowedTypes (type file))
  then Some (unsupportedError file)
  else if maxSize <? size file then Some (tooLargeError file)
  else None.

(** The world of one turn: the clock, the object URL made for the image
    element, the size with which it loads ([None]: [img.onerror]), and the
    object URL made for the entry. *)
Record Env := mkEnv {
  now : Z;
  loadUuid : string;
  loaded : option (Z * Z);
  srcUuid : string
}.

(** What [processFiles] does: the argument of [onMediaFilesChange], the
    argument of [setErrors] (each [None] if the call is not made), and the
    object URLs created. *)
Record Outcome := mkOutcome {
  changed : option (list MediaFile);
  shown : option (list string);
  created : list string
}.

Definition limitMessage (mediaFiles : list MediaFile) : string :=
  "Maximum " ++ JS.Number_toString maxFiles
    ++ " files allowed. You can add "
    ++ JS.Number_toString (maxFiles - Z.of_nat (List.length mediaFiles))
    ++ " more files.".

Section Uploader.

(** The caption generator, by its result [(caption, alt)] for a file
    name; and [isCloudStorageAvailable()]. *)
Variable generateImageMeta : string -> string * string.
Variable cloud : bool.

(** One turn of the loop: what it pushes to [newFiles] and to
    [uploadErrors], and the object URLs it creates. *)
Definition turn (e : Env) (i : nat) (file : File)
  : list MediaFile * list string * list string :=
  let fileId :=
    JS.Number_toString (now e) ++ JS.Number_toString (Z.of_nat i) in
  match check file with
  | Some error => ([], [error], [])
  | None =>
      match loaded e with
      | None => ([], [failedError file], ["blob:" ++ loadUuid e])
      | Some (width, height) =>
          let aspectRatio := (Num.ofZ width / Num.ofZ height)%float in
          let metadata := generateImageMeta (name file) in
          let src := "blob:" ++ srcUuid e in
          ([mkMediaFile fileId src width height aspectRatio
              (Some (fst metadata)) (Some (snd metadata)) file
              (Some 100%float) (Some false)
              (if cloud then Some src else None)],
           [],
           ["blob:" ++ loadUuid e; src])
      end
  end.

Fixpoint loop (env : nat -> Env) (i : nat) (files : list File)
  : list MediaFile * list string * list string :=
  match files with
  | [] => ([], [], [])
  | file :: rest =>
      let '(newFiles, uploadErrors, urls) := turn (env i) i file in
      let '(newFiles', uploadErrors', urls') := loop env (S i) rest in
      ((newFiles ++ newFiles')%list, (uploadErrors ++ uploadErrors')%list,
       (urls ++ urls')%list)
  end.

(** [processFiles(files)]. *)
Definition processFiles (disabled : bool) (env : nat -> Env)
    (files : list File) (mediaFiles : list MediaFile) : Outcome :=
  if disabled then mkOutcome None None []
  else if maxFiles
          <? Z.of_nat (List.length mediaFiles)
             + Z.of_nat (List.length files)
  then mkOutcome None (Some [limitMessage mediaFiles]) []
  else
    let '(newFiles, uploadErrors, urls) := loop env 0 files in
    mkOutcome
      (if (0 <? List.length newFiles)%nat
       then Some (mediaFiles ++ newFiles)%list else None)
      (if (0 <? List.length uploadErrors)%nat
       then Some uploadErrors else None)
      urls.

(** An entry with an object URL as source, and the same URL as remote URL
    if the store is configured. *)
Definition uploaded (m : MediaFile) : Prop :=
  JS.startsWith (src m) "blob:" = true
  /\ src m <> ""%string
  /\ cloudUrl m = (if cloud then Some (src m) else None).

End Uploader.

(** [removeFile(fileId)]: the argument of [onMediaFilesChange], if the
    call is made. *)
Definition removeFile (disabled : bool) (mediaFiles : list MediaFile)
    (fileId : string) : option (list MediaFile) :=
  if disabled then None
  else Some (filter (fun f => negb (String.eqb (id f) fileId)) mediaFiles).

End MediaUploader.

(* ================================================================== *)
(** ** exportUtils.ts: the document and the names of the downloads *)

Module ExportUtils.

Module ReportSection.
Record t := mk {
  title : string;
  content : string
}.
End ReportSection.

Record ProjectData := mkProjectData {
  title : string;
  abstract : string;
  sections : list ReportSection.t;
  citations : list string
}.

(** *** Names of the downloads *)

(** One code unit against [/[^a-z0-9]/i]: without the [u] flag, a code
    unit matches [a-z] case-insensitively only if it is an ASCII
    letter. *)
Definition isAlnum (c : ascii) : bool :=
  JS.isLower c || JS.isUpper c || JS.isDigit c.

(** [s.replace(/[^a-z0-9]/gi, '_')]. *)
Fixpoint replaceNonAlnum (s : string) : string :=
  match s with
  | EmptyString => EmptyString
  | String c s' =>
      String (if isAlnum c then c else "_"%char) (replaceNonAlnum s')
  end.

(** [s.replace(/[^a-z0-9]/gi, '_').toLowerCase()]. *)
Definition sanitize (s : string) : string :=
  JS.toLowerCase (replaceNonAlnum s).

(** Lower-case letters and digits; and those with the underscore. *)
Definition lowerAlnum (c : ascii) : bool := JS.isLower c || JS.isDigit c.

Definition safeChar (c : ascii) : bool :=
  lowerAlnum c || Ascii.eqb c "_"%char.

(** The argument of [pdf.save]. *)
Definition pdfFileName (p : ProjectData) : string :=
  sanitize (title p) ++ ".pdf".

(** The [fileName] of [pptx.writeFile]. *)
Definition pptxFileName (p : ProjectData) : string :=
  sanitize (title p) ++ ".pptx".

(** [link.download] of [exportToPNG(galleryElementId, filename)]. *)
Definition pngDownloadName (filename : string) : string :=
  sanitize filename ++ "_gallery.png".

(** [exportToPNG]: [galleryElement] tells whether the element is in the
    document; the promise resolves with the name of the download. *)
Definition exportToPNG (galleryElement : bool) (filename : string)
  : JS.Promise string :=
  if negb galleryElement
  then JS.Rejected "Failed to export PNG. Please try again."
  else JS.Resolved (pngDownloadName filename).

(** The dashboard's call: [exportToPNG('gallery-container',
    formData.projectIdea || 'project')]. *)
Definition dashboardPngName (projectIdea : string) : string :=
  pngDownloadName (JS.orElse (Some projectIdea) "project").

(** *** The paginated document *)

(** The calls made on the [jsPDF] object. *)
Inductive PdfOp : Type :=
| setFontSize (size : Z)
| setFont (fontName fontStyle : string)
| text (lines : list string) (x y : float)
| addPage
| addImage (imageData format : string) (x y w h : float)
| save (filename : string).

(** What a reader finds on the pages: the lines of every [text] call,
    with the font size and style in force when it is made. *)
Record Font := mkFont {
  fontSize : Z;
  fontStyle : string
}.

Fixpoint rendered (font : Font) (l : list PdfOp)
  : list (Font * list string) :=
  match l with
  | [] => []
  | setFontSize n :: r => rendered (mkFont n (fontStyle font)) r
  | setFont _ st :: r => rendered (mkFont (fontSize font) st) r
  | text lines _ _ :: r => (font, lines) :: rendered font r
  | _ :: r => rendered font r
  end.

Fixpoint fontAfter (font : Font) (l : list PdfOp) : Font :=
  match l with
  | [] => font
  | setFontSize n :: r => fontAfter (mkFont n (fontStyle font)) r
  | setFont _ st :: r => fontAfter (mkFont (fontSize font) st) r
  | _ :: r => fontAfter font r
  end.

(** A new [jsPDF] document writes at 16 points, in the normal style. *)
Definition defaultFont : Font := mkFont 16 "normal".

(** The elements of an array with their indices, counted from [i]. *)
Fixpoint numbered {A} (i : nat) (l : list A) : list (nat * A) :=
  match l with
  | [] => []
  | x :: r => (i, x) :: numbered (S i) r
  end.

Local Open Scope float_scope.

Definition getScaledDimensions
    (originalWidth originalHeight maxWidth maxHeight : float)
  : float * float :=
  let aspectRatio := originalWidth / originalHeight in
  let '(width, height) :=
    if PrimFloat.ltb maxWidth originalWidth
    then (maxWidth, maxWidth / aspectRatio)
    else (originalWidth, originalHeight) in
  if PrimFloat.ltb maxHeight height
  then (maxHeight * aspectRatio, maxHeight)
  else (width, height).

(** The document under construction: the calls so far and the local
    variable [yPosition]. *)
Record Doc := mkDoc {
  ops : list PdfOp;
  yPosition : float
}.

Definition draw (o : list PdfOp) (d : Doc) : Doc :=
  mkDoc (ops d ++ o)%list (yPosition d).

Definition moveTo (y : float) (d : Doc) : Doc := mkDoc (ops d) y.

Definition advance (dy : float) (d : Doc) : Doc :=
  mkDoc (ops d) (yPosition d + dy).

Definition count {A} (l : list A) : float :=
  Num.ofZ (Z.of_nat (List.length l)).

(** [d'] is [d] with more calls, which render as [out] and leave the font
    [fa], both as functions of the font in force before them. *)
Definition grows (d d' : Doc) (out : Font -> list (Font * list string))
    (fa : Font -> Font) : Prop :=
  exists o, ops d' = (ops d ++ o)%list
            /\ forall font, rendered font o = out font
                            /\ fontAfter font o = fa font.

(** The pictures of the document: the data and the format of every
    [addImage] call; and the names of its [save] calls. *)
Definition imagesOf (l : list PdfOp) : list (string * string) :=
  flat_map (fun o => match o with
                     | addImage imageData format _ _ _ _ =>
                         [(imageData, format)]
                     | _ => []
                     end) l.

Definition savesOf (l : list PdfOp) : list string :=
  flat_map (fun o => match o with save filename => [filename] | _ => [] end)
    l.

(** [d'] is [d] with more calls, which embed [pictures] and save
    nothing. *)
Definition embedding (d d' : Doc) (pictures : list (string * string))
  : Prop :=
  exists o, ops d' = (ops d ++ o)%list
            /\ imagesOf o = pictures /\ savesOf o = [].

Definition figureCaption (i : nat) (mediaFile : MediaFile) : string :=
  ("Figure " ++ JS.Number_toString (Z.of_nat i + 1) ++ ": "
     ++ JS.orElse (caption mediaFile) (name (file mediaFile)))%string.

Definition citationText (index : nat) (citation : string) : string :=
  (JS.Number_toString (Z.of_nat index + 1) ++ ". " ++ citation)%string.

Section Pdf.

(** The page of the [jsPDF] document, its text splitter, the file
    reader ([None]: the read fails), and whether [addImage] takes the
    data it is given (it throws otherwise). *)
Variables pageWidth pageHeight : float.
Variable splitTextToSize : string -> float -> list string.
Variable fileToDataURL : File -> option string.
Variable addImageAccepts : string -> bool.

Definition margin : float := 20.
Definition contentWidth : float := pageWidth - margin * 2.

(** The image of a media entry is read and taken by [addImage]. *)
Definition embeds (mediaFile : MediaFile) : bool :=
  match fileToDataURL (file mediaFile) with
  | Some imageDataURL => addImageAccepts imageDataURL
  | None => false
  end.

(** The data of the image of a media entry, if it is read and taken. *)
Definition embeddedData (mediaFile : MediaFile) : list string :=
  match fileToDataURL (file mediaFile) with
  | Some imageDataURL =>
      if addImageAccepts imageDataURL then [imageDataURL] else []
  | None => []
  end.

Definition addSection (d : Doc) (section : ReportSection.t) : Doc :=
  let d :=
    if PrimFloat.ltb (pageHeight - 40) (yPosition d)
    then moveTo margin (draw [addPage] d) else d in
  let d :=
    draw [setFontSize 14; setFont "helvetica" "bold";
          text [ReportSection.title section] margin (yPosition d)] d in
  let d := advance 10 d in
  let contentLines :=
    splitTextToSize (ReportSection.content section) contentWidth in
  let d :=
    draw [setFontSize 11; setFont "helvetica" "normal";
          text contentLines margin (yPosition d)] d in
  advance (count contentLines * 4 + 10) d.

(** One turn of the loop over the images; a failure inside its [try]
    is logged and the turn ends there. *)
Definition addFigure (i : nat) (mediaFile : MediaFile) (d : Doc) : Doc :=
  match fileToDataURL (file mediaFile) with
  | None => d
  | Some imageDataURL =>
      let maxImageWidth := contentWidth in
      let maxImageHeight := pageHeight - yPosition d - 60 in
      let '(scaledWidth, scaledHeight) :=
        getScaledDimensions (Num.ofZ (width mediaFile))
          (Num.ofZ (height mediaFile)) maxImageWidth maxImageHeight in
      let d :=
        if PrimFloat.ltb (pageHeight - margin)
             (yPosition d + scaledHeight + 30)
        then moveTo margin (draw [addPage] d) else d in
      if negb (addImageAccepts imageDataURL) then d
      else
        let xPosition := margin + (contentWidth - scaledWidth) / 2 in
        let d :=
          draw [addImage imageDataURL "JPEG" xPosition (yPosition d)
                  scaledWidth scaledHeight] d in
        let d := advance (scaledHeight + 5) d in
        let captionLines :=
          splitTextToSize (figureCaption i mediaFile) contentWidth in
        let d :=
          draw [setFontSize 10; setFont "helvetica" "italic";
                text captionLines margin (yPosition d)] d in
        advance (count captionLines * 4 + 15) d
  end.

Fixpoint addFigures (i : nat) (mediaFiles : list MediaFile) (d : Doc)
  : Doc :=
  match mediaFiles with
  | [] => d
  | mediaFile :: rest => addFigures (S i) rest (addFigure i mediaFile d)
  end.

Definition addCitation (index : nat) (citation : string) (d : Doc)
  : Doc :=
  let citationLines :=
    splitTextToSize (citationText index citation) contentWidth in
  let d := draw [text citationLines margin (yPosition d)] d in
  advance (count citationLines * 4 + 5) d.

Fixpoint addCitations (index : nat) (l : list string) (d : Doc) : Doc :=
  match l with
  | [] => d
  | citation :: rest =>
      addCitations (S index) rest (addCitation index citation d)
  end.

(** The blocks of [exportToPDF], in order: title and abstract, ... *)
Definition addTitleAndAbstract (projectData : ProjectData) (d : Doc) : Doc :=
  let d :=
    draw [setFontSize 20; setFont "helvetica" "bold";
          text [title projectData] margin (yPosition d)] d in
  let d := advance 15 d in
  let abstractLines :=
    splitTextToSize (abstract projectData) contentWidth in
  let d :=
    draw [setFontSize 12; setFont "helvetica" "normal";
          text abstractLines margin (yPosition d)] d in
  advance (count abstractLines * 5 + 10) d.

(** ... the Figures section, if there are images, ... *)
Definition addFiguresSection (mediaFiles : list MediaFile) (d : Doc) : Doc :=
  if (0 <? List.length mediaFiles)%nat then
    let d := moveTo margin (draw [addPage] d) in
    let d :=
      draw [setFontSize 16; setFont "helvetica" "bold";
            text ["Figures"%string] margin (yPosition d)] d in
    let d := advance 20 d in
    addFigures 0 mediaFiles d
  else d.

(** ... and the citations, if there are any. *)
Definition addReferences (projectData : ProjectData) (d : Doc) : Doc :=
  if (0 <? List.length (citations projectData))%nat then
    let d := moveTo margin (draw [addPage] d) in
    let d :=
      draw [setFontSize 16; setFont "helvetica" "bold";
            text ["References"%string] margin (yPosition d)] d in
    let d := advance 15 d in
    let d := draw [setFontSize 10; setFont "helvetica" "normal"] d in
    addCitations 0 (citations projectData) d
  else d.

(** [exportToPDF(projectData, mediaFiles)]: the calls made on the
    document, the last of which saves it. *)
Definition exportToPDF (projectData : ProjectData)
    (mediaFiles : list MediaFile) : list PdfOp :=
  let d := mkDoc [] margin in
  let d := addTitleAndAbstract projectData d in
  let d := fold_left addSection (sections projectData) d in
  let d := addFiguresSection mediaFiles d in
  let d := addReferences projectData d in
  (ops d ++ [save (pdfFileName projectData)])%list.

(** *** The text of the document, part by part *)

Definition sectionText (section : ReportSection.t)
  : list (Font * list string) :=
  [(mkFont 14 "bold", [ReportSection.title section]);
   (mkFont 11 "normal",
    splitTextToSize (ReportSection.content section) contentWidth)].

Definition captionText (im : nat * MediaFile) : Font * list string :=
  (mkFont 10 "italic",
   splitTextToSize (figureCaption (fst im) (snd im)) contentWidth).

Definition citationLine (font : Font) (ic : nat * string)
  : Font * list string :=
  (font, splitTextToSize (citationText (fst ic) (snd ic)) contentWidth).

Definition headerText (projectData : ProjectData)
  : list (Font * list string) :=
  [(mkFont 20 "bold", [title projectData]);
   (mkFont 12 "normal",
    splitTextToSize (abstract projectData) contentWidth)].

Definition figuresHeading : Font * list string :=
  (mkFont 16 "bold", ["Figures"%string]).

Definition figuresText (mediaFiles : list MediaFile)
  : list (Font * list string) :=
  if (0 <? List.length mediaFiles)%nat
  then figuresHeading
       :: map captionText
            (filter (fun im => embeds (snd im)) (numbered 0 mediaFiles))
  else [].

Definition referencesText (projectData : ProjectData)
  : list (Font * list string) :=
  if (0 <? List.length (citations projectData))%nat
  then (mkFont 16 "bold", ["References"%string])
       :: map (citationLine (mkFont 10 "normal"))
            (numbered 0 (citations projectData))
  else [].

End Pdf.

(** *** The slides *)

(** The calls made on a slide of the [PptxGenJS] object: a text with its
    box and font size, or an image with its box. *)
Inductive SlideOp : Type :=
| slideText (content : string) (x y w h : float) (size : Z)
| slideImage (data : string) (x y w h : float).

Definition Slide : Type := list SlideOp.

(** [arr.slice(start, stop)] for [start <= arr.length]. *)
Definition slice {A} (start stop : nat) (l : list A) : list A :=
  firstn (stop - start) (skipn start l).

Definition imagesPerSlide : nat := 6.

(** [Math.ceil(mediaFiles.length / imagesPerSlide)]: the length of an
    array is below 2^32, where the ceiling of the binary64 quotient is
    that of the exact one. *)
Definition totalSlides {A} (mediaFiles : list A) : nat :=
  ((List.length mediaFiles + (imagesPerSlide - 1)) / imagesPerSlide)%nat.

Definition slideTitle (slideIndex : nat) : string :=
  if (slideIndex =? 0)%nat then "Visuals"
  else ("Visuals (" ++ JS.Number_toString (Z.of_nat slideIndex + 1) ++ ")")
         %string.

(** The images of the slide [slideIndex]. *)
Definition slideImages {A} (slideIndex : nat) (mediaFiles : list A)
  : list A :=
  let startIndex := (slideIndex * imagesPerSlide)%nat in
  let endIndex :=
    Nat.min (startIndex + imagesPerSlide) (List.length mediaFiles) in
  slice startIndex endIndex mediaFiles.

#[local] Set Warnings "-inexact-float".

Section Pptx.

(** The file reader and the image embedding, as for the document. *)
Variable fileToDataURL : File -> option string.
Variable addImageAccepts : string -> bool.

Definition gridCols : nat := 3.
Definition imageWidth : float := 2.8.
Definition imageHeight : float := 2.1.

(** One turn of the loop over the images of a slide: the image and its
    caption, or the placeholder of the [catch]. *)
Definition tile (i : nat) (mediaFile : MediaFile) : list SlideOp :=
  let row := (i / gridCols)%nat in
  let col := (i mod gridCols)%nat in
  let x := 0.8 + Num.ofZ (Z.of_nat col) * 3.2 in
  let y := 1.5 + Num.ofZ (Z.of_nat row) * 2.8 in
  let placeholder :=
    slideText ("[Image: " ++ name (file mediaFile) ++ "]") x y
      imageWidth imageHeight 12 in
  match fileToDataURL (file mediaFile) with
  | None => [placeholder]
  | Some imageDataURL =>
      if negb (addImageAccepts imageDataURL) then [placeholder]
      else
        [slideImage imageDataURL x y imageWidth imageHeight;
         slideText
           (JS.orElse (caption mediaFile) (name (file mediaFile)))
           x (y + imageHeight + 0.1) imageWidth 0.4 10]
  end.

Definition titleSlide (projectData : ProjectData) : Slide :=
  [slideText (title projectData) 0.5 2 9 1.5 32;
   slideText (abstract projectData) 1 4 8 3 16].

Definition sectionSlide (section : ReportSection.t) : Slide :=
  [slideText (ReportSection.title section) 0.5 0.5 9 1 24;
   slideText (ReportSection.content section) 0.5 1.8 9 5 14].

Definition visualHeading (slideIndex : nat) : SlideOp :=
  slideText (slideTitle slideIndex) 0.5 0.3 9 0.8 24.

Definition visualSlide (mediaFiles : list MediaFile) (slideIndex : nat)
  : Slide :=
  visualHeading slideIndex
  :: flat_map (fun im => tile (fst im) (snd im))
       (numbered 0 (slideImages slideIndex mediaFiles)).

Definition visualSlides (mediaFiles : list MediaFile) : list Slide :=
  if (0 <? List.length mediaFiles)%nat
  then map (visualSlide mediaFiles) (seq 0 (totalSlides mediaFiles))
  else [].

Definition referencesSlide (projectData : ProjectData) : list Slide :=
  if (0 <? List.length (citations projectData))%nat
  then
    [[slideText "References" 0.5 0.5 9 1 24;
      slideText
        (JS.join (JS.newline ++ JS.newline)
           (map (fun ic => citationText (fst ic) (snd ic))
              (numbered 0 (citations projectData))))
        0.5 1.8 9 5 12]]
  else [].

(** The slides of [exportToPPTX], in the order of their [addSlide]. *)
Definition pptxSlides (projectData : ProjectData)
    (mediaFiles : list MediaFile) : list Slide :=
  (titleSlide projectData
   :: map sectionSlide (sections projectData)
   ++ visualSlides mediaFiles
   ++ referencesSlide projectData)%list.

(** [exportToPPTX(projectData, mediaFiles)]: the presentation and the
    name it is written under; [writes] tells whether [writeFile]
    succeeds. *)
Definition exportToPPTX (writes : bool) (projectData : ProjectData)
    (mediaFiles : list MediaFile) : JS.Promise (list Slide * string) :=
  if writes
  then JS.Resolved
         (pptxSlides projectData mediaFiles, pptxFileName projectData)
  else JS.Rejected "Failed to export PPTX. Please try again.".

End Pptx.

End ExportUtils.

(* ================================================================== *)
(** ** ProjectContext.tsx: the list of projects *)

Module ProjectContext.

Inductive Status : Type := draft | inProgress | completed.

(** The four parts of [sections], each of the type [any]. *)
Record Sections (Any : Type) := mkSections {
  basics : Any;
  literature : Any;
  methodology : Any;
  outcomes : Any
}.
Arguments mkSections {Any}.

Record Project (Any : Type) := mkProject {
  id : string;
  title : string;
  discipline : string;
  type : string;
  status : Status;
  createdAt : string;
  lastModified : string;
  progress : Z;
  sections : Sections Any
}.
Arguments mkProject {Any}.
Arguments id {Any}.
Arguments title {Any}.
Arguments discipline {Any}.
Arguments type {Any}.
Arguments status {Any}.
Arguments createdAt {Any}.
Arguments lastModified {Any}.
Arguments progress {Any}.
Arguments sections {Any}.

(** [Partial<Project>]: the properties that the object has. *)
Record Partial (Any : Type) := mkPartial {
  id' : option string;
  title' : option string;
  discipline' : option string;
  type' : option string;
  status' : option Status;
  createdAt' : option string;
  lastModified' : option string;
  progress' : option Z;
  sections' : option (Sections Any)
}.
Arguments mkPartial {Any}.
Arguments id' {Any}.
Arguments title' {Any}.
Arguments discipline' {Any}.
Arguments type' {Any}.
Arguments status' {Any}.
Arguments createdAt' {Any}.
Arguments lastModified' {Any}.
Arguments progress' {Any}.
Arguments sections' {Any}.

Section Projects.

(** The type [any], and the object [{ completed: false }]. *)
Variable Any : Type.
Variable notCompleted : Any.

(** A property of a spread object wins over the one before it. *)
Definition over {A} (given : option A) (before : A) : A :=
  match given with
  | Some a => a
  | None => before
  end.

(** [{ ...project, ...updates }]. *)
Definition spread (project : Project Any) (updates : Partial Any)
  : Project Any :=
  mkProject
    (over (id' updates) (id project))
    (over (title' updates) (title project))
    (over (discipline' updates) (discipline project))
    (over (type' updates) (type project))
    (over (status' updates) (status project))
    (over (createdAt' updates) (createdAt project))
    (over (lastModified' updates) (lastModified project))
    (over (progress' updates) (progress project))
    (over (sections' updates) (sections project)).

(** [createProject(projectData)]: the new list and the identifier
    returned.  [now] is [Date.now()]; [createdDay] and [modifiedDay] are
    the days of the two [new Date()], in ISO form. *)
Definition newProject (now : Z) (createdDay modifiedDay : string)
    (projectData : Partial Any) : Project Any :=
  spread
    (mkProject
       (JS.Number_toString now)
       (JS.orElse (title' projectData) "Untitled Project")
       (JS.orElse (discipline' projectData) "")
       (JS.orElse (type' projectData) "")
       draft
       createdDay
       modifiedDay
       0
       (mkSections notCompleted notCompleted notCompleted notCompleted))
    projectData.

Definition createProject (now : Z) (createdDay modifiedDay : string)
    (projectData : Partial Any) (projects : list (Project Any))
  : list (Project Any) * string :=
  let newProject := newProject now createdDay modifiedDay projectData in
  ((projects ++ [newProject])%list, id newProject).

Definition withLastModified (day : string) (project : Project Any)
  : Project Any :=
  mkProject (id project) (title project) (discipline project)
    (type project) (status project) (createdAt project) day
    (progress project) (sections project).

(** [updateProject(id, updates)]; [today] is the day of [new Date()],
    one day for the whole update. *)
Definition updateProject (today : string) (projectId : string)
    (updates : Partial Any) (projects : list (Project Any))
  : list (Project Any) :=
  map (fun project =>
         if String.eqb (id project) projectId
         then withLastModified today (spread project updates)
         else project)
    projects.

(** [deleteProject(id)]. *)
Definition deleteProject (projectId : string)
    (projects : list (Project Any)) : list (Project Any) :=
  filter (fun project => negb (String.eqb (id project) projectId))
    projects.

End Projects.

End ProjectContext.

(* ================================================================== *)
(** ** Dashboard.tsx: the generated report and its downloads *)

Module Dashboard.

Import ExportUtils.

(** [generateProjectWithAI(projectData)]: the [report] of the object that
    it resolves with. *)
Definition generateProjectWithAI (projectData : ProjectStepper.FormData)
  : ProjectData :=
  let projectIdea := ProjectStepper.projectIdea projectData in
  let subject := ProjectStepper.subject projectData in
  let steps := ProjectStepper.steps projectData in
  mkProjectData
    ("AI-Generated Report: " ++ projectIdea)
    ("This comprehensive academic report explores " ++ projectIdea
       ++ " within the field of " ++ subject
       ++ ". Through systematic analysis and research methodology, this project aims to contribute valuable insights to the academic community.")
    [ReportSection.mk "1. Introduction and Problem Statement"
       ("The field of " ++ subject
          ++ " presents numerous opportunities for innovative research. This project focuses on "
          ++ projectIdea
          ++ ", addressing key challenges and proposing novel solutions.");
     ReportSection.mk "2. Literature Review and Background"
       ("Recent studies in " ++ subject
          ++ " have shown significant developments. This section reviews relevant literature and identifies research gaps that this project aims to address.");
     ReportSection.mk "3. Methodology and Approach"
       ("Based on the outlined steps: " ++ steps
          ++ ", this project employs a systematic approach combining theoretical analysis with practical implementation.");
     ReportSection.mk "4. Expected Results and Analysis"
       ("The anticipated outcomes of this research include significant contributions to "
          ++ subject
          ++ ", with potential applications in both academic and practical contexts.");
     ReportSection.mk "5. Conclusion and Future Work"
       ("This project represents a meaningful contribution to " ++ subject
          ++ ". Future research directions include expanding the scope and exploring additional applications.")]
    ["Smith, J. (2023). Recent Advances in " ++ subject
       ++ ". Academic Journal, 15(3), 45-62.";
     "Johnson, A. et al. (2024). Innovative Approaches to " ++ projectIdea
       ++ ". Research Quarterly, 8(2), 123-140.";
     "Brown, M. (2023). Methodological Frameworks in " ++ subject
       ++ ". University Press."].

(** [handleGenerateProject]: the report that it stores in [aiOutput];
    [None] when it alerts instead. *)
Definition handleGenerateProject (formData : ProjectStepper.FormData)
  : option ProjectData :=
  if String.eqb (JS.trim (ProjectStepper.projectIdea formData)) ""
     || String.eqb (JS.trim (ProjectStepper.subject formData)) ""
     || String.eqb (JS.trim (ProjectStepper.steps formData)) ""
  then None
  else Some (generateProjectWithAI formData).

Inductive Format : Type := pdf | pptx | png.

(** [format.toUpperCase()]. *)
Definition upperName (format : Format) : string :=
  match format with pdf => "PDF" | pptx => "PPTX" | png => "PNG" end.

(** What [handleExport] leaves behind: the calls made on the document,
    the presentation and the name it is written under, the name of the
    picture that is downloaded, or the message of its [alert]. *)
Inductive Export : Type :=
| document (calls : list PdfOp)
| presentation (slides : list Slide) (fileName : string)
| picture (download : string)
| alert (message : string).

Section Exports.

(** The page, the text splitter, the file reader and the image embedding
    of the exports; whether [writeFile] succeeds; and whether the element
    [gallery-container] is in the document. *)
Variables pageWidth pageHeight : float.
Variable splitTextToSize : string -> float -> list string.
Variable fileToDataURL : File -> option string.
Variable addImageAccepts : string -> bool.
Variable writes : bool.
Variable galleryElement : bool.

(** [handleExport(format)]; [report] is [aiOutput?.report], and [formData]
    the form as it is at the time of the export.  An export that throws
    ends in the [alert] of the [catch]. *)
Definition handleExport (format : Format) (report : option ProjectData)
    (formData : ProjectStepper.FormData) (mediaFiles : list MediaFile)
  : Export :=
  match report with
  | None => alert "Please generate a project first"
  | Some report =>
      let failed :=
        alert ("Failed to export " ++ upperName format
                 ++ ". Please try again.") in
      match format with
      | pdf =>
          document
            (exportToPDF pageWidth pageHeight splitTextToSize fileToDataURL
               addImageAccepts report mediaFiles)
      | pptx =>
          match
            exportToPPTX fileToDataURL addImageAccepts writes report
              mediaFiles
          with
          | JS.Resolved (slides, fileName) => presentation slides fileName
          | JS.Rejected _ => failed
          end
      | png =>
          match
            exportToPNG galleryElement
              (JS.orElse (Some (ProjectStepper.projectIdea formData))
                 "project")
          with
          | JS.Resolved download => picture download
          | JS.Rejected _ => failed
          end
      end
  end.

End Exports.

End Dashboard.

(* ================================================================== *)
(** ** Sample data *)

Module Samples.

(** Files: a suspicious name, an oversized file of a wrong type, a wrong
    type at the size limit, and a plain image at the size limit; and a
    world in which every image decodes and encodes and the store is down. *)
Definition exeFile : File := mkFile "setup.EXE.png" "image/png" 2048 0.
Definition bigFile : File := mkFile "big.gif" "image/gif" 10485761 0.
Definition gifFile : File := mkFile "anim.exe.gif" "image/gif" 10485760 0.
Definition pngFile : File := mkFile "plot.png" "image/png" 10485760 0.

Definition fairEnv (i : nat) : StorageUtils.Env :=
  StorageUtils.mkEnv 1700000000000
    (ImageUtils.mkBrowser (Some (800, 600))
       (fun _ _ => Some (ImageUtils.mkBlob 100 1)))
    [] (StorageUtils.StoreError "offline") "0af3".

(** A world in which the upload request itself fails. *)
Definition brokenEnv (i : nat) : StorageUtils.Env :=
  StorageUtils.mkEnv 1700000000000
    (ImageUtils.mkBrowser (Some (800, 600))
       (fun _ _ => Some (ImageUtils.mkBlob 100 1)))
    [0.5%float] (StorageUtils.StoreRejects "Failed to fetch") "0af3".

(** The same world half a second later. *)
Definition laterEnv (i : nat) : StorageUtils.Env :=
  StorageUtils.mkEnv 1700000000500
    (ImageUtils.mkBrowser (Some (800, 600))
       (fun _ _ => Some (ImageUtils.mkBlob 100 1)))
    [] (StorageUtils.StoreError "offline") "1b07".

(** A media entry with a local object URL and no remote URL. *)
Definition entry (n : string) : MediaFile :=
  mkMediaFile n ("blob:" ++ n) 800 600 1%float None None
    (mkFile (n ++ ".png") "image/png" 1024 0) None None None.

(** A media entry for the figures of a report, a report, and a text
    splitter that never wraps. *)
Definition figure (n : string) (c : option string) : MediaFile :=
  mkMediaFile n ("blob:" ++ n) 800 600 (800 / 600)%float c None
    (mkFile (n ++ ".png") "image/png" 1024 0) None None None.

Definition report : ExportUtils.ProjectData :=
  ExportUtils.mkProjectData "AI-Generated Report: Soil pH" "Abstract."
    [ExportUtils.ReportSection.mk "1. Introduction" "Body."]
    ["Smith, J. (2023)."; "Brown, M. (2023)."].

Definition oneLine (s : string) (w : float) : list string := [s].

End Samples.

(* ================================================================== *)
(** * Properties *)

(** ** Section placement *)

Module PlacementFacts.

Import AutoLayout.

Lemma placement_cases (caption : string) :
  getSectionPlacement caption =
    if introKeyword (JS.toLowerCase caption) then "introduction"
    else if methodKeyword (JS.toLowerCase caption) then "methodology"
    else "results".
Proof.
  unfold getSectionPlacement, introKeyword, methodKeyword.
  cbv zeta.
  destruct (_ || _ || _); [reflexivity|].
  destruct (_ || _ || _); [reflexivity|].
  destruct (_ || _ || _ || _); reflexivity.
Qed.

(** C10.  [getSectionPlacement] answers on every caption, always with one
    of 'introduction', 'methodology', 'results'; an introduction keyword
    wins over every other keyword, and a methodology keyword wins over the
    results keywords: the bucket tested first wins. *)
Theorem getSectionPlacement_total_precedence (caption : string) :
  let l := JS.toLowerCase caption in
  (getSectionPlacement caption = "introduction"
   \/ getSectionPlacement caption = "methodology"
   \/ getSectionPlacement caption = "results")
  /\ (introKeyword l = true ->
      getSectionPlacement caption = "introduction")
  /\ (introKeyword l = false -> methodKeyword l = true ->
      getSectionPlacement caption = "methodology")
  /\ (introKeyword l = false -> methodKeyword l = false ->
      getSectionPlacement caption = "results").
Proof.
  intro l. subst l. rewrite placement_cases.
  destruct (introKeyword _) eqn:Hi, (methodKeyword _) eqn:Hm;
    repeat split; auto; discriminate.
Qed.

(** A caption with keywords of all three groups goes to the
    introduction; one with a methodology and a results keyword goes to
    the methodology. *)
Lemma getSectionPlacement_total_precedence_witness :
  getSectionPlacement "Overview of the method: result chart"
    = "introduction"
  /\ getSectionPlacement "Process data graph" = "methodology"
  /\ getSectionPlacement "Photo of the lab" = "results".
Proof.
  pose proof
    (getSectionPlacement_total_precedence
       "Overview of the method: result chart") as (_ & H1 & _).
  pose proof
    (getSectionPlacement_total_precedence "Process data graph")
    as (_ & _ & H2 & _).
  pose proof
    (getSectionPlacement_total_precedence "Photo of the lab")
    as (_ & _ & _ & H3).
  split; [apply H1 | split; [apply H2 | apply H3]]; reflexivity.
Defined.

(** C4, as stated, fails: a caption with 'chart' that also holds an
    introduction keyword is placed in the introduction, and one with
    'approach' and an introduction keyword likewise. *)
Lemma chart_caption_not_results :
  JS.includes (JS.toLowerCase "Overview chart") "chart" = true
  /\ getSectionPlacement "Overview chart" = "introduction"
  /\ getSectionPlacement "Overview chart" <> "results"
  /\ JS.includes (JS.toLowerCase "Intro to our approach") "approach" = true
  /\ getSectionPlacement "Intro to our approach" <> "methodology".
Proof. repeat split; try reflexivity; discriminate. Qed.

(** C4, amended.  Placement is a function of the caption alone; a
    caption containing 'chart' (in any case) and no introduction or
    methodology keyword is placed in 'results'; one containing 'approach'
    and no introduction keyword is placed in 'methodology'; one with no
    keyword at all is placed in 'results'. *)
Theorem getSectionPlacement_keywords (caption : string) :
  let l := JS.toLowerCase caption in
  (JS.includes l "chart" = true ->
   introKeyword l = false -> methodKeyword l = false ->
   getSectionPlacement caption = "results")
  /\ (JS.includes l "approach" = true -> introKeyword l = false ->
      getSectionPlacement caption = "methodology")
  /\ (introKeyword l = false -> methodKeyword l = false ->
      resultKeyword l = false ->
      getSectionPlacement caption = "results").
Proof.
  intro l. subst l. rewrite placement_cases. repeat split.
  - intros _ -> ->. reflexivity.
  - intros Ha ->. unfold methodKeyword. rewrite Ha.
    rewrite orb_true_r. reflexivity.
  - intros -> -> _. reflexivity.
Qed.

Lemma getSectionPlacement_keywords_witness :
  getSectionPlacement "Bar CHART of yields" = "results"
  /\ getSectionPlacement "Our Approach" = "methodology"
  /\ getSectionPlacement "Photo of the lab" = "results".
Proof.
  pose proof (getSectionPlacement_keywords "Bar CHART of yields")
    as (H1 & _).
  pose proof (getSectionPlacement_keywords "Our Approach") as (_ & H2 & _).
  pose proof (getSectionPlacement_keywords "Photo of the lab")
    as (_ & _ & H3).
  split; [apply H1 | split; [apply H2 | apply H3]]; reflexivity.
Defined.

End PlacementFacts.

(** ** Batch intake *)

Module IntakeFacts.

Import StorageUtils.
Local Open Scope list_scope.

Lemma modifyAt_last {A} (g : A -> A) (l : list A) (m : A) :
  modifyAt (List.length l) g (l ++ [m]) = l ++ [g m].
Proof.
  unfold modifyAt.
  rewrite firstn_app, Nat.sub_diag, firstn_all. simpl.
  rewrite skipn_app, Nat.sub_diag, skipn_all. simpl.
  now rewrite app_nil_r.
Qed.

Lemma upload_quiet supabase e f id0 :
  Forall quiet
    (fst (fst (uploadFileToCloud supabase e f
            (fun progress =>
               [onProgress id0 (Num.Math_max 30 progress) true])))).
Proof.
  unfold uploadFileToCloud.
  assert (Hticks : forall l,
    Forall quiet
      (flat_map
         (fun r => [onProgress id0
                      (Num.Math_max 30 (Num.Math_min 90 (r * 80 + 10))%float)
                      true]) l)).
  { induction l; simpl; constructor; simpl; auto. }
  destruct supabase; simpl; [|constructor].
  destruct (store e); simpl; apply Forall_app; split; auto;
    repeat constructor.
Qed.

(** One turn of the loop: the entry and the error line it adds, and the
    calls it makes. *)
Lemma iteration_spec supabase e i f st :
  newFiles (iteration supabase e i f st)
    = newFiles st ++ entryOf supabase e i f
  /\ errors (iteration supabase e i f st) = errors st ++ errorOf e f
  /\ exists evs, calls (iteration supabase e i f st) = calls st ++ evs
                 /\ Forall quiet evs.
Proof.
  unfold iteration, entryOf, errorOf.
  destruct (ImageUtils.isValid (ImageUtils.validateImageFile f)); simpl.
  2:{ rewrite app_nil_r. repeat split. exists []. now rewrite app_nil_r. }
  destruct (ImageUtils.processImage (browser e) f) as [p|err]; simpl.
  2:{ rewrite app_nil_r. repeat split.
      eexists. rewrite <- app_assoc. split; [reflexivity|].
      repeat constructor. }
  destruct supabase; simpl.
  - pose proof (upload_quiet true e (ImageUtils.file p) (fileIdOf e i)) as Hq.
    unfold uploadFileToCloud in *. simpl in *.
    destruct (store e) as [msg|url|msg]; simpl in *;
      rewrite modifyAt_last, app_nil_r; repeat split;
      eexists; rewrite <- !app_assoc; (split; [reflexivity|]);
      repeat (apply Forall_cons; [exact I|]);
      rewrite !Forall_app in *; repeat split; try apply Hq;
      repeat constructor.
  - rewrite modifyAt_last, app_nil_r. repeat split.
    eexists. rewrite <- !app_assoc. split; [reflexivity|].
    repeat constructor.
Qed.

Lemma loop_spec supabase env files : forall i st,
  newFiles (loop supabase env i files st)
    = newFiles st
      ++ flat_map (fun jf => entryOf supabase (env (fst jf)) (fst jf) (snd jf))
           (indexed i files)
  /\ errors (loop supabase env i files st)
     = errors st
       ++ flat_map (fun jf => errorOf (env (fst jf)) (snd jf))
            (indexed i files)
  /\ exists evs, calls (loop supabase env i files st) = calls st ++ evs
                 /\ Forall quiet evs.
Proof.
  induction files as [|f rest IH]; intros i st; simpl.
  - rewrite !app_nil_r. repeat split. exists []. now rewrite app_nil_r.
  - destruct (IH (S i) (iteration supabase (env i) i f st))
      as (Hn & He & evs & Hc & Hq).
    destruct (iteration_spec supabase (env i) i f st)
      as (Hn1 & He1 & evs1 & Hc1 & Hq1).
    rewrite Hn, He, Hc, Hn1, He1, Hc1, <- !app_assoc.
    repeat split. exists (evs1 ++ evs). split; [reflexivity|].
    apply Forall_app; auto.
Qed.

(** A run that passes the limit check: quiet calls, then the error
    callback if a file was refused, then the completion callback if a file
    was taken. *)
Lemma run_spec supabase env files existingFiles :
  (maxFiles <? Z.of_nat (List.length existingFiles)
               + Z.of_nat (List.length files)) = false ->
  let news :=
    flat_map (fun jf => entryOf supabase (env (fst jf)) (fst jf) (snd jf))
      (indexed 0 files) in
  let errs :=
    flat_map (fun jf => errorOf (env (fst jf)) (snd jf)) (indexed 0 files) in
  let r := processAndUploadFiles supabase env files existingFiles in
  errorCalls r = (if (0 <? List.length errs)%nat
                  then [JS.join JS.newline errs] else [])
  /\ completeCalls r = (if (0 <? List.length news)%nat then [news] else []).
Proof.
  intros Hcap news errs r. subst r. unfold processAndUploadFiles.
  rewrite Hcap.
  destruct (loop_spec supabase env files 0 (mkState [] [] [] []))
    as (Hn & He & evs & Hc & Hq).
  simpl in Hn, He, Hc. fold news in Hn. fold errs in He.
  rewrite Hn, He, Hc. unfold errorCalls, completeCalls. simpl.
  rewrite !flat_map_app.
  assert (Hqe : flat_map
            (fun ev => match ev with onError m => [m] | _ => [] end) evs
          = []).
  { clear - Hq. induction Hq as [|ev l Hev _ IH]; simpl; auto.
    destruct ev; simpl in *; tauto. }
  assert (Hqc : flat_map
            (fun ev => match ev with onComplete l => [l] | _ => [] end) evs
          = []).
  { clear - Hq. induction Hq as [|ev l Hev _ IH]; simpl; auto.
    destruct ev; simpl in *; tauto. }
  rewrite Hqe, Hqc. simpl.
  destruct (0 <? List.length errs)%nat, (0 <? List.length news)%nat;
    simpl; auto.
Qed.

Lemma entries_length supabase env files : forall i,
  (List.length
     (flat_map (fun jf => entryOf supabase (env (fst jf)) (fst jf) (snd jf))
        (indexed i files)) <= List.length files)%nat.
Proof.
  induction files as [|f rest IH]; intros i; simpl; auto.
  rewrite length_app. specialize (IH (S i)).
  assert (List.length (entryOf supabase (env i) i f) <= 1)%nat.
  { unfold entryOf.
    destruct (ImageUtils.isValid _); simpl; auto.
    destruct (ImageUtils.processImage _ _); simpl; auto. }
  lia.
Qed.

(** The normalised file keeps the name and the declared type. *)
Lemma processImage_keeps_name b f p :
  ImageUtils.processImage b f = JS.Resolved p ->
  name (ImageUtils.file p) = name f /\ type (ImageUtils.file p) = type f.
Proof.
  unfold ImageUtils.processImage.
  destruct (ImageUtils.decoded b) as [[w h]|]; [|discriminate].
  destruct (if ImageUtils.MAX_WIDTH <? w then _ else _) as [nw nh].
  destruct (ImageUtils.encoded b nw nh); [|discriminate].
  intros [= <-]. simpl. auto.
Qed.

(** The entries of the batch are those of the accepted files, in order,
    with the identifier of their index and the name of their file. *)
Lemma entries_accepted supabase env files : forall i,
  let news :=
    flat_map (fun jf => entryOf supabase (env (fst jf)) (fst jf) (snd jf))
      (indexed i files) in
  map id news
    = map (fun jf => fileIdOf (env (fst jf)) (fst jf))
        (filter (accepted env) (indexed i files))
  /\ map (fun m => name (file m)) news
     = map (fun jf => name (snd jf))
         (filter (accepted env) (indexed i files)).
Proof.
  induction files as [|f rest IH]; intros i; simpl; auto.
  destruct (IH (S i)) as [IH1 IH2]. rewrite !map_app, IH1, IH2.
  assert (Hacc : accepted env (i, f)
                 = ImageUtils.isValid (ImageUtils.validateImageFile f)
                   && match ImageUtils.processImage (browser (env i)) f with
                      | JS.Resolved _ => true
                      | JS.Rejected _ => false
                      end) by reflexivity.
  rewrite Hacc. unfold entryOf. simpl.
  destruct (ImageUtils.isValid _); simpl; auto.
  destruct (ImageUtils.processImage _ _) as [p|] eqn:Hp; simpl; auto.
  apply processImage_keeps_name in Hp. destruct Hp as [Hname _].
  destruct supabase; simpl; [destruct (store (env i)); simpl|];
    rewrite Hname; auto.
Qed.

(** *** The component's list under an intake *)

Lemma handleNow_length evs : forall c,
  List.length
    (ProjectStepper.mediaFiles (fold_left ProjectStepper.handleNow evs c))
  = List.length (ProjectStepper.mediaFiles c).
Proof.
  induction evs as [|ev evs IH]; intros c; simpl; auto.
  rewrite IH. destruct ev; simpl; auto. now rewrite length_map.
Qed.

Lemma handleComplete_files g evs : forall c,
  ProjectStepper.mediaFiles
    (fold_left (ProjectStepper.handleComplete g) evs c)
  = ProjectStepper.mediaFiles c
    ++ map (ProjectStepper.withMetadata g)
         (List.concat
            (flat_map
               (fun ev => match ev with onComplete l => [l] | _ => [] end)
               evs)).
Proof.
  induction evs as [|ev evs IH]; intros c; simpl.
  - now rewrite app_nil_r.
  - rewrite IH. destruct ev; simpl; auto.
    now rewrite map_app, app_assoc.
Qed.

(** C1 on the code.  A batch that would take the list it is checked
    against past twelve entries is refused whole: the run is the single
    call of the error callback, with the message 'Maximum 12 files allowed.
    You can add (12 - E) more files.', whatever the files are and whatever
    the browser and the store would have answered (so nothing is validated,
    processed or uploaded, and the completion callback is not called), and
    the component's list is left as it was.  An intake that is checked
    against the list as it is, and whose callbacks find it so, leaves a
    list of at most twelve entries at most twelve entries long.  But the
    list an intake is checked against is the one of the render in which
    the files were dropped, and its completion callback appends, 500 ms
    after the run, to the list as it is by then: seven files and then six
    dropped on an empty list, the six before the seven are appended, are
    all taken, and the list ends thirteen entries long. *)
Theorem processAndUploadFiles_limit
    (generateImageMeta : string -> string * string) (supabase : bool)
    (env : nat -> Env) (samples : nat -> list float) (files : list File)
    (rendered : list MediaFile) (c : ProjectStepper.Component) :
  let E := Z.of_nat (List.length rendered) in
  let K := Z.of_nat (List.length files) in
  let message :=
    ("Maximum 12 files allowed. You can add "
       ++ JS.Number_toString (12 - E) ++ " more files.")%string in
  (12 < E + K ->
   let after :=
     ProjectStepper.processFiles generateImageMeta supabase env samples
       files rendered c in
   processAndUploadFiles supabase env files rendered
     = mkRun [onError message] []
   /\ ProjectStepper.mediaFiles after = ProjectStepper.mediaFiles c
   /\ ProjectStepper.errors after = [message])
  /\ (Z.of_nat (List.length (ProjectStepper.mediaFiles c)) <= 12 ->
      (List.length
         (ProjectStepper.mediaFiles
            (ProjectStepper.processFiles generateImageMeta supabase env
               samples files (ProjectStepper.mediaFiles c) c)) <= 12)%nat)
  /\ (let seven := repeat Samples.pngFile 7 in
      let six := repeat Samples.pngFile 6 in
      let c0 := ProjectStepper.mkComponent [] [] [] in
      let first := processAndUploadFiles false Samples.fairEnv seven [] in
      let second := processAndUploadFiles false Samples.laterEnv six [] in
      let c1 := ProjectStepper.progressCalls samples first c0 in
      let c2 := ProjectStepper.progressCalls samples second c1 in
      let c3 := ProjectStepper.completion generateImageMeta first c2 in
      let c4 := ProjectStepper.completion generateImageMeta second c3 in
      errorCalls first = [] /\ errorCalls second = []
      /\ List.length (ProjectStepper.mediaFiles c3) = 7%nat
      /\ List.length (ProjectStepper.mediaFiles c4) = 13%nat).
Proof.
  intros E K message.
  assert (Hrej : 12 < E + K ->
    processAndUploadFiles supabase env files rendered
      = mkRun [onError message] []).
  { intros H. unfold processAndUploadFiles.
    replace (maxFiles <? _) with true
      by (symmetry; apply Z.ltb_lt; exact H).
    reflexivity. }
  split; [|split].
  - intros H. specialize (Hrej H). split; [exact Hrej|].
    unfold ProjectStepper.processFiles. rewrite Hrej. simpl. auto.
  - intros HE.
    unfold ProjectStepper.processFiles, ProjectStepper.completion,
      ProjectStepper.progressCalls.
    rewrite handleComplete_files, length_app, handleNow_length, length_map.
    destruct (maxFiles
                <? Z.of_nat (List.length (ProjectStepper.mediaFiles c)) + K)
      eqn:Hcap.
    + unfold processAndUploadFiles. fold K. rewrite Hcap. simpl. lia.
    + pose proof (run_spec supabase env files _ Hcap) as [_ Hc].
      unfold completeCalls in Hc. rewrite Hc.
      pose proof (entries_length supabase env files 0%nat) as Hlen.
      apply Z.ltb_ge in Hcap. unfold maxFiles in Hcap.
      destruct (0 <? _)%nat; simpl; [rewrite app_nil_r|]; lia.
  - cbv zeta.
    unfold ProjectStepper.completion, ProjectStepper.progressCalls.
    rewrite !handleComplete_files, !length_app, !handleNow_length,
      !length_map.
    vm_compute. repeat split.
Qed.

(** Eight entries and a batch of six: the message states four slots. *)
Lemma processAndUploadFiles_limit_witness :
  let existing :=
    repeat (mkMediaFile "1" "blob:a" 1 1 1%float None None
              (mkFile "a.png" "image/png" 1 0) None None None) 8 in
  let batch := repeat (mkFile "b.png" "image/png" 1 0) 6 in
  let env := fun _ : nat =>
    mkEnv 0 (ImageUtils.mkBrowser None (fun _ _ => None)) []
      (StoreError "") "" in
  processAndUploadFiles true env batch existing
    = mkRun
        [onError "Maximum 12 files allowed. You can add 4 more files."] []
  /\ (List.length
        (ProjectStepper.mediaFiles
           (ProjectStepper.processFiles (fun _ => (""%string, ""%string))
              true env (fun _ => []) batch existing
              (ProjectStepper.mkComponent existing [] []))) <= 12)%nat.
Proof.
  intros existing batch env.
  pose proof
    (processAndUploadFiles_limit (fun _ => (""%string, ""%string)) true env
       (fun _ => []) batch existing
       (ProjectStepper.mkComponent existing [] [])) as (H1 & H2 & _).
  split.
  - apply H1. vm_compute. reflexivity.
  - apply H2. vm_compute. discriminate.
Defined.

(** *** Upload failure *)

Lemma indexed_nth files : forall k i f,
  nth_error files i = Some f -> In ((k + i)%nat, f) (indexed k files).
Proof.
  induction files as [|g rest IH]; intros k [|i] f H; simpl in *;
    try discriminate.
  - injection H as ->. left. now rewrite Nat.add_0_r.
  - right. rewrite <- Nat.add_succ_comm. now apply IH.
Qed.

Lemma errorOf_browser e e' f :
  browser e' = browser e -> errorOf e' f = errorOf e f.
Proof. unfold errorOf. now intros ->. Qed.

Lemma errorOf_accepted env l :
  Forall (fun jf => accepted env jf = true) l ->
  flat_map (fun jf => errorOf (env (fst jf)) (snd jf)) l = [].
Proof.
  induction 1 as [|[j f] l Hacc _ IH]; simpl; auto.
  rewrite IH, app_nil_r. unfold accepted in Hacc. unfold errorOf.
  simpl in *. apply andb_prop in Hacc. destruct Hacc as [-> Hp].
  now destruct (ImageUtils.processImage _ _).
Qed.

Lemma loop_app supabase env a b : forall i st,
  loop supabase env i (a ++ b) st
  = loop supabase env (i + List.length a) b (loop supabase env i a st).
Proof.
  induction a as [|f a IH]; intros i st; simpl.
  - now rewrite Nat.add_0_r.
  - rewrite IH. now rewrite Nat.add_succ_comm.
Qed.

Lemma loop_keeps_calls supabase env files i st ev :
  In ev (calls st) -> In ev (calls (loop supabase env i files st)).
Proof.
  intros H. destruct (loop_spec supabase env files i st)
    as (_ & _ & evs & -> & _).
  apply in_or_app. now left.
Qed.

(** A failed upload leaves a warning on the console. *)
Lemma iteration_warns e i f p message st :
  ImageUtils.isValid (ImageUtils.validateImageFile f) = true ->
  ImageUtils.processImage (browser e) f = JS.Resolved p ->
  store e = StoreError message \/ store e = StoreRejects message ->
  In (console_warn
        ("Cloud upload failed for " ++ name f
           ++ ", falling back to local storage:")%string
        ("Failed to upload " ++ name f ++ ": " ++ message)%string)
     (calls (iteration true e i f st)).
Proof.
  intros Hv Hp Hs. unfold iteration. rewrite Hv, Hp. simpl.
  unfold uploadFileToCloud. simpl.
  destruct (processImage_keeps_name _ _ _ Hp) as [-> _].
  destruct Hs as [Hs|Hs]; rewrite Hs; simpl;
    rewrite !in_app_iff; simpl; tauto.
Qed.

(** C7.  In a run that passes the limit check, a file that validates and
    normalises, and whose upload fails (the store answers with an error, or
    the request itself rejects) or finds no client configured, is in
    the batch handed to the completion callback, with a local object URL as
    [src], [isUploading] false, [uploadProgress] 100 and no [cloudUrl], the
    failed upload leaving a warning on the console; the
    calls of the error callback are the same whatever the store answers and
    whether or not a client is configured, and there is none when every
    file validates and normalises; and, the store's public URLs being
    non-empty, every entry of the batch has a non-empty [src], is no longer
    uploading and is at 100. *)
Theorem upload_failure_falls_back (supabase : bool) (env : nat -> Env)
    (files : list File) (existingFiles : list MediaFile) :
  Z.of_nat (List.length existingFiles) + Z.of_nat (List.length files) <= 12 ->
  let r := processAndUploadFiles supabase env files existingFiles in
  (forall i f p,
     nth_error files i = Some f ->
     ImageUtils.isValid (ImageUtils.validateImageFile f) = true ->
     ImageUtils.processImage (browser (env i)) f = JS.Resolved p ->
     supabase = false
     \/ (exists message,
           store (env i) = StoreError message
           \/ store (env i) = StoreRejects message) ->
     (exists batch m,
        completeCalls r = [batch] /\ In m batch
        /\ m = localEntry (env i) i p
        /\ src m = ("blob:" ++ blobUuid (env i))%string
        /\ isUploading m = Some false
        /\ uploadProgress m = Some 100%float
        /\ cloudUrl m = None)
     /\ (forall message,
          supabase = true ->
          store (env i) = StoreError message
          \/ store (env i) = StoreRejects message ->
          In (console_warn
                ("Cloud upload failed for " ++ name f
                   ++ ", falling back to local storage:")%string
                ("Failed to upload " ++ name f ++ ": " ++ message)%string)
             (trace r)))
  /\ (forall supabase' env',
        (forall i, browser (env' i) = browser (env i)) ->
        errorCalls (processAndUploadFiles supabase' env' files existingFiles)
        = errorCalls r)
  /\ (Forall (fun jf => accepted env jf = true) (indexed 0 files) ->
      errorCalls r = [])
  /\ ((forall i url, store (env i) = StorePublicUrl url -> url <> ""%string) ->
      forall batch m,
        In batch (completeCalls r) -> In m batch ->
        src m <> ""%string /\ isUploading m = Some false
        /\ uploadProgress m = Some 100%float).
Proof.
  intros Hle r.
  assert (Hcap : (maxFiles <? Z.of_nat (List.length existingFiles)
                               + Z.of_nat (List.length files)) = false).
  { apply Z.ltb_ge. unfold maxFiles. exact Hle. }
  pose proof (run_spec supabase env files existingFiles Hcap) as [He Hc].
  fold r in He, Hc. cbv zeta in He, Hc.
  split; [|split; [|split]].
  - intros i f p Hnth Hvalid Hp Hup. split.
    2:{ intros message -> Hs. subst r. unfold processAndUploadFiles.
        rewrite Hcap. simpl. apply in_or_app. left.
        pose proof (nth_error_split _ _ Hnth) as (pre & post & -> & Hlen).
        rewrite loop_app. simpl. rewrite Hlen.
        apply loop_keeps_calls. now apply iteration_warns with (p := p). }
    apply (indexed_nth files 0%nat) in Hnth. simpl in Hnth.
    assert (Hentry : entryOf supabase (env i) i f = [localEntry (env i) i p]).
    { unfold entryOf. rewrite Hvalid, Hp.
      destruct Hup as [->|[msg [-> | ->]]]; [reflexivity|..];
        now destruct supabase. }
    assert (Hin : In (localEntry (env i) i p)
              (flat_map
                 (fun jf => entryOf supabase (env (fst jf)) (fst jf) (snd jf))
                 (indexed 0 files))).
    { apply in_flat_map. exists (i, f). split; auto. simpl.
      rewrite Hentry. now left. }
    exists (flat_map
              (fun jf => entryOf supabase (env (fst jf)) (fst jf) (snd jf))
              (indexed 0 files)), (localEntry (env i) i p).
    rewrite Hc.
    destruct (flat_map
                (fun jf => entryOf supabase (env (fst jf)) (fst jf) (snd jf))
                (indexed 0 files)) as [|m0 news]; [contradiction|].
    simpl. repeat split. exact Hin.
  - intros supabase' env' Hb.
    pose proof (run_spec supabase' env' files existingFiles Hcap) as [He' _].
    cbv zeta in He'. rewrite He', He.
    replace (flat_map (fun jf => errorOf (env' (fst jf)) (snd jf))
               (indexed 0 files))
      with (flat_map (fun jf => errorOf (env (fst jf)) (snd jf))
              (indexed 0 files)); [reflexivity|].
    apply flat_map_ext. intros jf. symmetry. now apply errorOf_browser.
  - intros Hall. rewrite He, (errorOf_accepted env _ Hall). reflexivity.
  - intros Hurl batch m Hb Hm. rewrite Hc in Hb.
    clear He Hc.
    destruct (0 <? _)%nat; [|destruct Hb].
    destruct Hb as [<-|[]].
    apply in_flat_map in Hm. destruct Hm as ([j f] & _ & Hm).
    unfold entryOf in Hm. simpl in Hm.
    destruct (ImageUtils.isValid _); [|contradiction].
    destruct (ImageUtils.processImage _ _) as [p|]; [|contradiction].
    destruct Hm as [<-|[]].
    destruct supabase; [destruct (store (env j)) eqn:Hs|]; simpl;
      repeat split; try discriminate.
    eapply Hurl; eauto.
Qed.

(** A client is configured and the store refuses the only file. *)
Lemma upload_failure_falls_back_witness :
  let env := fun _ : nat =>
    mkEnv 1700000000000
      (ImageUtils.mkBrowser (Some (800, 600))
         (fun _ _ => Some (ImageUtils.mkBlob 100 1)))
      [0.5%float] (StoreError "offline") "0af3" in
  let f := mkFile "plot.png" "image/png" 2048 0 in
  let r := processAndUploadFiles true env [f] [] in
  (exists batch m,
     completeCalls r = [batch] /\ In m batch
     /\ src m = "blob:0af3"%string /\ isUploading m = Some false
     /\ uploadProgress m = Some 100%float /\ cloudUrl m = None)
  /\ errorCalls r = [].
Proof.
  intros env f r.
  assert (Hle : Z.of_nat (List.length (@nil MediaFile))
                + Z.of_nat (List.length [f]) <= 12) by (simpl; lia).
  pose proof (upload_failure_falls_back true env [f] [] Hle)
    as (Ha & _ & Hc & _).
  split.
  - destruct (Ha 0%nat f
                (ImageUtils.mkProcessedImage
                   (mkFile "plot.png" "image/png" 100 1) 800 600
                   (Num.ofZ 800 / Num.ofZ 600)%float))
      as ((batch & m & H1 & H2 & _ & H3 & H4 & H5 & H6) & _);
      try reflexivity.
    + right. exists "offline"%string. left. reflexivity.
    + exists batch, m. tauto.
  - apply Hc. repeat constructor.
Defined.

End IntakeFacts.

(** ** Validation *)

Module ValidatorFacts.

Local Open Scope list_scope.

Lemma arrayIncludes_In l x : JS.arrayIncludes l x = true <-> In x l.
Proof.
  unfold JS.arrayIncludes. rewrite existsb_exists. split.
  - intros (y & Hy & Heq). apply String.eqb_eq in Heq. now subst.
  - intros H. exists x. split; auto. apply String.eqb_refl.
Qed.

Lemma suspicious_some f :
  JS.some (fun ext => JS.includes (JS.toLowerCase (name f)) ext)
    ImageUtils.suspiciousExtensions = true <-> ImageUtils.suspicious f.
Proof. unfold JS.some, ImageUtils.suspicious. apply existsb_exists. Qed.

Local Abbreviation validate := ImageUtils.validateImageFile.
Local Abbreviation refusal reason :=
  (ImageUtils.mkValidation false (Some reason)).

(** The validator, check by check. *)
Lemma validateImageFile_cases f :
  (ImageUtils.oversized f
   /\ validate f = refusal (ImageUtils.tooLargeError f))
  \/ (~ ImageUtils.oversized f /\ ImageUtils.unsupported f
      /\ validate f = refusal (ImageUtils.unsupportedError f))
  \/ (~ ImageUtils.oversized f /\ ~ ImageUtils.unsupported f
      /\ ImageUtils.suspicious f
      /\ validate f = refusal (ImageUtils.suspiciousError f))
  \/ (~ ImageUtils.oversized f /\ ~ ImageUtils.unsupported f
      /\ ~ ImageUtils.suspicious f
      /\ validate f = ImageUtils.mkValidation true None).
Proof.
  unfold ImageUtils.validateImageFile, ImageUtils.oversized,
    ImageUtils.unsupported.
  cbv zeta.
  destruct (ImageUtils.MAX_FILE_SIZE <? size f) eqn:Hs.
  { left. split; auto. now apply Z.ltb_lt. }
  apply Z.ltb_ge in Hs. right.
  destruct (JS.arrayIncludes ImageUtils.ALLOWED_MIME_TYPES (type f)) eqn:Ht;
    cbn [negb].
  2:{ left. repeat split; try lia.
      intros Hin. apply arrayIncludes_In in Hin. congruence. }
  apply arrayIncludes_In in Ht. right.
  destruct (JS.some _ ImageUtils.suspiciousExtensions) eqn:Hx.
  - left. apply suspicious_some in Hx. repeat split; auto; try lia.
  - right. repeat split; auto; try lia.
    intros Hsus. apply suspicious_some in Hsus. congruence.
Qed.

(** C2.  [validateImageFile] is a function of the file alone.  It answers
    invalid exactly when the file is longer than 10 MiB, or its declared
    type is none of image/jpeg, image/jpg, image/png, image/webp, or its
    lower-cased name contains one of .exe, .bat, .cmd, .scr, .com, .pif;
    the reason is that of the first of these checks that fails, and is not
    empty; otherwise it answers valid, with no reason.  The batch that the
    intake hands to its completion callback holds entries only for files
    that the validator accepts (and that normalise): one each, in order. *)
Theorem validateImageFile_spec (f : File) (supabase : bool)
    (env : nat -> StorageUtils.Env) (files : list File)
    (existingFiles : list MediaFile) :
  (ImageUtils.isValid (validate f) = false
   <-> ImageUtils.oversized f \/ ImageUtils.unsupported f
       \/ ImageUtils.suspicious f)
  /\ (ImageUtils.isValid (validate f) = false ->
      exists reason, ImageUtils.error (validate f) = Some reason
                     /\ reason <> ""%string)
  /\ (ImageUtils.isValid (validate f) = true ->
      ImageUtils.error (validate f) = None)
  /\ (ImageUtils.oversized f ->
      validate f = refusal (ImageUtils.tooLargeError f))
  /\ (~ ImageUtils.oversized f -> ImageUtils.unsupported f ->
      validate f = refusal (ImageUtils.unsupportedError f))
  /\ (~ ImageUtils.oversized f -> ~ ImageUtils.unsupported f ->
      ImageUtils.suspicious f ->
      validate f = refusal (ImageUtils.suspiciousError f))
  /\ (forall batch,
      In batch
        (StorageUtils.completeCalls
           (StorageUtils.processAndUploadFiles supabase env files
              existingFiles)) ->
      map id batch
        = map (fun jf => StorageUtils.fileIdOf (env (fst jf)) (fst jf))
            (filter (StorageUtils.accepted env)
               (StorageUtils.indexed 0 files))
      /\ map (fun m => name (file m)) batch
         = map (fun jf => name (snd jf))
             (filter (StorageUtils.accepted env)
                (StorageUtils.indexed 0 files))
      /\ Forall
           (fun jf => ImageUtils.isValid (validate (snd jf)) = true)
           (filter (StorageUtils.accepted env)
              (StorageUtils.indexed 0 files))).
Proof.
  pose proof (validateImageFile_cases f) as Hc.
  split; [|split; [|split; [|split; [|split; [|split]]]]].
  - destruct Hc as [(H & ->)|[(H1 & H2 & ->)|[(H1 & H2 & H3 & ->)
                   |(H1 & H2 & H3 & ->)]]]; simpl; split; auto;
      try discriminate; tauto.
  - destruct Hc as [(H & ->)|[(H1 & H2 & ->)|[(H1 & H2 & H3 & ->)
                   |(H1 & H2 & H3 & ->)]]]; simpl; intros Hv;
      try discriminate Hv; eexists; (split; [reflexivity|discriminate]).
  - destruct Hc as [(H & ->)|[(H1 & H2 & ->)|[(H1 & H2 & H3 & ->)
                   |(H1 & H2 & H3 & ->)]]]; simpl; auto; discriminate.
  - intros Ho. destruct Hc as [(H & ->)|[(H1 & _)|[(H1 & _)|(H1 & _)]]];
      tauto.
  - intros Ho Hu.
    destruct Hc as [(H & _)|[(H1 & H2 & ->)|[(H1 & H2 & _)|(H1 & H2 & _)]]];
      tauto.
  - intros Ho Hu Hs.
    destruct Hc as [(H & _)|[(H1 & H2 & _)|[(H1 & H2 & H3 & ->)
                   |(H1 & H2 & H3 & _)]]]; tauto.
  - intros batch Hin.
    unfold StorageUtils.processAndUploadFiles, StorageUtils.completeCalls
      in Hin.
    destruct (StorageUtils.maxFiles <? _) eqn:Hcap.
    { simpl in Hin. contradiction. }
    pose proof (IntakeFacts.run_spec supabase env files existingFiles Hcap)
      as [_ Hcc].
    unfold StorageUtils.processAndUploadFiles, StorageUtils.completeCalls
      in Hcc.
    rewrite Hcap in Hcc. rewrite Hcc in Hin.
    destruct (0 <? _)%nat; [|contradiction].
    destruct Hin as [<-|[]].
    pose proof (IntakeFacts.entries_accepted supabase env files 0%nat)
      as [H1 H2].
    split; [exact H1|]. split; [exact H2|].
    apply Forall_forall. intros jf Hjf. apply filter_In in Hjf.
    destruct Hjf as [_ Hacc]. unfold StorageUtils.accepted in Hacc.
    now apply andb_prop in Hacc.
Qed.

(** An oversized file of a wrong type, a wrong type with a suspicious
    name, a suspicious name alone, and a batch in which only the fourth
    file is taken. *)
Lemma validateImageFile_spec_witness :
  let batchFiles :=
    [Samples.bigFile; Samples.gifFile; Samples.exeFile; Samples.pngFile] in
  validate Samples.bigFile
  = refusal (ImageUtils.tooLargeError Samples.bigFile)
  /\ validate Samples.gifFile
     = refusal (ImageUtils.unsupportedError Samples.gifFile)
  /\ validate Samples.exeFile
     = refusal (ImageUtils.suspiciousError Samples.exeFile)
  /\ ImageUtils.error (validate Samples.pngFile) = None
  /\ forall batch,
       In batch
         (StorageUtils.completeCalls
            (StorageUtils.processAndUploadFiles true Samples.fairEnv
               batchFiles [])) ->
       map (fun m => name (file m)) batch = ["plot.png"%string].
Proof.
  intros batchFiles.
  pose proof
    (validateImageFile_spec Samples.bigFile true Samples.fairEnv
       batchFiles []) as (_ & _ & _ & Hbig & _ & _ & Hbatch).
  pose proof
    (validateImageFile_spec Samples.gifFile true Samples.fairEnv [] [])
    as (_ & _ & _ & _ & Hgif & _ & _).
  pose proof
    (validateImageFile_spec Samples.exeFile true Samples.fairEnv [] [])
    as (_ & _ & _ & _ & _ & Hexe & _).
  pose proof
    (validateImageFile_spec Samples.pngFile true Samples.fairEnv [] [])
    as (_ & _ & Hpng & _).
  split; [|split; [|split; [|split]]].
  - apply Hbig. unfold ImageUtils.oversized. vm_compute. reflexivity.
  - apply Hgif.
    + unfold ImageUtils.oversized. vm_compute. discriminate.
    + unfold ImageUtils.unsupported. simpl.
      intros [H|[H|[H|[H|[]]]]]; discriminate.
  - apply Hexe.
    + unfold ImageUtils.oversized. vm_compute. discriminate.
    + unfold ImageUtils.unsupported. simpl. tauto.
    + exists ".exe"%string. split; [simpl; tauto | reflexivity].
  - apply Hpng. reflexivity.
  - intros batch Hin. destruct (Hbatch batch Hin) as (_ & Hn & _).
    exact Hn.
Defined.

End ValidatorFacts.

(** ** Normalisation *)

Module NormalizerFacts.

Local Open Scope list_scope.

(** C3, as stated, fails.  A 2080 x 1027 image comes out 987 pixels high:
    the quotient 2000 / (2080 / 1027) falls just below 987.5 in binary64,
    while 2000 * 1027 / 2080 is 987.5 and rounds to 988.  And an image whose
    canvas the encoder answers with no blob gets no result at all. *)
Lemma processImage_2080x1027 :
  let f := mkFile "wide.png" "image/png" 4096 0 in
  let always := fun _ _ : Z => Some (ImageUtils.mkBlob 1024 1) in
  let never := fun _ _ : Z => @None ImageUtils.Blob in
  (exists r,
     ImageUtils.processImage
       (ImageUtils.mkBrowser (Some (2080, 1027)) always) f = JS.Resolved r
     /\ ImageUtils.width r = 2000
     /\ ImageUtils.height r = 987
     /\ Num.round_div (2000 * 1027) 2080 = 988
     /\ ImageUtils.height r <> Num.round_div (2000 * 1027) 2080)
  /\ ImageUtils.processImage
       (ImageUtils.mkBrowser (Some (800, 600)) never) f
     = JS.Rejected "Failed to process image".
Proof.
  intros f always never. split; [|reflexivity].
  eexists. split; [vm_compute; reflexivity|].
  repeat split. vm_compute. discriminate.
Qed.

(** C3, amended.  For an image that decodes with natural width W and
    height H, the canvas is 2000 wide and Math.round(2000 / (W / H)) high
    if W > 2000, the quotients taken in binary64, and W wide and H high
    otherwise.  If the encoder answers this canvas with no blob,
    [processImage] rejects; if it answers it with one, whatever it would
    answer any other, [processImage] returns a result with the width and
    the height of the canvas, so at most 2000 wide, whose [aspectRatio] is
    the binary64 quotient of its width by its height. *)
Theorem processImage_dimensions (b : ImageUtils.Browser) (f : File)
    (W H : Z) :
  ImageUtils.decoded b = Some (W, H) ->
  let canvasWidth := if 2000 <? W then 2000 else W in
  let canvasHeight :=
    if 2000 <? W
    then Num.Math_round (2000 / (Num.ofZ W / Num.ofZ H))%float
    else H in
  (ImageUtils.encoded b canvasWidth canvasHeight = None ->
   ImageUtils.processImage b f = JS.Rejected "Failed to process image")
  /\ (ImageUtils.encoded b canvasWidth canvasHeight <> None ->
      exists r,
        ImageUtils.processImage b f = JS.Resolved r
        /\ ImageUtils.width r <= 2000
        /\ (2000 < W ->
            ImageUtils.width r = 2000
            /\ ImageUtils.height r
               = Num.Math_round (2000 / (Num.ofZ W / Num.ofZ H))%float)
        /\ (W <= 2000 -> ImageUtils.width r = W /\ ImageUtils.height r = H)
        /\ ImageUtils.aspectRatio r
           = (Num.ofZ (ImageUtils.width r)
              / Num.ofZ (ImageUtils.height r))%float).
Proof.
  intros Hd canvasWidth canvasHeight.
  assert (Hrun :
    ImageUtils.processImage b f
    = match ImageUtils.encoded b canvasWidth canvasHeight with
      | None => JS.Rejected "Failed to process image"
      | Some blob =>
          JS.Resolved
            (ImageUtils.mkProcessedImage
               (mkFile (name f) (type f) (ImageUtils.blobSize blob)
                  (ImageUtils.blobData blob))
               canvasWidth canvasHeight
               (Num.ofZ canvasWidth / Num.ofZ canvasHeight)%float)
      end).
  { unfold ImageUtils.processImage, canvasWidth, canvasHeight.
    rewrite Hd. unfold ImageUtils.MAX_WIDTH.
    destruct (2000 <? W); reflexivity. }
  rewrite Hrun. split.
  - intros ->. reflexivity.
  - intros He.
    destruct (ImageUtils.encoded b canvasWidth canvasHeight) as [blob|];
      [|now elim He].
    eexists. split; [reflexivity|]. cbn [ImageUtils.width ImageUtils.height
      ImageUtils.aspectRatio].
    unfold canvasWidth, canvasHeight.
    destruct (2000 <? W) eqn:HW;
      [apply Z.ltb_lt in HW | apply Z.ltb_ge in HW];
      repeat split; try lia.
Qed.

(** A 4000 x 3000 image in a browser that encodes the 2000 x 1500 canvas
    and no other. *)
Lemma processImage_dimensions_witness :
  exists r,
    ImageUtils.processImage
      (ImageUtils.mkBrowser (Some (4000, 3000))
         (fun w h => if (w =? 2000) && (h =? 1500)
                     then Some (ImageUtils.mkBlob 1024 1) else None))
      (mkFile "wide.png" "image/png" 4096 0) = JS.Resolved r
    /\ ImageUtils.width r = 2000 /\ ImageUtils.height r = 1500.
Proof.
  destruct (processImage_dimensions
              (ImageUtils.mkBrowser (Some (4000, 3000))
                 (fun w h => if (w =? 2000) && (h =? 1500)
                             then Some (ImageUtils.mkBlob 1024 1) else None))
              (mkFile "wide.png" "image/png" 4096 0) 4000 3000 eq_refl)
    as [_ Hres].
  destruct Hres as (r & Hr & _ & Hbig & _).
  - vm_compute. discriminate.
  - exists r. split; [exact Hr|].
    destruct Hbig as [Hw Hh]; [lia|]. split; [exact Hw|].
    rewrite Hh. vm_compute. reflexivity.
Defined.

End NormalizerFacts.

(** ** Manual reordering *)

Module ReorderFacts.

Import AutoLayout.
Local Open Scope list_scope.

Lemma findIndex_range {A} (p : A -> bool) (l : list A) :
  -1 <= findIndex p l < Z.of_nat (List.length l).
Proof.
  induction l as [|x l IH]; simpl; [lia|].
  destruct (p x); [lia|].
  destruct (findIndex p l <? 0) eqn:E; [lia|].
  apply Z.ltb_ge in E. lia.
Qed.

Lemma findIndex_found {A} (p : A -> bool) (l : list A) :
  existsb p l = true ->
  0 <= findIndex p l
  /\ exists x, nth_error l (Z.to_nat (findIndex p l)) = Some x
               /\ p x = true.
Proof.
  induction l as [|x l IH]; simpl; [discriminate|].
  destruct (p x) eqn:Hx; simpl.
  - intros _. split; [lia|]. exists x. auto.
  - intros H. destruct (IH H) as (Hge & y & Hy & Hpy).
    destruct (findIndex p l <? 0) eqn:E; [apply Z.ltb_lt in E; lia|].
    split; [lia|]. exists y. split; auto.
    rewrite Z2Nat.inj_add by lia. rewrite Nat.add_comm. exact Hy.
Qed.

Lemma nth_error_split_at {A} (l : list A) : forall i x,
  nth_error l i = Some x -> l = firstn i l ++ x :: skipn (S i) l.
Proof.
  induction l as [|y l IH]; intros [|i] x H; simpl in *; try discriminate.
  - now injection H as ->.
  - f_equal. now apply IH.
Qed.

(** Taking the element at [i] out and putting it back in at [j]. *)
Lemma move_spec {A} (l : list A) (i j : nat) (x : A) :
  nth_error l i = Some x -> (j < List.length l)%nat ->
  let r := firstn i l ++ skipn (S i) l in
  let l' := splice_insert j x r in
  splice_delete1 i l = (r, [x])
  /\ Permutation l l'
  /\ List.length l' = List.length l
  /\ nth_error l' j = Some x.
Proof.
  intros Hi Hj r l'.
  pose proof (nth_error_split_at l i x Hi) as Hl.
  assert (Hlen : List.length l = S (List.length r)).
  { rewrite Hl at 1. subst r. rewrite !length_app. simpl. lia. }
  assert (Hperm : Permutation l (x :: r)).
  { rewrite Hl at 1. subst r. symmetry. apply Permutation_middle. }
  assert (Hins : Permutation (x :: r) l').
  { subst l'. unfold splice_insert.
    rewrite <- (firstn_skipn j r) at 1. apply Permutation_middle. }
  repeat split.
  - unfold splice_delete1. f_equal.
    rewrite Hl at 1. rewrite skipn_app.
    assert (Hf : List.length (firstn i l) = i).
    { apply firstn_length_le. apply Nat.lt_le_incl.
      apply nth_error_Some. congruence. }
    rewrite Hf, Nat.sub_diag, skipn_all2 by lia. reflexivity.
  - eapply Permutation_trans; eauto.
  - rewrite <- (Permutation_length Hins). simpl. lia.
  - subst l'. unfold splice_insert.
    assert (Hf : List.length (firstn j r) = j)
      by (apply firstn_length_le; lia).
    rewrite nth_error_app2 by lia. rewrite Hf, Nat.sub_diag. reflexivity.
Qed.

(** C5.  Dropping a dragged entry on a different entry, both in the list,
    calls [onReorder] with a permutation of the list: the same entries,
    unmodified, as many as before, none repeated if none was; it is the
    list with the dragged entry taken out and put back in at the index the
    drop target had, where the dragged entry then stands. *)
Theorem handleDrop_permutation (mediaFiles : list MediaFile)
    (dragged targetId : string) :
  dragged <> ""%string -> dragged <> targetId ->
  existsb (fun f => String.eqb (id f) dragged) mediaFiles = true ->
  existsb (fun f => String.eqb (id f) targetId) mediaFiles = true ->
  let i :=
    Z.to_nat (findIndex (fun f => String.eqb (id f) dragged) mediaFiles) in
  let j :=
    Z.to_nat (findIndex (fun f => String.eqb (id f) targetId) mediaFiles) in
  exists draggedFile targetFile newFiles,
    handleDrop (Some dragged) true mediaFiles targetId = Some newFiles
    /\ nth_error mediaFiles i = Some draggedFile
    /\ id draggedFile = dragged
    /\ nth_error mediaFiles j = Some targetFile
    /\ id targetFile = targetId
    /\ newFiles
       = splice_insert j draggedFile (firstn i mediaFiles
                                        ++ skipn (S i) mediaFiles)
    /\ Permutation mediaFiles newFiles
    /\ List.length newFiles = List.length mediaFiles
    /\ nth_error newFiles j = Some draggedFile
    /\ (NoDup mediaFiles -> NoDup newFiles).
Proof.
  intros Hne Hdiff Hd Ht i j.
  destruct (findIndex_found _ _ Hd) as (Hdi & x & Hx & Hpx).
  destruct (findIndex_found _ _ Ht) as (Hti & y & Hy & Hpy).
  fold i in Hx. fold j in Hy.
  apply String.eqb_eq in Hpx, Hpy.
  assert (Hj : (j < List.length mediaFiles)%nat).
  { apply nth_error_Some. congruence. }
  destruct (move_spec mediaFiles i j x Hx Hj) as (Hdel & Hperm & Hlen & Hnth).
  exists x, y, (splice_insert j x (firstn i mediaFiles
                                    ++ skipn (S i) mediaFiles)).
  repeat split; auto.
  - unfold handleDrop. cbv zeta. fold i. fold j. rewrite Hdel.
    apply String.eqb_neq in Hne, Hdiff. rewrite Hne, Hdiff.
    replace (findIndex (fun f => String.eqb (id f) dragged) mediaFiles =? -1)
      with false by (symmetry; apply Z.eqb_neq; lia).
    replace (findIndex (fun f => String.eqb (id f) targetId) mediaFiles =? -1)
      with false by (symmetry; apply Z.eqb_neq; lia).
    reflexivity.
  - intros Hnd. eapply Permutation_NoDup; eauto.
Qed.

(** Dragging the first of four entries onto the third. *)
Lemma handleDrop_permutation_witness :
  handleDrop (Some "a"%string) true
    [Samples.entry "a"; Samples.entry "b"; Samples.entry "c";
     Samples.entry "d"] "c"
  = Some [Samples.entry "b"; Samples.entry "c"; Samples.entry "a";
          Samples.entry "d"].
Proof.
  assert (Hne : "a"%string <> ""%string) by discriminate.
  assert (Hdiff : "a"%string <> "c"%string) by discriminate.
  destruct (handleDrop_permutation
              [Samples.entry "a"; Samples.entry "b"; Samples.entry "c";
               Samples.entry "d"] "a" "c"
              Hne Hdiff eq_refl eq_refl)
    as (x & y & l & Hdrop & Hx & _ & _ & _ & Hl & _).
  rewrite Hdrop, Hl. injection Hx as <-. reflexivity.
Defined.

End ReorderFacts.

(** ** Export *)

Module ExportFacts.

Import ExportUtils.
Local Open Scope list_scope.

Lemma rendered_app (a b : list PdfOp) : forall font,
  rendered font (a ++ b)
  = rendered font a ++ rendered (fontAfter font a) b.
Proof.
  induction a as [|o a IH]; intros font; simpl; auto.
  destruct o; simpl; rewrite ?IH; auto.
Qed.

Lemma fontAfter_app (a b : list PdfOp) : forall font,
  fontAfter font (a ++ b) = fontAfter (fontAfter font a) b.
Proof.
  induction a as [|o a IH]; intros font; simpl; auto.
  destruct o; simpl; rewrite ?IH; auto.
Qed.

Lemma grows_refl d : grows d d (fun _ => []) (fun font => font).
Proof. exists []. rewrite app_nil_r. auto. Qed.

Lemma grows_trans d d' d'' out1 fa1 out2 fa2 :
  grows d d' out1 fa1 -> grows d' d'' out2 fa2 ->
  grows d d'' (fun font => out1 font ++ out2 (fa1 font))
    (fun font => fa2 (fa1 font)).
Proof.
  intros (o1 & H1 & R1) (o2 & H2 & R2). exists (o1 ++ o2).
  rewrite H2, H1, app_assoc. split; auto. intros font.
  rewrite rendered_app, fontAfter_app.
  destruct (R1 font) as [-> ->]. destruct (R2 (fa1 font)) as [-> ->]. auto.
Qed.

Lemma grows_ext d d' out fa out' fa' :
  grows d d' out fa ->
  (forall font, out font = out' font) -> (forall font, fa font = fa' font) ->
  grows d d' out' fa'.
Proof.
  intros (o & H & R) Ho Hf. exists o. split; auto.
  intros font. rewrite <- Ho, <- Hf. apply R.
Qed.

Section PdfFacts.

Variables pageWidth pageHeight : float.
Variable splitTextToSize : string -> float -> list string.
Variable fileToDataURL : File -> option string.
Variable addImageAccepts : string -> bool.

Local Abbreviation cw := (contentWidth pageWidth).
Local Abbreviation addSection' :=
  (addSection pageWidth pageHeight splitTextToSize).
Local Abbreviation addFigure' :=
  (addFigure pageWidth pageHeight splitTextToSize fileToDataURL
     addImageAccepts).
Local Abbreviation addFigures' :=
  (addFigures pageWidth pageHeight splitTextToSize fileToDataURL
     addImageAccepts).
Local Abbreviation addCitation' := (addCitation pageWidth splitTextToSize).
Local Abbreviation addCitations' := (addCitations pageWidth splitTextToSize).
Local Abbreviation embeds' := (embeds fileToDataURL addImageAccepts).

Local Abbreviation sectionText' := (sectionText pageWidth splitTextToSize).
Local Abbreviation captionText' := (captionText pageWidth splitTextToSize).
Local Abbreviation citationLine' := (citationLine pageWidth splitTextToSize).

Lemma addSection_grows d section :
  grows d (addSection' d section) (fun _ => sectionText' section)
    (fun _ => mkFont 11 "normal").
Proof.
  unfold addSection, grows, draw, advance, moveTo. cbv zeta.
  destruct (PrimFloat.ltb _ _); simpl; rewrite <- ?app_assoc;
    eexists; (split; [reflexivity|]); intros font; split; reflexivity.
Qed.

Lemma addSections_grows l : forall d,
  exists fa,
    grows d (fold_left addSection' l d) (fun _ => flat_map sectionText' l) fa.
Proof.
  induction l as [|section l IH]; intros d; simpl.
  - eexists. apply grows_refl.
  - destruct (IH (addSection' d section)) as (fa & Hg).
    eexists.
    eapply grows_ext;
      [exact (grows_trans _ _ _ _ _ _ _ (addSection_grows d section) Hg)
      | reflexivity | reflexivity].
Qed.

Lemma addFigure_grows i mediaFile d :
  exists fa,
    grows d (addFigure' i mediaFile d)
      (fun _ => if embeds' mediaFile then [captionText' (i, mediaFile)]
                else [])
      fa.
Proof.
  unfold addFigure, embeds, grows, draw, advance, moveTo, captionText.
  destruct (fileToDataURL (file mediaFile)) as [data|].
  2:{ exists (fun font => font), []. rewrite app_nil_r. auto. }
  destruct (getScaledDimensions _ _ _ _) as [sw sh].
  destruct (PrimFloat.ltb _ _), (addImageAccepts data); simpl;
    rewrite <- ?app_assoc.
  - exists (fun _ => mkFont 10 "italic"). eexists.
    split; [reflexivity|]. intros font; split; reflexivity.
  - exists (fun font => font). eexists.
    split; [reflexivity|]. intros font; split; reflexivity.
  - exists (fun _ => mkFont 10 "italic"). eexists.
    split; [reflexivity|]. intros font; split; reflexivity.
  - exists (fun font => font), []. rewrite app_nil_r. auto.
Qed.

Lemma addFigures_grows l : forall i d,
  exists fa,
    grows d (addFigures' i l d)
      (fun _ => map captionText'
                  (filter (fun im => embeds' (snd im)) (numbered i l)))
      fa.
Proof.
  induction l as [|m l IH]; intros i d; simpl.
  - eexists. apply grows_refl.
  - destruct (addFigure_grows i m d) as (fa1 & H1).
    destruct (IH (S i) (addFigure' i m d)) as (fa2 & H2).
    eexists.
    eapply grows_ext; [exact (grows_trans _ _ _ _ _ _ _ H1 H2) | | reflexivity].
    intros font. simpl. destruct (embeds' m); reflexivity.
Qed.

Lemma addCitations_grows l : forall index d,
  grows d (addCitations' index l d)
    (fun font => map (citationLine' font) (numbered index l))
    (fun font => font).
Proof.
  induction l as [|citation l IH]; intros index d; simpl.
  - apply grows_refl.
  - assert (H1 : grows d (addCitation' index citation d)
                   (fun font => [citationLine' font (index, citation)])
                   (fun font => font)).
    { unfold addCitation, grows, draw, advance. simpl. eexists.
      split; [reflexivity|]. intros font; split; reflexivity. }
    eapply grows_ext;
      [exact (grows_trans _ _ _ _ _ _ _ H1 (IH (S index) _))
      | reflexivity | reflexivity].
Qed.

Local Abbreviation headerText' := (headerText pageWidth splitTextToSize).
Local Abbreviation figuresText' :=
  (figuresText pageWidth splitTextToSize fileToDataURL addImageAccepts).
Local Abbreviation referencesText' :=
  (referencesText pageWidth splitTextToSize).
Local Abbreviation exportToPDF' :=
  (exportToPDF pageWidth pageHeight splitTextToSize fileToDataURL
     addImageAccepts).

Lemma addTitleAndAbstract_grows projectData d :
  grows d (addTitleAndAbstract pageWidth splitTextToSize projectData d)
    (fun _ => headerText' projectData) (fun _ => mkFont 12 "normal").
Proof.
  unfold addTitleAndAbstract, grows, draw, advance. simpl.
  rewrite <- app_assoc. eexists. split; [reflexivity|].
  intros font; split; reflexivity.
Qed.

Lemma addFiguresSection_grows mediaFiles d :
  exists fa,
    grows d
      (addFiguresSection pageWidth pageHeight splitTextToSize fileToDataURL
         addImageAccepts mediaFiles d)
      (fun _ => figuresText' mediaFiles) fa.
Proof.
  unfold addFiguresSection, figuresText.
  destruct (0 <? List.length mediaFiles)%nat.
  2:{ eexists. apply grows_refl. }
  cbv zeta.
  match goal with
  | |- context [addFigures _ _ _ _ _ 0%nat mediaFiles ?d0] =>
      destruct (addFigures_grows mediaFiles 0%nat d0) as (fa & o & H & R)
  end.
  exists (fun _ => fa (mkFont 16 "bold")).
  unfold grows. rewrite H. unfold draw, advance, moveTo. simpl.
  rewrite <- !app_assoc. eexists. split; [reflexivity|].
  intros font. simpl. destruct (R (mkFont 16 "bold")) as [-> ->]. auto.
Qed.

Lemma addReferences_grows projectData d :
  exists fa,
    grows d (addReferences pageWidth splitTextToSize projectData d)
      (fun _ => referencesText' projectData) fa.
Proof.
  unfold addReferences, referencesText.
  destruct (0 <? List.length (citations projectData))%nat.
  2:{ eexists. apply grows_refl. }
  cbv zeta.
  match goal with
  | |- context [addCitations _ _ 0%nat (citations projectData) ?d0] =>
      destruct (addCitations_grows (citations projectData) 0%nat d0)
        as (o & H & R)
  end.
  eexists. unfold grows. rewrite H. unfold draw, advance, moveTo. simpl.
  rewrite <- !app_assoc. eexists. split; [reflexivity|].
  intros font. simpl. destruct (R (mkFont 10 "normal")) as [-> ->].
  split; reflexivity.
Qed.

(** The text of the whole document. *)
Lemma exportToPDF_rendered projectData mediaFiles :
  rendered defaultFont (exportToPDF' projectData mediaFiles)
  = headerText' projectData
    ++ flat_map sectionText' (sections projectData)
    ++ figuresText' mediaFiles
    ++ referencesText' projectData.
Proof.
  unfold exportToPDF. cbv zeta.
  set (d0 := mkDoc [] (margin)).
  pose proof (addTitleAndAbstract_grows projectData d0) as G1.
  set (d1 := addTitleAndAbstract _ _ _ d0) in *.
  destruct (addSections_grows (sections projectData) d1) as (fa2 & G2).
  set (d2 := fold_left _ _ d1) in *.
  destruct (addFiguresSection_grows mediaFiles d2) as (fa3 & G3).
  set (d3 := addFiguresSection _ _ _ _ _ _ d2) in *.
  destruct (addReferences_grows projectData d3) as (fa4 & G4).
  set (d4 := addReferences _ _ _ d3) in *.
  pose proof
    (grows_trans _ _ _ _ _ _ _
       (grows_trans _ _ _ _ _ _ _
          (grows_trans _ _ _ _ _ _ _ G1 G2) G3) G4) as (o & H & R).
  rewrite H. simpl. rewrite rendered_app.
  destruct (R defaultFont) as [-> _]. simpl.
  now rewrite app_nil_r, <- !app_assoc.
Qed.

Lemma numbered_length {A} (l : list A) : forall i,
  List.length (numbered i l) = List.length l
  /\ map fst (numbered i l) = seq i (List.length l).
Proof.
  induction l as [|x l IH]; intros i; simpl; auto.
  destruct (IH (S i)) as [-> ->]. auto.
Qed.

Lemma filter_all {A} (p : A -> bool) (l : list A) :
  forallb p l = true -> filter p l = l.
Proof.
  induction l as [|x l IH]; simpl; auto.
  intros H. apply andb_prop in H. destruct H as [-> H].
  now rewrite IH.
Qed.

Lemma forallb_numbered {A} (p : A -> bool) (l : list A) : forall i,
  forallb p l = true -> forallb (fun ix => p (snd ix)) (numbered i l) = true.
Proof.
  induction l as [|x l IH]; intros i; simpl; auto.
  intros H. apply andb_prop in H. destruct H as [-> H]. simpl. auto.
Qed.

(** C6, amended.  The text of the exported document is: title and
    abstract; every section's title and body; if there is at least one
    media file, the heading 'Figures' followed by one caption
    'Figure i: <caption-or-filename>' for each media file whose image is
    read and taken by the document, in the order of the list and with i the
    file's position in the list counted from 1; if there is at least one
    citation, the heading 'References' followed by 'j. <citation>' for every
    citation, in order.  With no media file there is no 'Figures' heading;
    when every image embeds, the captions are those of all N files,
    numbered 1 to N. *)
Theorem exportToPDF_figures_references (projectData : ProjectData)
    (mediaFiles : list MediaFile) :
  let doc := rendered defaultFont (exportToPDF' projectData mediaFiles) in
  let captions :=
    map captionText'
      (filter (fun im => embeds' (snd im)) (numbered 0 mediaFiles)) in
  let references :=
    map (citationLine' (mkFont 10 "normal"))
      (numbered 0 (citations projectData)) in
  doc
  = headerText' projectData
    ++ flat_map sectionText' (sections projectData)
    ++ (if (0 <? List.length mediaFiles)%nat
        then (mkFont 16 "bold", ["Figures"%string]) :: captions else [])
    ++ (if (0 <? List.length (citations projectData))%nat
        then (mkFont 16 "bold", ["References"%string]) :: references
        else [])
  /\ (forall i m,
        captionText' (i, m)
        = (mkFont 10 "italic",
           splitTextToSize
             ("Figure " ++ JS.Number_toString (Z.of_nat i + 1) ++ ": "
                ++ JS.orElse (caption m) (name (file m)))%string cw))
  /\ (forall font j c,
        citationLine' font (j, c)
        = (font,
           splitTextToSize
             (JS.Number_toString (Z.of_nat j + 1) ++ ". " ++ c)%string cw))
  /\ map fst (numbered 0 mediaFiles) = seq 0 (List.length mediaFiles)
  /\ map fst (numbered 0 (citations projectData))
     = seq 0 (List.length (citations projectData))
  /\ (mediaFiles = [] ->
      ~ In (mkFont 16 "bold", ["Figures"%string]) doc)
  /\ (forallb embeds' mediaFiles = true ->
      captions = map captionText' (numbered 0 mediaFiles)
      /\ List.length captions = List.length mediaFiles).
Proof.
  intros doc captions references.
  assert (Hdoc : doc
    = headerText' projectData
      ++ flat_map sectionText' (sections projectData)
      ++ figuresText' mediaFiles ++ referencesText' projectData)
    by apply exportToPDF_rendered.
  split; [exact Hdoc|].
  split; [reflexivity|]. split; [reflexivity|].
  split; [apply numbered_length|]. split; [apply numbered_length|].
  split.
  - intros -> Hin. rewrite Hdoc in Hin. simpl in Hin.
    destruct Hin as [H|[H|Hin]]; try discriminate.
    apply in_app_or in Hin. destruct Hin as [Hin|Hin].
    + apply in_flat_map in Hin. destruct Hin as (sec & _ & [H|[H|[]]]);
        discriminate.
    + unfold referencesText in Hin.
      destruct (0 <? _)%nat; [|destruct Hin].
      destruct Hin as [H|Hin]; [discriminate|].
      apply in_map_iff in Hin. destruct Hin as (jc & H & _). discriminate.
  - intros Hall. subst captions.
    rewrite filter_all by now apply forallb_numbered.
    split; [reflexivity|].
    rewrite length_map. apply numbered_length.
Qed.

End PdfFacts.

(** *** Names of the downloads *)

Lemma sanitize_char (c : ascii) :
  safeChar (JS.lowerChar (if isAlnum c then c else "_"%char)) = true
  /\ (isAlnum c = true -> lowerAlnum (JS.lowerChar c) = true).
Proof. destruct c as [[] [] [] [] [] [] [] []]; split; try reflexivity;
  discriminate. Qed.

Lemma every_append p (a b : string) :
  JS.every p (a ++ b)%string = JS.every p a && JS.every p b.
Proof.
  induction a as [|c a IH]; simpl; auto.
  now rewrite IH, andb_assoc.
Qed.

Lemma sanitize_safe (s : string) :
  JS.every safeChar (sanitize s) = true
  /\ String.length (sanitize s) = String.length s
  /\ (JS.every isAlnum s = true -> JS.every lowerAlnum (sanitize s) = true).
Proof.
  unfold sanitize.
  induction s as [|c s (IH1 & IH2 & IH3)]; simpl; auto.
  destruct (sanitize_char c) as [Hc Ha].
  rewrite Hc, IH1, IH2. repeat split.
  intros H. apply andb_prop in H. destruct H as [Hc' Hs].
  rewrite Hc'. rewrite (Ha Hc'), (IH3 Hs). reflexivity.
Qed.

(** C9, as stated, fails.  The report title the application generates
    gives a name with underscores, and the gallery image always has one in
    its '_gallery' suffix. *)
Lemma download_name_with_underscores :
  let p := mkProjectData "AI-Generated Report: Soil pH" "" [] [] in
  pdfFileName p = "ai_generated_report__soil_ph.pdf"%string
  /\ pptxFileName p = "ai_generated_report__soil_ph.pptx"%string
  /\ JS.every lowerAlnum "ai_generated_report__soil_ph" = false
  /\ pngDownloadName "soil" = "soil_gallery.png"%string
  /\ JS.every lowerAlnum "soil_gallery" = false.
Proof. repeat split. Qed.

(** C9, amended.  The document and the slide deck are named from the
    project title, and the gallery image from the file name it is given
    followed by '_gallery', after every code unit that is not an ASCII
    letter or digit is replaced by an underscore and the letters are
    lower-cased: the name before the extension contains only lower-case
    letters, digits and underscores, as many as the title has code units;
    the part that comes from a title made of letters and digits only
    contains only lower-case letters and digits. *)
Theorem download_names (pageWidth pageHeight : float)
    (splitTextToSize : string -> float -> list string)
    (fileToDataURL : File -> option string)
    (addImageAccepts : string -> bool) (projectData : ProjectData)
    (mediaFiles : list MediaFile) (filename : string) :
  (exists l,
     exportToPDF pageWidth pageHeight splitTextToSize fileToDataURL
       addImageAccepts projectData mediaFiles
     = l ++ [save (sanitize (title projectData) ++ ".pdf")%string])
  /\ pptxFileName projectData
     = (sanitize (title projectData) ++ ".pptx")%string
  /\ exportToPNG true filename
     = JS.Resolved (sanitize filename ++ "_gallery" ++ ".png")%string
  /\ JS.every safeChar (sanitize (title projectData)) = true
  /\ JS.every safeChar (sanitize filename ++ "_gallery")%string = true
  /\ String.length (sanitize (title projectData))
     = String.length (title projectData)
  /\ (JS.every isAlnum (title projectData) = true ->
      JS.every lowerAlnum (sanitize (title projectData)) = true).
Proof.
  destruct (sanitize_safe (title projectData)) as (H1 & H2 & H3).
  destruct (sanitize_safe filename) as (H4 & _).
  repeat split; auto.
  - eexists. reflexivity.
  - rewrite every_append, H4. reflexivity.
Qed.

Lemma download_names_witness :
  JS.every lowerAlnum (sanitize "SoilPH2024") = true
  /\ sanitize "SoilPH2024" = "soilph2024"%string.
Proof.
  pose proof
    (download_names 210 297 (fun s _ => [s]) (fun _ => None) (fun _ => true)
       (mkProjectData "SoilPH2024" "" [] []) [] "")
    as (_ & _ & _ & _ & _ & _ & H).
  split; [apply H|]; reflexivity.
Defined.

(** C6, as stated, fails.  Of three media files the second cannot be
    read: the document has the 'Figures' heading and two captions, numbered
    1 and 3, not three. *)
Lemma exportToPDF_unreadable_image :
  let mediaFiles :=
    [Samples.figure "a" (Some "Soil map"); Samples.figure "b" None;
     Samples.figure "c" (Some "")] in
  rendered defaultFont
    (exportToPDF 210 297 Samples.oneLine
       (fun f => if String.eqb (name f) "b.png" then None
                 else Some "data:image/png;base64,"%string)
       (fun _ => true) Samples.report mediaFiles)
  = [(mkFont 20 "bold", ["AI-Generated Report: Soil pH"%string]);
     (mkFont 12 "normal", ["Abstract."%string]);
     (mkFont 14 "bold", ["1. Introduction"%string]);
     (mkFont 11 "normal", ["Body."%string]);
     (mkFont 16 "bold", ["Figures"%string]);
     (mkFont 10 "italic", ["Figure 1: Soil map"%string]);
     (mkFont 10 "italic", ["Figure 3: c.png"%string]);
     (mkFont 16 "bold", ["References"%string]);
     (mkFont 10 "normal", ["1. Smith, J. (2023)."%string]);
     (mkFont 10 "normal", ["2. Brown, M. (2023)."%string])]
  /\ List.length mediaFiles = 3%nat.
Proof. split; vm_compute; reflexivity. Qed.

(** Two media files that embed: two captions, numbered 1 and 2. *)
Lemma exportToPDF_figures_references_witness :
  let mediaFiles :=
    [Samples.figure "a" (Some "Soil map"); Samples.figure "b" None] in
  let read := fun _ : File => Some "data:image/png;base64,"%string in
  map (captionText 210 Samples.oneLine)
    (filter (fun im => embeds read (fun _ => true) (snd im))
       (numbered 0 mediaFiles))
  = [(mkFont 10 "italic", ["Figure 1: Soil map"%string]);
     (mkFont 10 "italic", ["Figure 2: b.png"%string])]
  /\ ~ In (mkFont 16 "bold", ["Figures"%string])
        (rendered defaultFont
           (exportToPDF 210 297 Samples.oneLine read (fun _ => true)
              Samples.report [])).
Proof.
  intros mediaFiles read.
  pose proof
    (exportToPDF_figures_references 210 297 Samples.oneLine read
       (fun _ => true) Samples.report mediaFiles) as (_ & _ & _ & _ & _ & _ & Hall).
  pose proof
    (exportToPDF_figures_references 210 297 Samples.oneLine read
       (fun _ => true) Samples.report []) as (_ & _ & _ & _ & _ & Hnone & _).
  split.
  - destruct Hall as [-> _]; reflexivity.
  - apply Hnone. reflexivity.
Defined.

End ExportFacts.

(** ** Release of local references *)

Module ComponentFacts.

Import ProjectStepper.
Local Open Scope list_scope.

Lemma cleanup_revokes (l : list MediaFile) (m : MediaFile) :
  In m l -> StorageUtils.localOnly m -> In (src m) (effectCleanup l).
Proof.
  intros Hin [Hb Hc]. unfold effectCleanup.
  destruct l as [|x l]; [destruct Hin|].
  change (0 <? List.length (x :: l))%nat with true. cbv iota.
  unfold StorageUtils.cleanupObjectUrls. apply in_flat_map.
  exists m. split; auto. rewrite Hb, Hc. simpl. auto.
Qed.

(** Removing a local-only entry revokes its URL (at least once). *)
Lemma removeFile_revokes (c : Component) (m : MediaFile) :
  In m (mediaFiles c) -> StorageUtils.localOnly m ->
  In (src m) (revoked (removeFile (id m) c)).
Proof.
  intros Hin Hl. unfold removeFile, setMediaFiles. simpl.
  apply in_or_app. right. now apply cleanup_revokes.
Qed.

(** C8 on the code: two local-only entries, the second removed and then
    the first.  The URL of the first is revoked when the second entry is
    removed, while the first is still in the list, and again when the first
    is removed: twice in all. *)
Lemma removal_revokes_twice :
  let a := Samples.entry "a" in
  let b := Samples.entry "b" in
  let c0 := mkComponent [a; b] [] [] in
  let c1 := removeFile "b" c0 in
  let c2 := removeFile "a" c1 in
  src a = "blob:a"%string /\ cloudUrl a = None
  /\ mediaFiles c1 = [a]
  /\ revoked c1 = ["blob:a"; "blob:b"]%string
  /\ mediaFiles c2 = []
  /\ revoked c2 = ["blob:a"; "blob:b"; "blob:a"]%string
  /\ count_occ string_dec (revoked c2) "blob:a"%string = 2%nat.
Proof. repeat split. Qed.

End ComponentFacts.

(* ================================================================== *)
(** * Further properties *)

(** ** Substrings *)

Module StringFacts.

Lemma prefix_app (p s : string) : String.prefix p (p ++ s) = true.
Proof.
  induction p as [|c p IH]; simpl; [now destruct s|].
  destruct (ascii_dec c c) as [_|Hc]; [exact IH | now destruct Hc].
Qed.

Lemma prefix_split (p : string) : forall s,
  String.prefix p s = true -> exists post, s = (p ++ post)%string.
Proof.
  induction p as [|c p IH]; intros s H.
  - now exists s.
  - destruct s as [|d s]; simpl in H; [discriminate|].
    destruct (ascii_dec c d) as [->|]; [|discriminate].
    destruct (IH s H) as (post & ->). now exists post.
Qed.

Lemma includes_nil (sub : string) :
  JS.includes "" sub = String.prefix sub "" || false.
Proof. reflexivity. Qed.

Lemma includes_cons (c : ascii) (s sub : string) :
  JS.includes (String c s) sub
  = String.prefix sub (String c s) || JS.includes s sub.
Proof. reflexivity. Qed.

(** [s.includes(sub)] holds exactly when [sub] stands somewhere in [s]. *)
Lemma includes_spec (sub : string) : forall s,
  JS.includes s sub = true
  <-> exists pre post, s = (pre ++ sub ++ post)%string.
Proof.
  induction s as [|c s IH].
  - rewrite includes_nil, orb_false_r. split.
    + intros H. apply prefix_split in H. destruct H as (post & H).
      now exists ""%string, post.
    + intros (pre & post & H). destruct pre; simpl in H.
      * rewrite H. apply prefix_app.
      * discriminate.
  - rewrite includes_cons. split.
    + intros H. apply orb_prop in H. destruct H as [H|H].
      * apply prefix_split in H. destruct H as (post & H).
        now exists ""%string, post.
      * apply IH in H. destruct H as (pre & post & ->).
        now exists (String c pre), post.
    + intros (pre & post & H). destruct pre as [|d pre]; simpl in H.
      * rewrite H, prefix_app. reflexivity.
      * inversion H; subst. apply orb_true_iff. right.
        apply IH. now exists pre, post.
Qed.

Lemma toLowerCase_app (a b : string) :
  JS.toLowerCase (a ++ b) = (JS.toLowerCase a ++ JS.toLowerCase b)%string.
Proof. induction a as [|c a IH]; simpl; [reflexivity | now rewrite IH]. Qed.

End StringFacts.

(** ** More on validation and normalisation *)

Module ImageFacts.

Local Open Scope list_scope.

(** X1.  A file within the size limit and of an allowed type is refused as
    suspicious whenever its name holds one of the listed extensions
    anywhere, in any letter case: not only as its last extension. *)
Theorem blocklist_matches_anywhere (f : File) (pre mid post ext : string) :
  size f <= ImageUtils.MAX_FILE_SIZE ->
  In (type f) ImageUtils.ALLOWED_MIME_TYPES ->
  In ext ImageUtils.suspiciousExtensions ->
  name f = (pre ++ mid ++ post)%string ->
  JS.toLowerCase mid = ext ->
  ImageUtils.validateImageFile f
  = ImageUtils.mkValidation false (Some (ImageUtils.suspiciousError f)).
Proof.
  intros Hs Ht Hext Hname Hmid.
  assert (Hsus : ImageUtils.suspicious f).
  { exists ext. split; auto. apply StringFacts.includes_spec.
    exists (JS.toLowerCase pre), (JS.toLowerCase post).
    now rewrite Hname, !StringFacts.toLowerCase_app, Hmid. }
  destruct (ValidatorFacts.validateImageFile_cases f)
    as [(H & _)|[(_ & H & _)|[(_ & _ & _ & H)|(_ & _ & H & _)]]].
  - unfold ImageUtils.oversized in H. lia.
  - unfold ImageUtils.unsupported in H. contradiction.
  - exact H.
  - contradiction.
Qed.

Lemma blocklist_matches_anywhere_witness :
  ImageUtils.validateImageFile
    (mkFile "www.example.COM.png" "image/png" 2048 0)
  = ImageUtils.mkValidation false
      (Some (ImageUtils.suspiciousError
               (mkFile "www.example.COM.png" "image/png" 2048 0))).
Proof.
  apply (blocklist_matches_anywhere _ "www.example" ".COM" ".png" ".com").
  - vm_compute. discriminate.
  - simpl. tauto.
  - simpl. tauto.
  - reflexivity.
  - reflexivity.
Defined.

(** X2.  [processImage] rejects with 'Failed to load image: <name>' when the
    image does not decode.  When it resolves, the new file keeps the name
    and the declared type of the original and holds the very blob the
    encoder returned for the canvas of the result's size; and an image no
    wider than 2000 keeps its height however tall it is. *)
Theorem processImage_outcomes (b : ImageUtils.Browser) (f : File) :
  (ImageUtils.decoded b = None ->
   ImageUtils.processImage b f
   = JS.Rejected ("Failed to load image: " ++ name f)%string)
  /\ (forall p,
       ImageUtils.processImage b f = JS.Resolved p ->
       name (ImageUtils.file p) = name f
       /\ type (ImageUtils.file p) = type f
       /\ ImageUtils.encoded b (ImageUtils.width p) (ImageUtils.height p)
          = Some (ImageUtils.mkBlob (size (ImageUtils.file p))
                    (payload (ImageUtils.file p)))
       /\ (forall W H,
            ImageUtils.decoded b = Some (W, H) -> W <= 2000 ->
            ImageUtils.width p = W /\ ImageUtils.height p = H)).
Proof.
  split.
  - intros Hd. unfold ImageUtils.processImage. now rewrite Hd.
  - intros p. unfold ImageUtils.processImage.
    destruct (ImageUtils.decoded b) as [[w h]|]; [|discriminate].
    unfold ImageUtils.MAX_WIDTH.
    destruct (2000 <? w) eqn:Hw.
    + destruct (ImageUtils.encoded b 2000 _) as [[bs bd]|] eqn:He;
        [|discriminate].
      intros [= <-]. simpl.
      split; [reflexivity|]. split; [reflexivity|]. split; [exact He|].
      intros W H [= -> ->] HW. apply Z.ltb_lt in Hw. lia.
    + destruct (ImageUtils.encoded b w h) as [[bs bd]|] eqn:He;
        [|discriminate].
      intros [= <-]. simpl.
      split; [reflexivity|]. split; [reflexivity|]. split; [exact He|].
      intros W H [= -> ->] _. split; reflexivity.
Qed.

Lemma processImage_outcomes_witness :
  ImageUtils.processImage (ImageUtils.mkBrowser None (fun _ _ => None))
    (mkFile "torn.png" "image/png" 2048 0)
  = JS.Rejected "Failed to load image: torn.png".
Proof.
  apply (processImage_outcomes (ImageUtils.mkBrowser None (fun _ _ => None))
           (mkFile "torn.png" "image/png" 2048 0)).
  reflexivity.
Defined.

End ImageFacts.

(** ** More on batch intake *)

Module BatchFacts.

Import StorageUtils.
Local Open Scope list_scope.

Local Abbreviation taken env files :=
  (filter (accepted env) (indexed 0 files)).

Lemma entryOf_accepted supabase env (jf : nat * File) :
  List.length (entryOf supabase (env (fst jf)) (fst jf) (snd jf))
  = (if accepted env jf then 1 else 0)%nat
  /\ List.length (errorOf (env (fst jf)) (snd jf))
     = (if accepted env jf then 0 else 1)%nat.
Proof.
  unfold entryOf, errorOf, accepted.
  destruct (ImageUtils.isValid _); simpl; auto.
  destruct (ImageUtils.processImage _ _); simpl; auto.
Qed.

Lemma batch_lengths supabase env (l : list (nat * File)) :
  List.length
    (flat_map (fun jf => entryOf supabase (env (fst jf)) (fst jf) (snd jf)) l)
  = List.length (filter (accepted env) l)
  /\ (List.length
        (flat_map (fun jf => errorOf (env (fst jf)) (snd jf)) l)
      + List.length (filter (accepted env) l) = List.length l)%nat.
Proof.
  induction l as [|jf l [IH1 IH2]]; simpl; auto.
  rewrite !length_app.
  destruct (entryOf_accepted supabase env jf) as [-> ->].
  destruct (accepted env jf); simpl; lia.
Qed.

Lemma indexed_length files : forall i,
  List.length (indexed i files) = List.length files.
Proof. induction files; intros i; simpl; auto. Qed.

Lemma cap_check (existingFiles : list MediaFile) (files : list File) :
  Z.of_nat (List.length existingFiles) + Z.of_nat (List.length files) <= 12 ->
  (maxFiles <? Z.of_nat (List.length existingFiles)
               + Z.of_nat (List.length files)) = false.
Proof. intros H. apply Z.ltb_ge. exact H. Qed.

(** X3.  In a run that passes the limit check each callback of the end is
    called at most once; the completion callback is called exactly when
    some file validates and normalises, never with an empty batch, and its
    batch has one entry per such file; the error callback is called exactly
    when some file does not. *)
Theorem intake_accounting (supabase : bool) (env : nat -> Env)
    (files : list File) (existingFiles : list MediaFile) :
  Z.of_nat (List.length existingFiles) + Z.of_nat (List.length files) <= 12 ->
  let r := processAndUploadFiles supabase env files existingFiles in
  (List.length (completeCalls r) <= 1)%nat
  /\ (List.length (errorCalls r) <= 1)%nat
  /\ (completeCalls r = [] <-> taken env files = [])
  /\ (errorCalls r = []
      <-> List.length (taken env files) = List.length files)
  /\ (forall batch,
        In batch (completeCalls r) ->
        batch <> [] /\ List.length batch = List.length (taken env files)).
Proof.
  intros Hle r.
  pose proof (run_spec_of := IntakeFacts.run_spec supabase env files
                               existingFiles (cap_check _ _ Hle)).
  cbv zeta in run_spec_of. destruct run_spec_of as [He Hc]. fold r in He, Hc.
  destruct (batch_lengths supabase env (indexed 0 files)) as [Hn Hsum].
  rewrite indexed_length in Hsum.
  rewrite He, Hc. clear He Hc.
  set (news :=
         flat_map
           (fun jf => entryOf supabase (env (fst jf)) (fst jf) (snd jf))
           (indexed 0 files)) in *.
  set (errs :=
         flat_map (fun jf => errorOf (env (fst jf)) (snd jf))
           (indexed 0 files)) in *.
  split; [destruct (0 <? _)%nat; simpl; lia|].
  split; [destruct (0 <? _)%nat; simpl; lia|].
  split; [|split].
  - destruct news as [|m news]; simpl in *.
    + split; auto. intros _. now apply length_zero_iff_nil.
    + split; [discriminate|]. intros H. rewrite H in Hn. discriminate.
  - destruct errs as [|e errs]; simpl in *.
    + split; auto.
    + split; [discriminate|]. intros H. lia.
  - intros batch Hin. destruct news as [|m news]; simpl in *;
      [contradiction|].
    destruct Hin as [<-|[]]. split; [discriminate|]. exact Hn.
Qed.

Lemma intake_accounting_witness :
  let r :=
    processAndUploadFiles false Samples.fairEnv
      [Samples.exeFile; Samples.pngFile] [] in
  List.length (completeCalls r) = 1%nat /\ List.length (errorCalls r) = 1%nat.
Proof.
  intros r.
  assert (Hle : Z.of_nat (List.length (@nil MediaFile))
                + Z.of_nat
                    (List.length [Samples.exeFile; Samples.pngFile]) <= 12)
    by (simpl; lia).
  pose proof (intake_accounting false Samples.fairEnv
                [Samples.exeFile; Samples.pngFile] [] Hle)
    as (H1 & H2 & H3 & H4 & _).
  fold r in H1, H2, H3, H4.
  destruct (completeCalls r) as [|b l] eqn:Hc.
  { exfalso. destruct H3 as [H3 _]. specialize (H3 eq_refl). discriminate. }
  destruct (errorCalls r) as [|e l'] eqn:He.
  { exfalso. destruct H4 as [H4 _]. specialize (H4 eq_refl). discriminate. }
  simpl in *. split; lia.
Defined.

Lemma append_nonempty (a b : string) :
  b <> ""%string -> (a ++ b)%string <> ""%string.
Proof. destruct a; simpl; [auto | discriminate]. Qed.

Lemma join_nonempty (sep x : string) (l : list string) :
  x <> ""%string -> JS.join sep (x :: l) <> ""%string.
Proof.
  intros Hx. destruct l as [|y l]; simpl; auto.
  destruct x; [contradiction | discriminate].
Qed.

Lemma errorOf_nonempty e f : Forall (fun l => l <> ""%string) (errorOf e f).
Proof.
  unfold errorOf.
  destruct (ValidatorFacts.validateImageFile_cases f)
    as [(_ & ->)|[(_ & _ & ->)|[(_ & _ & _ & ->)|(_ & _ & _ & ->)]]];
    simpl; try (constructor; [discriminate | constructor]).
  destruct (ImageUtils.processImage _ _); constructor; [|constructor].
  apply append_nonempty. discriminate.
Qed.

(** X4.  In a run that passes the limit check, the message handed to the
    error callback is the lines of the refused files, in the order of the
    batch, joined by line feeds: for a file the validator refuses, the
    validator's reason; for a valid file that does not normalise,
    '<name>: Failed to process image', whatever went wrong; nothing for the
    others.  The message is never empty, and no line speaks of moderation
    or of the upload. *)
Theorem intake_error_message (supabase : bool) (env : nat -> Env)
    (files : list File) (existingFiles : list MediaFile) :
  Z.of_nat (List.length existingFiles) + Z.of_nat (List.length files) <= 12 ->
  let r := processAndUploadFiles supabase env files existingFiles in
  let line (jf : nat * File) : list string :=
    if ImageUtils.isValid (ImageUtils.validateImageFile (snd jf)) then
      match ImageUtils.processImage (browser (env (fst jf))) (snd jf) with
      | JS.Resolved _ => []
      | JS.Rejected _ => [(name (snd jf) ++ ": Failed to process image")%string]
      end
    else
      match ImageUtils.error (ImageUtils.validateImageFile (snd jf)) with
      | Some reason => [reason]
      | None => [""%string]
      end in
  let lines := flat_map line (indexed 0 files) in
  errorCalls r
  = match lines with
    | [] => []
    | _ :: _ => [JS.join JS.newline lines]
    end
  /\ forall message, In message (errorCalls r) -> message <> ""%string.
Proof.
  intros Hle r line lines.
  pose proof (IntakeFacts.run_spec supabase env files existingFiles
                (cap_check _ _ Hle)) as [He _].
  cbv zeta in He. fold r in He.
  assert (Hlines : flat_map (fun jf => errorOf (env (fst jf)) (snd jf))
                     (indexed 0 files) = lines).
  { subst lines line. apply flat_map_ext. intros [j f]. unfold errorOf.
    simpl. destruct (ImageUtils.isValid _); [reflexivity|].
    now destruct (ImageUtils.error _). }
  assert (Hne : Forall (fun l => l <> ""%string) lines).
  { rewrite <- Hlines. generalize (indexed 0 files) as l.
    induction l as [|jf l IH]; simpl; [constructor|].
    apply Forall_app. split; auto. apply errorOf_nonempty. }
  rewrite Hlines in He. rewrite He.
  destruct lines as [|x l].
  - simpl. split; [reflexivity|]. intros message [].
  - change (0 <? List.length (x :: l))%nat with true. cbv iota.
    split; [reflexivity|]. intros message [<-|[]].
    apply join_nonempty. now inversion Hne.
Qed.

Lemma intake_error_message_witness :
  errorCalls
    (processAndUploadFiles false
       (fun i =>
          if Nat.eqb i 1 then
            mkEnv 0 (ImageUtils.mkBrowser None (fun _ _ => None)) []
              (StoreError "") ""
          else Samples.fairEnv i)
       [Samples.exeFile; Samples.pngFile] [])
  = [("File " ++ JS.dquote ++ "setup.EXE.png" ++ JS.dquote
        ++ " appears to be suspicious and cannot be uploaded."
        ++ JS.newline ++ "plot.png: Failed to process image")%string].
Proof.
  assert (Hle : Z.of_nat (List.length (@nil MediaFile))
                + Z.of_nat
                    (List.length [Samples.exeFile; Samples.pngFile]) <= 12)
    by (simpl; lia).
  destruct (intake_error_message false
              (fun i =>
                 if Nat.eqb i 1 then
                   mkEnv 0 (ImageUtils.mkBrowser None (fun _ _ => None)) []
                     (StoreError "") ""
                 else Samples.fairEnv i)
              [Samples.exeFile; Samples.pngFile] [] Hle) as [-> _].
  reflexivity.
Defined.

(** X5.  In a run that passes the limit check with a client configured, a
    file that validates and normalises and that the store takes is in the
    batch with the public URL as both [src] and [cloudUrl], no longer
    uploading and at 100; and, the URL being non-empty,
    [cleanupObjectUrls] never revokes it. *)
Theorem upload_success_entry (env : nat -> Env) (files : list File)
    (existingFiles : list MediaFile) (i : nat) (f : File)
    (p : ImageUtils.ProcessedImage) (url : string) :
  Z.of_nat (List.length existingFiles) + Z.of_nat (List.length files) <= 12 ->
  nth_error files i = Some f ->
  ImageUtils.isValid (ImageUtils.validateImageFile f) = true ->
  ImageUtils.processImage (browser (env i)) f = JS.Resolved p ->
  store (env i) = StorePublicUrl url ->
  url <> ""%string ->
  exists batch m,
    completeCalls (processAndUploadFiles true env files existingFiles)
    = [batch]
    /\ In m batch
    /\ id m = fileIdOf (env i) i
    /\ src m = url /\ cloudUrl m = Some url
    /\ isUploading m = Some false /\ uploadProgress m = Some 100%float
    /\ width m = ImageUtils.width p /\ height m = ImageUtils.height p
    /\ file m = ImageUtils.file p
    /\ cleanupObjectUrls [m] = [].
Proof.
  intros Hle Hnth Hvalid Hp Hs Hurl.
  pose proof (IntakeFacts.run_spec true env files existingFiles
                (cap_check _ _ Hle)) as [_ Hc].
  cbv zeta in Hc.
  apply (IntakeFacts.indexed_nth files 0%nat) in Hnth. simpl in Hnth.
  assert (Hentry : entryOf true (env i) i f = [cloudEntry (env i) i p url]).
  { unfold entryOf. now rewrite Hvalid, Hp, Hs. }
  assert (Hin : In (cloudEntry (env i) i p url)
            (flat_map
               (fun jf => entryOf true (env (fst jf)) (fst jf) (snd jf))
               (indexed 0 files))).
  { apply in_flat_map. exists (i, f). split; auto. simpl.
    rewrite Hentry. now left. }
  exists (flat_map
            (fun jf => entryOf true (env (fst jf)) (fst jf) (snd jf))
            (indexed 0 files)), (cloudEntry (env i) i p url).
  rewrite Hc.
  destruct (flat_map
              (fun jf => entryOf true (env (fst jf)) (fst jf) (snd jf))
              (indexed 0 files)) as [|m0 news]; [contradiction|].
  simpl. repeat split; auto.
  unfold cleanupObjectUrls. simpl.
  apply String.eqb_neq in Hurl. rewrite Hurl. simpl.
  now rewrite andb_false_r.
Qed.

Lemma upload_success_entry_witness :
  let env := fun _ : nat =>
    mkEnv 1700000000000
      (ImageUtils.mkBrowser (Some (800, 600))
         (fun _ _ => Some (ImageUtils.mkBlob 100 1)))
      [] (StorePublicUrl "https://store.example/plot.png") "0af3" in
  exists batch m,
    completeCalls (processAndUploadFiles true env [Samples.pngFile] [])
    = [batch]
    /\ In m batch /\ src m = "https://store.example/plot.png"%string.
Proof.
  intros env.
  assert (Hle : Z.of_nat (List.length (@nil MediaFile))
                + Z.of_nat (List.length [Samples.pngFile]) <= 12)
    by (simpl; lia).
  assert (Hurl : "https://store.example/plot.png"%string <> ""%string)
    by discriminate.
  destruct (upload_success_entry env [Samples.pngFile] [] 0 Samples.pngFile
              (ImageUtils.mkProcessedImage
                 (mkFile "plot.png" "image/png" 100 1) 800 600
                 (Num.ofZ 800 / Num.ofZ 600)%float)
              "https://store.example/plot.png" Hle eq_refl eq_refl eq_refl
              eq_refl Hurl)
    as (batch & m & H1 & H2 & _ & H3 & _).
  exists batch, m. auto.
Defined.

End BatchFacts.

(** ** The owner of the list under an intake *)

Module OwnerFacts.

Import StorageUtils.
Local Open Scope list_scope.

Lemma sameButProgress_refl m : ProjectStepper.sameButProgress m m.
Proof. unfold ProjectStepper.sameButProgress. tauto. Qed.

Lemma withProgress_same fileId progress uploading m :
  ProjectStepper.sameButProgress m
    (ProjectStepper.withProgress fileId progress uploading m).
Proof.
  unfold ProjectStepper.withProgress, ProjectStepper.sameButProgress.
  destruct (String.eqb _ _); simpl; tauto.
Qed.

Lemma sameButProgress_trans a b c :
  ProjectStepper.sameButProgress a b -> ProjectStepper.sameButProgress b c ->
  ProjectStepper.sameButProgress a c.
Proof.
  unfold ProjectStepper.sameButProgress.
  intros (H1 & H2 & H3 & H4 & H5 & H6 & H7 & H8 & H9)
         (K1 & K2 & K3 & K4 & K5 & K6 & K7 & K8 & K9).
  repeat split; congruence.
Qed.

Lemma Forall2_same_refl l :
  Forall2 ProjectStepper.sameButProgress l l.
Proof. induction l; constructor; auto using sameButProgress_refl. Qed.

Lemma Forall2_same_map l g :
  (forall m, ProjectStepper.sameButProgress m (g m)) ->
  Forall2 ProjectStepper.sameButProgress l (map g l).
Proof. intros H. induction l; simpl; constructor; auto. Qed.

Lemma Forall2_same_trans l1 : forall l2 l3,
  Forall2 ProjectStepper.sameButProgress l1 l2 ->
  Forall2 ProjectStepper.sameButProgress l2 l3 ->
  Forall2 ProjectStepper.sameButProgress l1 l3.
Proof.
  induction l1 as [|a l1 IH]; intros l2 l3 H12 H23;
    inversion H12; subst; inversion H23; subst; constructor.
  - eapply sameButProgress_trans; eauto.
  - eapply IH; eauto.
Qed.

Lemma handleNow_keeps evs : forall c,
  Forall2 ProjectStepper.sameButProgress (ProjectStepper.mediaFiles c)
    (ProjectStepper.mediaFiles (fold_left ProjectStepper.handleNow evs c)).
Proof.
  induction evs as [|ev evs IH]; intros c; simpl.
  - apply Forall2_same_refl.
  - eapply Forall2_same_trans; [|apply IH].
    destruct ev; simpl; try apply Forall2_same_refl.
    apply Forall2_same_map. intros m. apply withProgress_same.
Qed.

(** X6.  An intake that passes the limit check, against whatever list it
    is checked, never removes or reorders the entries the owner holds when
    its callbacks are called, and changes them at most in their progress
    members; it appends one entry per file that validates and normalises,
    in the order of the batch, each with the caption and the alt text of
    the caption generator, no longer uploading and at 100. *)
Theorem processFiles_appends
    (generateImageMeta : string -> string * string) (supabase : bool)
    (env : nat -> Env) (samples : nat -> list float) (files : list File)
    (rendered : list MediaFile) (c : ProjectStepper.Component) :
  Z.of_nat (List.length rendered) + Z.of_nat (List.length files) <= 12 ->
  exists kept appended,
    ProjectStepper.mediaFiles
      (ProjectStepper.processFiles generateImageMeta supabase env samples
         files rendered c)
    = kept ++ appended
    /\ Forall2 ProjectStepper.sameButProgress
         (ProjectStepper.mediaFiles c) kept
    /\ map id appended
       = map (fun jf => fileIdOf (env (fst jf)) (fst jf))
           (filter (accepted env) (indexed 0 files))
    /\ Forall
         (fun m =>
            caption m = Some (fst (generateImageMeta (name (file m))))
            /\ alt m = Some (snd (generateImageMeta (name (file m))))
            /\ isUploading m = Some false
            /\ uploadProgress m = Some 100%float)
         appended.
Proof.
  intros Hle.
  pose proof (IntakeFacts.run_spec supabase env files rendered
                (BatchFacts.cap_check _ _ Hle))
    as [_ Hc].
  cbv zeta in Hc. unfold completeCalls in Hc.
  unfold ProjectStepper.processFiles, ProjectStepper.completion,
    ProjectStepper.progressCalls.
  rewrite IntakeFacts.handleComplete_files, Hc.
  set (news :=
         flat_map
           (fun jf => entryOf supabase (env (fst jf)) (fst jf) (snd jf))
           (indexed 0 files)).
  assert (Hcat : List.concat (if (0 <? List.length news)%nat
                              then [news] else []) = news).
  { destruct news; simpl; [reflexivity | now rewrite app_nil_r]. }
  rewrite Hcat.
  eexists. exists (map (ProjectStepper.withMetadata generateImageMeta) news).
  split; [reflexivity|]. split; [apply handleNow_keeps|]. split.
  - rewrite map_map. simpl.
    apply (IntakeFacts.entries_accepted supabase env files 0%nat).
  - apply Forall_forall. intros m Hm. apply in_map_iff in Hm.
    destruct Hm as (m0 & <- & Hm0). simpl.
    split; [reflexivity|]. split; [reflexivity|].
    subst news. apply in_flat_map in Hm0. destruct Hm0 as ([j f] & _ & Hm0).
    unfold entryOf in Hm0. simpl in Hm0.
    destruct (ImageUtils.isValid _); [|contradiction].
    destruct (ImageUtils.processImage _ _) as [p|]; [|contradiction].
    destruct Hm0 as [<-|[]].
    destruct supabase; [destruct (store (env j))|]; simpl; auto.
Qed.

Lemma processFiles_appends_witness :
  exists kept appended,
    ProjectStepper.mediaFiles
      (ProjectStepper.processFiles
         (fun n => (("Caption of " ++ n)%string, ("Alt of " ++ n)%string))
         false Samples.fairEnv (fun _ => [])
         [Samples.exeFile; Samples.pngFile] [Samples.entry "a"]
         (ProjectStepper.mkComponent [Samples.entry "a"] [] []))
    = kept ++ appended
    /\ map id appended = ["17000000000001"%string].
Proof.
  assert (Hle :
    Z.of_nat (List.length [Samples.entry "a"])
    + Z.of_nat (List.length [Samples.exeFile; Samples.pngFile]) <= 12)
    by (simpl; lia).
  destruct (processFiles_appends
              (fun n => (("Caption of " ++ n)%string, ("Alt of " ++ n)%string))
              false Samples.fairEnv (fun _ => [])
              [Samples.exeFile; Samples.pngFile] [Samples.entry "a"]
              (ProjectStepper.mkComponent [Samples.entry "a"] [] []) Hle)
    as (kept & appended & H1 & _ & H2 & _).
  exists kept, appended. split; [exact H1|]. rewrite H2. reflexivity.
Defined.

(** *** The intervals of a run *)

Lemma simulatedProgress_ticks fileId :
  simulatedProgress 8 fileId 30 = fourTicks fileId.
Proof. reflexivity. Qed.

Local Abbreviation started supabase e i :=
  (let fileId := fileIdOf e i in
   if supabase : bool then
     match store e with
     | StoreRejects _ =>
         endless
           (fun sample =>
              [onProgress fileId
                 (Num.Math_max 30 (Num.Math_min 90 (sample * 80 + 10)))
                 true])
     | _ => cleared []
     end
   else
     cleared
       [onProgress fileId 50 true; onProgress fileId 70 true;
        onProgress fileId 90 true; onProgress fileId 110 false]).

Lemma iteration_intervals supabase e i f st :
  intervals (iteration supabase e i f st)
  = intervals st
    ++ (if accepted (fun _ => e) (i, f) then [started supabase e i] else []).
Proof.
  unfold iteration, accepted. simpl.
  destruct (ImageUtils.isValid _); simpl.
  2:{ now rewrite app_nil_r. }
  destruct (ImageUtils.processImage _ _) as [p|]; simpl.
  2:{ now rewrite app_nil_r. }
  destruct supabase; simpl.
  - unfold uploadFileToCloud. simpl.
    destruct (store e); reflexivity.
  - reflexivity.
Qed.

Lemma loop_intervals supabase env files : forall i st,
  intervals (loop supabase env i files st)
  = intervals st
    ++ map (fun jf => started supabase (env (fst jf)) (fst jf))
         (filter (accepted env) (indexed i files)).
Proof.
  induction files as [|f rest IH]; intros i st; simpl.
  - now rewrite app_nil_r.
  - rewrite IH, iteration_intervals, <- app_assoc. f_equal.
    change (accepted env (i, f)) with (accepted (fun _ => env i) (i, f)).
    destruct (accepted (fun _ => env i) (i, f)); reflexivity.
Qed.

(** X7.  In a run that passes the limit check one interval is started for
    each file that validates and normalises, in the order of the batch.
    Without a client it is the simulated one, which calls the progress
    callback four times, with 50, 70 and 90 while uploading, and last with
    110 and uploading false, and clears itself: the simulated progress
    ends above 100.  With a client it is that of the upload: it has
    nothing more to say once the store has answered, with an error or
    with success, since it is cleared then; but nothing clears it when the
    upload itself rejects, and each of its firings from then on reports
    the file as uploading, at max(30, min(90, 80 r + 10)) for the sample
    r it draws, to a component that holds the entry of the file. *)
Theorem progress_intervals (supabase : bool) (env : nat -> Env)
    (files : list File) (existingFiles : list MediaFile) :
  Z.of_nat (List.length existingFiles) + Z.of_nat (List.length files) <= 12 ->
  let run := processAndUploadFiles supabase env files existingFiles in
  timers run
  = map
      (fun jf =>
         let fileId := fileIdOf (env (fst jf)) (fst jf) in
         if supabase then
           match store (env (fst jf)) with
           | StoreRejects _ =>
               endless
                 (fun sample =>
                    [onProgress fileId
                       (Num.Math_max 30
                          (Num.Math_min 90 (sample * 80 + 10)))
                       true])
           | _ => cleared []
           end
         else
           cleared
             [onProgress fileId 50 true; onProgress fileId 70 true;
              onProgress fileId 90 true; onProgress fileId 110 false])
      (filter (accepted env) (indexed 0 files))
  /\ (forall tick sample c,
        In (endless tick) (timers run) ->
        exists j f message,
          In (j, f) (filter (accepted env) (indexed 0 files))
          /\ supabase = true
          /\ store (env j) = StoreRejects message
          /\ ProjectStepper.mediaFiles
               (ProjectStepper.laterFiring (endless tick) sample c)
             = map
                 (ProjectStepper.withProgress (fileIdOf (env j) j)
                    (Num.Math_max 30 (Num.Math_min 90 (sample * 80 + 10)))
                    true)
                 (ProjectStepper.mediaFiles c)).
Proof.
  intros Hle run.
  assert (Ht : timers run
               = map (fun jf => started supabase (env (fst jf)) (fst jf))
                   (filter (accepted env) (indexed 0 files))).
  { subst run. unfold processAndUploadFiles.
    rewrite (BatchFacts.cap_check _ _ Hle). simpl.
    now rewrite loop_intervals. }
  split; [exact Ht|].
  intros tick sample c Hin. rewrite Ht in Hin.
  apply in_map_iff in Hin. destruct Hin as ([j f] & Heq & Hjf).
  cbn [fst] in Heq. exists j, f.
  destruct supabase; [|discriminate Heq].
  destruct (store (env j)) as [msg|url|msg]; try discriminate Heq.
  exists msg. split; [exact Hjf|]. split; [reflexivity|].
  split; [reflexivity|].
  injection Heq as <-. reflexivity.
Qed.

(** Without a client: the four ticks.  With one and an upload that
    rejects: an interval that nothing clears. *)
Lemma progress_intervals_witness :
  timers (processAndUploadFiles false Samples.fairEnv [Samples.pngFile] [])
  = [cleared
       [onProgress "17000000000000" 50 true;
        onProgress "17000000000000" 70 true;
        onProgress "17000000000000" 90 true;
        onProgress "17000000000000" 110 false]]
  /\ exists tick,
       timers
         (processAndUploadFiles true Samples.brokenEnv [Samples.pngFile] [])
       = [endless tick]
       /\ tick 0.5%float = [onProgress "17000000000000" 50 true].
Proof.
  assert (Hle : Z.of_nat (List.length (@nil MediaFile))
                + Z.of_nat (List.length [Samples.pngFile]) <= 12)
    by (simpl; lia).
  split.
  - destruct (progress_intervals false Samples.fairEnv [Samples.pngFile]
                [] Hle) as [H _].
    rewrite H. reflexivity.
  - destruct (progress_intervals true Samples.brokenEnv [Samples.pngFile]
                [] Hle) as [H _].
    eexists. split; [rewrite H; reflexivity|].
    vm_compute. reflexivity.
Defined.

End OwnerFacts.

(** ** More on the gallery *)

Module GalleryFacts.

Import AutoLayout.
Local Open Scope list_scope.

(** X8.  [removeFile] leaves no entry with the given identifier and keeps
    every other entry, unmodified and in the same order; it shortens the
    list by the number of entries that had the identifier, leaves a list
    without it as it is, and a second removal changes nothing more. *)
Theorem removeFile_spec (mediaFiles : list MediaFile) (fileId : string) :
  let kept := removeFile mediaFiles fileId in
  Forall (fun m => id m <> fileId) kept
  /\ kept = filter (fun m => negb (String.eqb (id m) fileId)) mediaFiles
  /\ (forall m, In m kept <-> In m mediaFiles /\ id m <> fileId)
  /\ (List.length kept
      + List.length
          (filter (fun m => String.eqb (id m) fileId) mediaFiles)
      = List.length mediaFiles)%nat
  /\ (Forall (fun m => id m <> fileId) mediaFiles -> kept = mediaFiles)
  /\ removeFile kept fileId = kept.
Proof.
  intros kept. subst kept. unfold removeFile.
  assert (Hall : Forall (fun m => id m <> fileId)
            (filter (fun f => negb (String.eqb (id f) fileId)) mediaFiles)).
  { apply Forall_forall. intros m Hm. apply filter_In in Hm.
    destruct Hm as [_ Hm]. apply negb_true_iff in Hm.
    now apply String.eqb_neq. }
  assert (Hid : forall l, Forall (fun m => id m <> fileId) l ->
            filter (fun f => negb (String.eqb (id f) fileId)) l = l).
  { induction 1 as [|m l Hm _ IH]; simpl; auto.
    apply String.eqb_neq in Hm. rewrite Hm. simpl. now rewrite IH. }
  split; [exact Hall|]. split; [reflexivity|]. split.
  { intros m. rewrite filter_In, negb_true_iff, String.eqb_neq. tauto. }
  split.
  { clear Hall Hid. induction mediaFiles as [|m l IH]; simpl; auto.
    destruct (String.eqb (id m) fileId); simpl; lia. }
  split; [apply Hid | apply Hid, Hall].
Qed.

Lemma removeFile_spec_witness :
  removeFile [Samples.entry "a"; Samples.entry "b"] "c"
  = [Samples.entry "a"; Samples.entry "b"].
Proof.
  destruct (removeFile_spec [Samples.entry "a"; Samples.entry "b"] "c")
    as (_ & _ & _ & _ & H & _).
  apply H. repeat constructor; discriminate.
Defined.

(** *** Drops *)

Lemma findIndex_absent {A} (p : A -> bool) (l : list A) :
  existsb p l = false -> findIndex p l = -1.
Proof.
  induction l as [|x l IH]; simpl; auto.
  destruct (p x); simpl; [discriminate|].
  intros H. rewrite (IH H). reflexivity.
Qed.

Lemma findIndex_present {A} (p : A -> bool) (l : list A) :
  existsb p l = true -> (findIndex p l =? -1) = false.
Proof.
  intros H. destruct (ReorderFacts.findIndex_found p l H) as [Hge _].
  apply Z.eqb_neq. lia.
Qed.

(** X9.  [handleDrop] returns without calling [onReorder] exactly when no
    drag is in progress (no identifier, or the empty one), or the entry is
    dropped on itself, or [onReorder] is not set, or one of the two
    identifiers is not in the list; in every other case it calls it. *)
Theorem handleDrop_returns_early (draggedItem : option string)
    (onReorder : bool) (mediaFiles : list MediaFile) (targetId : string) :
  handleDrop draggedItem onReorder mediaFiles targetId = None
  <-> (draggedItem = None
       \/ draggedItem = Some ""%string
       \/ draggedItem = Some targetId
       \/ onReorder = false
       \/ (exists dragged,
             draggedItem = Some dragged
             /\ existsb (fun f => String.eqb (id f) dragged) mediaFiles
                = false)
       \/ existsb (fun f => String.eqb (id f) targetId) mediaFiles = false).
Proof.
  unfold handleDrop.
  destruct draggedItem as [dragged|]; [|tauto]. cbv zeta.
  destruct (existsb (fun f => String.eqb (id f) dragged) mediaFiles) eqn:Hd;
    destruct (existsb (fun f => String.eqb (id f) targetId) mediaFiles)
      eqn:Ht.
  - destruct (ReorderFacts.findIndex_found _ _ Hd) as (_ & x & Hx & _).
    destruct (ReorderFacts.findIndex_found _ _ Ht) as (_ & y & Hy & _).
    assert (Hj : (Z.to_nat
                    (findIndex (fun f => String.eqb (id f) targetId)
                       mediaFiles)
                  < List.length mediaFiles)%nat).
    { apply nth_error_Some. congruence. }
    destruct (ReorderFacts.move_spec mediaFiles _ _ x Hx Hj) as (-> & _).
    rewrite (findIndex_present _ _ Hd), (findIndex_present _ _ Ht).
    destruct (String.eqb dragged "") eqn:E1;
      [apply String.eqb_eq in E1; subst; simpl; tauto|].
    destruct (String.eqb dragged targetId) eqn:E2;
      [apply String.eqb_eq in E2; subst; simpl; tauto|].
    apply String.eqb_neq in E1, E2.
    destruct onReorder; simpl; [|tauto].
    split; [discriminate|].
    intros [H|[H|[H|[H|[(d & H & Hd')|H]]]]]; try discriminate;
      try congruence.
    injection H as <-. congruence.
  - rewrite (findIndex_absent _ _ Ht), orb_true_r.
    destruct (_ || _ || _); tauto.
  - rewrite (findIndex_absent _ _ Hd). simpl.
    destruct (_ || _ || _); split; auto; intros _;
      right; right; right; right; left; now exists dragged.
  - rewrite (findIndex_absent _ _ Ht), orb_true_r.
    destruct (_ || _ || _); tauto.
Qed.

(** X10.  After a drop the target stands next to the dragged entry: just
    before it when the entry was dragged down the list, just after it when
    it was dragged up. *)
Theorem handleDrop_neighbour (mediaFiles : list MediaFile)
    (dragged targetId : string) :
  dragged <> ""%string -> dragged <> targetId ->
  existsb (fun f => String.eqb (id f) dragged) mediaFiles = true ->
  existsb (fun f => String.eqb (id f) targetId) mediaFiles = true ->
  let i :=
    Z.to_nat (findIndex (fun f => String.eqb (id f) dragged) mediaFiles) in
  let j :=
    Z.to_nat (findIndex (fun f => String.eqb (id f) targetId) mediaFiles) in
  exists newFiles,
    handleDrop (Some dragged) true mediaFiles targetId = Some newFiles
    /\ nth_error newFiles j = nth_error mediaFiles i
    /\ ((i < j)%nat ->
        nth_error newFiles (j - 1) = nth_error mediaFiles j)
    /\ ((j < i)%nat ->
        nth_error newFiles (j + 1) = nth_error mediaFiles j).
Proof.
  intros Hne Hdiff Hd Ht i j.
  destruct (ReorderFacts.findIndex_found _ _ Hd) as (_ & x & Hx & _).
  destruct (ReorderFacts.findIndex_found _ _ Ht) as (_ & y & Hy & _).
  fold i in Hx. fold j in Hy.
  assert (Hi : (i < List.length mediaFiles)%nat)
    by (apply nth_error_Some; congruence).
  assert (Hj : (j < List.length mediaFiles)%nat)
    by (apply nth_error_Some; congruence).
  destruct (ReorderFacts.move_spec mediaFiles i j x Hx Hj)
    as (Hdel & _ & _ & Hnth).
  exists (splice_insert j x (firstn i mediaFiles ++ skipn (S i) mediaFiles)).
  split.
  { unfold handleDrop. cbv zeta. fold i. fold j. rewrite Hdel.
    apply String.eqb_neq in Hne, Hdiff. rewrite Hne, Hdiff.
    rewrite (findIndex_present _ _ Hd), (findIndex_present _ _ Ht).
    reflexivity. }
  split; [now rewrite Hnth, Hx|].
  assert (Hfi : List.length (firstn i mediaFiles) = i)
    by (apply firstn_length_le; lia).
  assert (Hr : List.length (firstn i mediaFiles ++ skipn (S i) mediaFiles)
               = (List.length mediaFiles - 1)%nat).
  { rewrite length_app, Hfi, length_skipn. lia. }
  unfold splice_insert. split; intros Hij.
  - assert (Hfj : List.length
                    (firstn j (firstn i mediaFiles ++ skipn (S i) mediaFiles))
                  = j) by (apply firstn_length_le; lia).
    rewrite nth_error_app1 by lia.
    rewrite nth_error_firstn.
    replace (j - 1 <? j)%nat with true by (symmetry; apply Nat.ltb_lt; lia).
    rewrite nth_error_app2 by lia.
    rewrite Hfi, nth_error_skipn. f_equal. lia.
  - assert (Hfj : List.length
                    (firstn j (firstn i mediaFiles ++ skipn (S i) mediaFiles))
                  = j) by (apply firstn_length_le; lia).
    rewrite nth_error_app2 by lia.
    rewrite Hfj. replace (j + 1 - j)%nat with 1%nat by lia.
    change (nth_error
              (x :: skipn j (firstn i mediaFiles ++ skipn (S i) mediaFiles))
              1)
      with (nth_error
              (skipn j (firstn i mediaFiles ++ skipn (S i) mediaFiles)) 0).
    rewrite nth_error_skipn, Nat.add_0_r.
    rewrite nth_error_app1 by lia.
    rewrite nth_error_firstn.
    replace (j <? i)%nat with true by (symmetry; apply Nat.ltb_lt; lia).
    reflexivity.
Qed.

Lemma handleDrop_neighbour_witness :
  exists newFiles,
    handleDrop (Some "d"%string) true
      [Samples.entry "a"; Samples.entry "b"; Samples.entry "c";
       Samples.entry "d"] "b"
    = Some newFiles
    /\ nth_error newFiles 1 = Some (Samples.entry "d")
    /\ nth_error newFiles 2 = Some (Samples.entry "b").
Proof.
  assert (Hne : "d"%string <> ""%string) by discriminate.
  assert (Hdiff : "d"%string <> "b"%string) by discriminate.
  destruct (handleDrop_neighbour
              [Samples.entry "a"; Samples.entry "b"; Samples.entry "c";
               Samples.entry "d"] "d" "b" Hne Hdiff eq_refl eq_refl)
    as (l & H1 & H2 & _ & H3).
  exists l. split; [exact H1|]. split; [exact H2|].
  apply H3. vm_compute. lia.
Defined.

(** *** Captions *)

Lemma extensionTail_dot (a b : string) :
  extensionTail (a ++ String "."%char b) = false.
Proof.
  unfold extensionTail. rewrite ExportFacts.every_append. simpl.
  rewrite !andb_false_r. reflexivity.
Qed.

(** X11.  The caption of the gallery is the entry's own caption when it has
    a non-empty one, and otherwise the file name without its extension:
    the name up to its last dot, when at least one code unit follows that
    dot and no slash does; the whole name when it has no such ending (no
    dot, a dot at the very end, a slash after the last dot). *)
Theorem getCaption_spec (mediaFile : MediaFile) :
  (forall c, caption mediaFile = Some c -> c <> ""%string ->
             getCaption mediaFile = c)
  /\ (caption mediaFile = None \/ caption mediaFile = Some ""%string ->
      getCaption mediaFile = stripExtension (name (file mediaFile)))
  /\ (forall pre tail,
        name (file mediaFile) = (pre ++ "." ++ tail)%string ->
        extensionTail tail = true ->
        stripExtension (name (file mediaFile)) = pre)
  /\ ((forall pre tail,
         name (file mediaFile) = (pre ++ "." ++ tail)%string ->
         extensionTail tail = false) ->
      stripExtension (name (file mediaFile)) = name (file mediaFile)).
Proof.
  unfold getCaption, JS.orElse.
  split; [|split; [|split]].
  - intros c -> Hc. apply String.eqb_neq in Hc. now rewrite Hc.
  - intros [->| ->]; reflexivity.
  - generalize (name (file mediaFile)) as s.
    intros s pre. revert s.
    induction pre as [|c pre IH]; intros s tail -> Ht; simpl.
    + now rewrite Ht.
    + change (pre ++ String "." tail)%string
        with (pre ++ String "."%char tail)%string.
      rewrite extensionTail_dot, andb_false_r.
      f_equal. now apply (IH _ tail).
  - generalize (name (file mediaFile)) as s.
    induction s as [|c s IH]; intros H; simpl; auto.
    destruct (Ascii.eqb c "."%char) eqn:Ec; simpl.
    + apply Ascii.eqb_eq in Ec. subst c.
      rewrite (H ""%string s eq_refl). f_equal. apply IH.
      intros pre tail ->. apply (H (String "."%char pre) tail). reflexivity.
    + f_equal. apply IH.
      intros pre tail ->. apply (H (String c pre) tail). reflexivity.
Qed.

Lemma getCaption_spec_witness :
  stripExtension "soil.samples.tar.gz" = "soil.samples.tar"%string
  /\ stripExtension "README" = "README"%string.
Proof.
  pose proof (getCaption_spec
                (mkMediaFile "1" "" 1 1 1%float None None
                   (mkFile "soil.samples.tar.gz" "image/png" 1 0)
                   None None None)) as (_ & _ & H1 & _).
  pose proof (getCaption_spec
                (mkMediaFile "1" "" 1 1 1%float None None
                   (mkFile "README" "image/png" 1 0) None None None))
    as (_ & _ & _ & H2).
  split.
  - apply (H1 "soil.samples.tar"%string "gz"%string); reflexivity.
  - apply H2. simpl. intros pre tail H.
    assert (Hin : JS.includes "README" "." = true).
    { apply StringFacts.includes_spec. now exists pre, tail. }
    discriminate Hin.
Defined.

(** *** Alt text *)

Lemma unique_id (l : list MediaFile) :
  NoDup (map id l) ->
  forall a b, In a l -> In b l -> id a = id b -> a = b.
Proof.
  induction l as [|x l IH]; intros Hnd a b Ha Hb Hid; [destruct Ha|].
  inversion Hnd as [|? ? Hx Hl]; subst.
  destruct Ha as [->|Ha], Hb as [->|Hb]; auto.
  - exfalso. apply Hx. rewrite Hid. now apply in_map.
  - exfalso. apply Hx. rewrite <- Hid. now apply in_map.
Qed.

(** X12.  Opening the alt-text editor on an entry of a list with distinct
    identifiers and saving without typing leaves the list as long as it
    was, every entry in its place and equal to what it was in all but [alt],
    and every alt text reads as before (an absent one becomes the empty
    string); the editor is closed again.  Opening it on an identifier that
    is not in the list leaves the editor as it was. *)
Theorem alt_edit_round_trip (mediaFiles : list MediaFile)
    (fileId : string) (ed : Editor) :
  NoDup (map id mediaFiles) ->
  (existsb (fun f => String.eqb (id f) fileId) mediaFiles = true ->
   exists newFiles,
     saveAltText true mediaFiles fileId
       (startEditingAlt mediaFiles fileId ed)
     = (Some newFiles, mkEditor None "")
     /\ Forall2
          (fun x x' =>
             sameButAlt x x'
             /\ (id x <> fileId -> x' = x)
             /\ forall missing,
                  JS.orElse (alt x') missing = JS.orElse (alt x) missing)
          mediaFiles newFiles)
  /\ (existsb (fun f => String.eqb (id f) fileId) mediaFiles = false ->
      startEditingAlt mediaFiles fileId ed = ed).
Proof.
  intros Hnd. split.
  - intros Hex. apply existsb_exists in Hex. destruct Hex as (m & Hm & Hid).
    apply String.eqb_eq in Hid.
    unfold startEditingAlt.
    destruct (find (fun f => String.eqb (id f) fileId) mediaFiles)
      as [m'|] eqn:Hf.
    2:{ exfalso. pose proof (find_none _ _ Hf m Hm) as H. simpl in H.
        apply String.eqb_neq in H. contradiction. }
    apply find_some in Hf. destruct Hf as [Hm' Hid'].
    apply String.eqb_eq in Hid'.
    assert (m' = m) by (apply (unique_id mediaFiles Hnd); congruence).
    subst m'. unfold saveAltText. simpl. eexists. split; [reflexivity|].
    assert (Hall : forall x, In x mediaFiles -> id x = fileId -> x = m).
    { intros x Hx Hxid. apply (unique_id mediaFiles Hnd); congruence. }
    clear Hnd Hm Hm'. induction mediaFiles as [|x l IH]; simpl; constructor.
    + destruct (String.eqb (id x) fileId) eqn:E.
      * apply String.eqb_eq in E.
        assert (x = m) by (apply Hall; [now left | exact E]). subst x.
        split; [unfold sameButAlt; simpl; tauto|].
        split; [intros H; contradiction|].
        intros missing. unfold withAlt. simpl.
        destruct (alt m) as [a|]; simpl; [|reflexivity].
        destruct (String.eqb a "") eqn:Ea; simpl; auto.
        now rewrite Ea.
      * split; [unfold sameButAlt; tauto|]. split; auto.
    + apply IH. intros y Hy. apply Hall. now right.
  - intros Hex. unfold startEditingAlt.
    destruct (find (fun f => String.eqb (id f) fileId) mediaFiles)
      as [m'|] eqn:Hf; auto.
    apply find_some in Hf. destruct Hf as [Hm' Hid'].
    assert (existsb (fun f => String.eqb (id f) fileId) mediaFiles = true)
      by (apply existsb_exists; eauto).
    congruence.
Qed.

Lemma alt_edit_round_trip_witness :
  exists newFiles,
    saveAltText true [Samples.entry "a"; Samples.entry "b"] "b"
      (startEditingAlt [Samples.entry "a"; Samples.entry "b"] "b"
         (mkEditor None ""))
    = (Some newFiles, mkEditor None "")
    /\ List.length newFiles = 2%nat.
Proof.
  assert (Hnd : NoDup (map id [Samples.entry "a"; Samples.entry "b"])).
  { simpl. repeat constructor; simpl; intuition discriminate. }
  destruct (alt_edit_round_trip [Samples.entry "a"; Samples.entry "b"] "b"
              (mkEditor None "") Hnd) as [H _].
  destruct (H eq_refl) as (l & Hl & HF). exists l. split; [exact Hl|].
  symmetry. apply (Forall2_length HF).
Defined.

End GalleryFacts.

(* ------------------------------------------------------------------ *)

Module RevocationFacts.

Import StorageUtils.

Lemma cleanup_sources (l : list MediaFile) (u : string) :
  In u (cleanupObjectUrls l) ->
  exists m, In m l /\ src m = u /\ JS.startsWith u "blob:" = true
            /\ (cloudUrl m = None \/ cloudUrl m = Some ""%string).
Proof.
  unfold cleanupObjectUrls. rewrite in_flat_map. intros (m & Hm & Hu).
  exists m. split; [exact Hm|].
  destruct (JS.startsWith (src m) "blob:") eqn:Hs; simpl in Hu;
    [|destruct Hu].
  destruct (cloudUrl m) as [c|] eqn:Hc; simpl in Hu.
  - destruct (String.eqb c "") eqn:Ec; simpl in Hu; [|destruct Hu].
    apply String.eqb_eq in Ec. subst c.
    destruct Hu as [<-|[]]. auto.
  - destruct Hu as [<-|[]]. auto.
Qed.

(** X13.  When the entries of a list have distinct sources,
    [cleanupObjectUrls] revokes the source of an entry exactly once if it
    is an object URL ([blob:]) and the entry has no remote URL, or an empty
    one, and never otherwise; and it revokes nothing that is not the
    source of such an entry. *)
Theorem cleanupObjectUrls_once (mediaFiles : list MediaFile) :
  NoDup (map src mediaFiles) ->
  (forall m, In m mediaFiles ->
     count_occ string_dec (cleanupObjectUrls mediaFiles) (src m)
     = if JS.startsWith (src m) "blob:"
          && match cloudUrl m with
             | Some u => String.eqb u ""
             | None => true
             end
       then 1%nat else 0%nat)
  /\ (forall u, In u (cleanupObjectUrls mediaFiles) ->
        exists m, In m mediaFiles /\ src m = u
                  /\ JS.startsWith u "blob:" = true
                  /\ (cloudUrl m = None \/ cloudUrl m = Some ""%string)).
Proof.
  intros Hnd. split; [|apply cleanup_sources].
  induction mediaFiles as [|a l IH]; intros m Hm; [destruct Hm|].
  inversion Hnd as [|? ? Ha Hl]; subst.
  change (cleanupObjectUrls (a :: l))
    with ((if JS.startsWith (src a) "blob:"
              && negb (match cloudUrl a with
                       | Some u => negb (String.eqb u "")
                       | None => false
                       end)
           then [src a] else []) ++ cleanupObjectUrls l)%list.
  rewrite count_occ_app.
  destruct Hm as [->|Hm].
  - assert (Hz : count_occ string_dec (cleanupObjectUrls l) (src m) = 0%nat).
    { apply count_occ_not_In. intros Hin.
      apply cleanup_sources in Hin. destruct Hin as (m' & Hm' & Hs & _).
      apply Ha. rewrite <- Hs. now apply in_map. }
    rewrite Hz, Nat.add_0_r.
    destruct (JS.startsWith (src m) "blob:"); simpl; [|reflexivity].
    destruct (cloudUrl m) as [c|]; simpl.
    + destruct (String.eqb c ""); simpl; [|reflexivity].
      destruct (string_dec (src m) (src m)); congruence.
    + destruct (string_dec (src m) (src m)); congruence.
  - rewrite (IH Hl m Hm).
    assert (Hne : src a <> src m).
    { intros E. apply Ha. rewrite E. now apply in_map. }
    match goal with
    | |- (count_occ _ (if ?c then _ else _) _ + _)%nat = _ => destruct c
    end; simpl; [|reflexivity].
    destruct (string_dec (src a) (src m)); [contradiction|reflexivity].
Qed.

Lemma cleanupObjectUrls_once_witness :
  count_occ string_dec
    (cleanupObjectUrls [Samples.entry "a"; Samples.entry "b"])
    (src (Samples.entry "b"))
  = 1%nat.
Proof.
  assert (Hnd : NoDup (map src [Samples.entry "a"; Samples.entry "b"])).
  { simpl. repeat constructor; simpl; intuition discriminate. }
  destruct (cleanupObjectUrls_once _ Hnd) as [H _].
  apply (H (Samples.entry "b")). simpl. auto.
Defined.

End RevocationFacts.

(* ------------------------------------------------------------------ *)

Module WizardFacts.

Import ProjectStepper.

Lemma trimStart_length (s : string) :
  (String.length (JS.trimStart s) <= String.length s)%nat.
Proof.
  induction s as [|c r IH]; simpl; [lia|].
  destruct (JS.isWhiteSpace c); simpl; lia.
Qed.

Lemma trimEnd_length (s : string) :
  (String.length (JS.trimEnd s) <= String.length s)%nat.
Proof.
  induction s as [|c r IH]; simpl; [lia|].
  destruct (JS.isWhiteSpace c && String.eqb (JS.trimEnd r) ""); simpl; lia.
Qed.

Lemma trim_length (s : string) : JS.length (JS.trim s) <= JS.length s.
Proof.
  unfold JS.length, JS.trim.
  pose proof (trimEnd_length (JS.trimStart s)).
  pose proof (trimStart_length s). lia.
Qed.

Lemma act_range (w : Wizard) (a : Action) :
  1 <= currentStep w <= 3 -> 1 <= currentStep (act w a) <= 3.
Proof.
  intros H. destruct a as [| |t|inside key|field value]; simpl.
  - unfold handleNext.
    destruct (currentStep w <? 3) eqn:E; simpl; [|exact H].
    destruct (validateStep (formData w) (currentStep w)); simpl; lia.
  - unfold handleBack.
    destruct (1 <? currentStep w) eqn:E; simpl; lia.
  - unfold handleStepClick.
    destruct ((number t <=? currentStep w)
              || (number t =? currentStep w + 1)
                 && validateStep (formData w) (currentStep w));
      simpl; [destruct t; simpl; lia | exact H].
  - unfold handleKeyDown. destruct inside; [|exact H].
    destruct (String.eqb key "ArrowLeft" && (1 <? currentStep w)) eqn:E1.
    + apply andb_prop in E1. simpl. lia.
    + destruct (String.eqb key "ArrowRight" && (currentStep w <? 3)) eqn:E2;
        [|exact H].
      apply andb_prop in E2. simpl. lia.
  - destruct (currentStep w =? 1); [destruct field; exact H | exact H].
Qed.

(** X14.  Whatever the user does (buttons, tabs, keys, typing), in any
    order and any number of times, the current step of the form stays one
    of 1, 2 and 3. *)
Theorem wizard_step_in_range (actions : list Action) :
  1 <= currentStep (fold_left act actions initial) <= 3.
Proof.
  assert (H : 1 <= currentStep initial <= 3) by (simpl; lia).
  revert H. generalize initial as w. induction actions as [|a l IH];
    intros w H; simpl; [exact H|].
  apply IH. now apply act_range.
Qed.

Lemma validateStep_range (fields : FormData) (step : Z) :
  validateStep fields step = true -> 1 <= step <= 3.
Proof.
  unfold validateStep.
  destruct (step =? 1) eqn:E1; [lia|].
  destruct (step =? 2) eqn:E2; [lia|].
  destruct (step =? 3) eqn:E3; [lia|discriminate].
Qed.

Lemma act_validated (w : Wizard) (a : Action) :
  noRightArrow a = true ->
  (1 < currentStep w -> validateStep (formData w) 1 = true) ->
  1 < currentStep (act w a) ->
  validateStep (formData (act w a)) 1 = true.
Proof.
  intros Ha H. destruct a as [| |t|inside key|field value]; simpl.
  - unfold handleNext.
    destruct (currentStep w <? 3) eqn:E; simpl; [|exact H].
    destruct (validateStep (formData w) (currentStep w)) eqn:V; simpl;
      [|exact H].
    intros _. pose proof (validateStep_range _ _ V).
    destruct (Z.eq_dec (currentStep w) 1) as [E1|E1].
    + now rewrite E1 in V.
    + apply H. lia.
  - unfold handleBack.
    destruct (1 <? currentStep w) eqn:E; simpl; [|exact H].
    intros _. apply H. lia.
  - unfold handleStepClick.
    destruct (number t <=? currentStep w) eqn:E1; simpl.
    + intros Ht. apply H. lia.
    + destruct (number t =? currentStep w + 1) eqn:E2; simpl; [|exact H].
      destruct (validateStep (formData w) (currentStep w)) eqn:V; simpl;
        [|exact H].
      intros _. pose proof (validateStep_range _ _ V).
      destruct (Z.eq_dec (currentStep w) 1) as [E3|E3].
      * now rewrite E3 in V.
      * apply H. lia.
  - unfold handleKeyDown. destruct inside; [|exact H].
    simpl in Ha. apply negb_true_iff in Ha. rewrite Ha. simpl.
    destruct (String.eqb key "ArrowLeft" && (1 <? currentStep w)) eqn:E1;
      [|exact H].
    apply andb_prop in E1. simpl. intros _. apply H. lia.
  - destruct (currentStep w =? 1) eqn:E; [|exact H].
    destruct field; simpl; lia.
Qed.

(** X15.  As long as no right arrow is pressed inside the navigation, the
    form is past its first step only with a valid first step: buttons and
    tabs check it, and the fields cannot be changed later.  The right arrow
    checks nothing: pressed twice, it leads from step 1 to step 3 whatever
    the fields hold. *)
Theorem navigation_validates_but_arrows (formData0 : FormData) :
  (forall actions,
     forallb noRightArrow actions = true ->
     1 < currentStep (fold_left act actions initial) ->
     validateStep (formData (fold_left act actions initial)) 1 = true)
  /\ fold_left act [keyDown true "ArrowRight"; keyDown true "ArrowRight"]
       (mkWizard 1 formData0)
     = mkWizard 3 formData0.
Proof.
  split; [|reflexivity].
  assert (H : 1 < currentStep initial ->
              validateStep (formData initial) 1 = true)
    by (simpl; lia).
  revert H. generalize initial as w. intros w H actions. revert w H.
  induction actions as [|a l IH]; intros w H Hall; simpl; [exact H|].
  simpl in Hall. apply andb_prop in Hall. destruct Hall as [Ha Hl].
  apply IH; [|exact Hl]. now apply act_validated.
Qed.

Lemma navigation_validates_but_arrows_witness :
  validateStep
    (formData
       (fold_left act
          [change projectIdeaField "Soil moisture and crop yield";
           change subjectField "Biology"; clickNext; clickTab Generate]
          initial)) 1 = true.
Proof.
  destruct (navigation_validates_but_arrows (mkFormData "" "" ""))
    as [H _].
  apply H; [reflexivity|]. vm_compute. reflexivity.
Defined.

(** X16.  [handleGenerate] calls [onGenerate] only with the fields and the
    media list as they are, an idea of at least 20 code units and a
    subject that is not blank, whatever the step and however it was
    reached; without the property, or with a blank subject, it calls
    nothing. *)
Theorem handleGenerate_guard (onGenerate : bool) (w : Wizard)
    (mediaFiles : list MediaFile) :
  (forall fields files,
     handleGenerate onGenerate w mediaFiles = Some (fields, files) ->
     fields = formData w /\ files = mediaFiles /\ onGenerate = true
     /\ 20 <= JS.length (projectIdea fields)
     /\ JS.trim (subject fields) <> ""%string
     /\ subject fields <> ""%string)
  /\ (onGenerate = false \/ JS.trim (subject (formData w)) = ""%string
      \/ JS.length (projectIdea (formData w)) < 20 ->
      handleGenerate onGenerate w mediaFiles = None).
Proof.
  unfold handleGenerate, validateStep. simpl. split.
  - intros fields files H.
    destruct ((20 <=? JS.length (JS.trim (projectIdea (formData w))))
              && negb (String.eqb (JS.trim (subject (formData w))) ""))
      eqn:V; simpl in H; [|discriminate].
    destruct onGenerate; [|discriminate].
    injection H as <- <-.
    apply andb_prop in V. destruct V as [V1 V2].
    apply Z.leb_le in V1. apply negb_true_iff in V2.
    apply String.eqb_neq in V2.
    pose proof (trim_length (projectIdea (formData w))).
    repeat split; auto; try lia.
    intros E. apply V2. now rewrite E.
  - intros [->|[E|E]].
    + now rewrite andb_false_r.
    + rewrite E. simpl. now rewrite andb_false_r.
    + pose proof (trim_length (projectIdea (formData w))).
      destruct (20 <=? JS.length (JS.trim (projectIdea (formData w))))
        eqn:V; [apply Z.leb_le in V; lia | reflexivity].
Qed.

Lemma handleGenerate_guard_witness :
  handleGenerate true
    (mkWizard 3 (mkFormData "Soil moisture and crop yield" "   " "")) []
  = None.
Proof.
  destruct (handleGenerate_guard true
              (mkWizard 3
                 (mkFormData "Soil moisture and crop yield" "   " "")) [])
    as [_ H].
  apply H. right. left. reflexivity.
Defined.

End WizardFacts.

(* ------------------------------------------------------------------ *)

Module ProjectFacts.

Import ProjectContext.

Section ProjectList.

Variable Any : Type.
Variable notCompleted : Any.

Lemma filter_length_le {A} (p : A -> bool) (l : list A) :
  (List.length (filter p l) <= List.length l)%nat.
Proof.
  induction l as [|x l IH]; simpl; [lia|].
  destruct (p x); simpl; lia.
Qed.

Lemma filter_same {A} (p : A -> bool) (l : list A) :
  filter p l = l <-> forallb p l = true.
Proof.
  induction l as [|x l IH]; simpl; [tauto|].
  destruct (p x) eqn:E; simpl.
  - rewrite <- IH. split; [now intros [= ->] | now intros ->].
  - split; [|discriminate].
    intros H. pose proof (filter_length_le p l) as Hl.
    rewrite H in Hl. simpl in Hl. lia.
Qed.

(** X17.  [createProject] appends one project and returns its identifier:
    the one given in [projectData] if there is one, the time stamp
    otherwise.  Deleting by that identifier gives the list back exactly
    when no project of the list already had it. *)
Theorem createProject_then_delete (now : Z) (createdDay modifiedDay : string)
    (projectData : Partial Any) (projects : list (Project Any)) :
  let created :=
    createProject Any notCompleted now createdDay modifiedDay projectData
      projects in
  (exists project,
     fst created = (projects ++ [project])%list
     /\ id project = snd created
     /\ snd created
        = match id' projectData with
          | Some given => given
          | None => JS.Number_toString now
          end)
  /\ (deleteProject Any (snd created) (fst created) = projects
      <-> Forall (fun project => id project <> snd created) projects).
Proof.
  simpl. split.
  - eexists. split; [reflexivity|]. split; [reflexivity|].
    unfold newProject, spread, over. simpl.
    destruct (id' projectData); reflexivity.
  - unfold deleteProject. rewrite filter_app. simpl.
    rewrite String.eqb_refl. simpl. rewrite app_nil_r.
    rewrite filter_same, forallb_forall, Forall_forall.
    split; intros H x Hx.
    + apply String.eqb_neq, negb_true_iff. now apply H.
    + apply negb_true_iff, String.eqb_neq. now apply H.
Qed.

Lemma over_over {A} (given : option A) (before : A) :
  over given (over given before) = over given before.
Proof. now destruct given. Qed.

(** X18.  [updateProject] keeps the length and the order of the list and
    leaves every project with another identifier as it is; a project with
    the identifier takes the properties of [updates], but always the day
    of the update as [lastModified], also when [updates] has another one.
    Done twice, it gives what it gives done once. *)
Theorem updateProject_spec (today projectId : string)
    (updates : Partial Any) (projects : list (Project Any)) :
  Forall2
    (fun project project' =>
       (id project <> projectId -> project' = project)
       /\ (id project = projectId ->
           project' = withLastModified Any today (spread Any project updates)
           /\ lastModified project' = today))
    projects (updateProject Any today projectId updates projects)
  /\ updateProject Any today projectId updates
       (updateProject Any today projectId updates projects)
     = updateProject Any today projectId updates projects.
Proof.
  split.
  - induction projects as [|p l IH]; simpl; constructor; [|exact IH].
    destruct (String.eqb (id p) projectId) eqn:E.
    + apply String.eqb_eq in E. split; [contradiction|]. now split.
    + apply String.eqb_neq in E. split; [reflexivity|contradiction].
  - unfold updateProject. rewrite map_map. apply map_ext. intros p.
    destruct (String.eqb (id p) projectId) eqn:E; [|now rewrite E].
    destruct (String.eqb
                (id (withLastModified Any today (spread Any p updates)))
                projectId); [|reflexivity].
    unfold withLastModified, spread. simpl.
    now rewrite !over_over.
Qed.

(** X19.  The defaults that [createProject] writes with [||] hold only
    for a property that [projectData] does not have: a title, discipline
    or type that is given stays as given, the empty string too, so that
    the title of the new project is [Untitled Project] only if none is
    given, or this very one. *)
Theorem createProject_defaults (now : Z) (createdDay modifiedDay : string)
    (projectData : Partial Any) :
  let project :=
    newProject Any notCompleted now createdDay modifiedDay projectData in
  (forall given, title' projectData = Some given -> title project = given)
  /\ (forall given,
        discipline' projectData = Some given -> discipline project = given)
  /\ (forall given, type' projectData = Some given -> type project = given)
  /\ (title project = "Untitled Project"%string
      <-> title' projectData = None
          \/ title' projectData = Some "Untitled Project"%string).
Proof.
  unfold newProject, spread, over, JS.orElse. simpl.
  split; [|split; [|split]].
  - now intros given ->.
  - now intros given ->.
  - now intros given ->.
  - destruct (title' projectData) as [t|].
    + split; [intros ->; now right | intros [H|[= ->]]; congruence].
    + split; [now left | reflexivity].
Qed.

End ProjectList.

Lemma createProject_defaults_witness :
  title
    (newProject unit tt 1700000000000 "2024-02-01" "2024-02-01"
       (mkPartial None (Some ""%string) None None None None None None None))
  = ""%string.
Proof.
  destruct (createProject_defaults unit tt 1700000000000 "2024-02-01"
              "2024-02-01"
              (mkPartial None (Some ""%string) None None None None None
                 None None)) as [H _].
  apply H. reflexivity.
Defined.

End ProjectFacts.

(* ------------------------------------------------------------------ *)

Module SlideFacts.

Import ExportUtils.

Lemma numbered_shift {A} (l : list A) : forall i,
  numbered i l = map (fun p => ((i + fst p)%nat, snd p)) (numbered 0 l).
Proof.
  induction l as [|x l IH]; intros i; simpl; [reflexivity|].
  rewrite Nat.add_0_r. f_equal.
  rewrite (IH (S i)), (IH 1%nat), map_map. apply map_ext.
  intros [j y]. simpl. f_equal. lia.
Qed.

Lemma numbered_app {A} (a b : list A) : forall i,
  numbered i (a ++ b)%list
  = (numbered i a ++ numbered (i + List.length a) b)%list.
Proof.
  induction a as [|x a IH]; intros i; simpl.
  - now rewrite Nat.add_0_r.
  - rewrite IH. do 3 f_equal. lia.
Qed.

Lemma numbered_bound {A} (l : list A) : forall i p,
  In p (numbered i l) -> (i <= fst p < i + List.length l)%nat.
Proof.
  induction l as [|x l IH]; intros i p; simpl; [tauto|].
  intros [<-|H]; simpl; [lia|]. apply IH in H. lia.
Qed.

Lemma slideImages_succ {A} (k : nat) (l : list A) :
  slideImages (S k) l = slideImages k (skipn imagesPerSlide l).
Proof.
  unfold slideImages, slice, imagesPerSlide.
  rewrite length_skipn, skipn_skipn.
  replace (S k * 6)%nat with (k * 6 + 6)%nat by lia.
  f_equal. lia.
Qed.

Lemma slideImages_first {A} (l : list A) :
  slideImages 0 l = firstn imagesPerSlide l.
Proof.
  unfold slideImages, slice, imagesPerSlide.
  change (0 * 6)%nat with 0%nat. change (0 + 6)%nat with 6%nat.
  rewrite Nat.sub_0_r. change (skipn 0 l) with l.
  destruct (Nat.le_ge_cases 6 (List.length l)) as [H|H].
  - now rewrite Nat.min_l.
  - rewrite Nat.min_r by exact H.
    rewrite firstn_all. symmetry. now apply firstn_all2.
Qed.

Section Slides.

Variable fileToDataURL : File -> option string.
Variable addImageAccepts : string -> bool.

Local Abbreviation tile := (tile fileToDataURL addImageAccepts).

(** The tiles of a list of images whose indices start at a multiple of
    the number of images of a slide. *)
Lemma tiles_of_slide (a : list MediaFile) (j : nat) :
  (List.length a <= imagesPerSlide)%nat ->
  flat_map (fun im => tile (fst im mod imagesPerSlide) (snd im))
    (numbered (j * imagesPerSlide) a)
  = flat_map (fun im => tile (fst im) (snd im)) (numbered 0 a).
Proof.
  intros Ha. rewrite (numbered_shift a (j * imagesPerSlide)).
  rewrite !flat_map_concat_map, map_map. f_equal.
  apply map_ext_in. intros [i x] Hi. cbn [fst snd].
  apply numbered_bound in Hi. cbn [fst] in Hi.
  f_equal. rewrite Nat.add_comm, Nat.Div0.mod_add.
  apply Nat.mod_small. lia.
Qed.

Lemma slides_cover (T : nat) : forall (l : list MediaFile) (j : nat),
  (List.length l <= T * imagesPerSlide)%nat ->
  List.concat
    (map (fun k =>
            flat_map (fun im => tile (fst im) (snd im))
              (numbered 0 (slideImages k l)))
       (seq 0 T))
  = flat_map (fun im => tile (fst im mod imagesPerSlide) (snd im))
      (numbered (j * imagesPerSlide) l).
Proof.
  induction T as [|T IH]; intros l j Hl.
  - destruct l; [reflexivity | simpl in Hl; lia].
  - rewrite <- cons_seq, <- seq_shift. cbn [map]. rewrite map_map.
    cbn [List.concat].
    rewrite (map_ext _ (fun k =>
               flat_map (fun im => tile (fst im) (snd im))
                 (numbered 0 (slideImages k (skipn imagesPerSlide l)))))
      by (intros k; now rewrite slideImages_succ).
    rewrite (IH (skipn imagesPerSlide l) (S j))
      by (rewrite length_skipn; lia).
    rewrite slideImages_first.
    rewrite <- (firstn_skipn imagesPerSlide l) at 3.
    rewrite numbered_app, flat_map_app.
    assert (Hf : (List.length (firstn imagesPerSlide l)
                  <= imagesPerSlide)%nat)
      by (rewrite length_firstn; lia).
    rewrite (tiles_of_slide _ j Hf). f_equal.
    destruct (Nat.le_ge_cases imagesPerSlide (List.length l)) as [H|H].
    + rewrite length_firstn, Nat.min_l by exact H.
      replace (j * imagesPerSlide + imagesPerSlide)%nat
        with (S j * imagesPerSlide)%nat by lia.
      reflexivity.
    + rewrite (skipn_all2 l) by exact H. reflexivity.
Qed.

Lemma totalSlides_bounds {A} (l : list A) :
  (List.length l <= totalSlides l * imagesPerSlide
   < List.length l + imagesPerSlide)%nat.
Proof.
  unfold totalSlides, imagesPerSlide. simpl Nat.sub.
  pose proof (Nat.div_mod_eq (List.length l + 5) 6) as E.
  pose proof (Nat.mod_upper_bound (List.length l + 5) 6). lia.
Qed.

(** X20.  The presentation is the title slide, one slide per section,
    the slides of the images and, if there are citations, the slide of
    the references.  The images take as few slides of six as hold them;
    and apart from the titles of these slides, what is on them is, in the
    order of the list, one tile per image (its picture and caption, or
    its placeholder), at the place of the grid that its index gives. *)
Theorem exportToPPTX_slides (projectData : ProjectData)
    (mediaFiles : list MediaFile) :
  let visuals := visualSlides fileToDataURL addImageAccepts mediaFiles in
  exportToPPTX fileToDataURL addImageAccepts true projectData mediaFiles
  = JS.Resolved
      ((titleSlide projectData
        :: map sectionSlide (sections projectData)
        ++ visuals ++ referencesSlide projectData)%list,
       pptxFileName projectData)
  /\ (List.length mediaFiles <= 6 * List.length visuals
      < List.length mediaFiles + 6)%nat
  /\ map (fun slide : Slide => hd_error slide) visuals
     = map (fun k => Some (visualHeading k)) (seq 0 (List.length visuals))
  /\ List.concat (map (fun slide : Slide => tl slide) visuals)
     = flat_map (fun im => tile (fst im mod 6) (snd im))
         (numbered 0 mediaFiles)
  /\ List.length (referencesSlide projectData)
     = (if (0 <? List.length (citations projectData))%nat
        then 1%nat else 0%nat).
Proof.
  cbv zeta. split; [reflexivity|].
  assert (Hv : visualSlides fileToDataURL addImageAccepts mediaFiles
               = map (visualSlide fileToDataURL addImageAccepts mediaFiles)
                   (seq 0 (totalSlides mediaFiles))).
  { unfold visualSlides.
    destruct mediaFiles; [reflexivity | reflexivity]. }
  rewrite Hv, length_map, length_seq.
  pose proof (totalSlides_bounds mediaFiles) as Hb.
  unfold imagesPerSlide in Hb.
  split; [lia|]. split; [|split].
  - rewrite map_map. apply map_ext. reflexivity.
  - rewrite map_map. simpl tl.
    apply (slides_cover (totalSlides mediaFiles) mediaFiles 0).
    unfold imagesPerSlide. lia.
  - unfold referencesSlide.
    destruct (0 <? List.length (citations projectData))%nat; reflexivity.
Qed.

End Slides.

End SlideFacts.

(* ------------------------------------------------------------------ *)

Module UploaderFacts.

Import MediaUploader.

(** X21.  The uploader's own check accepts a file exactly when its type
    is one of the four allowed and it is no longer than 10 MiB.  It
    accepts all that [validateImageFile] accepts; what it accepts and the
    validator refuses are the files with a suspicious name.  A file that is
    both too long and of another type is refused by both, by the uploader
    for its type and by the validator for its size. *)
Theorem check_vs_validateImageFile (f : File) :
  (check f = None
   <-> ~ ImageUtils.oversized f /\ ~ ImageUtils.unsupported f)
  /\ (ImageUtils.isValid (ImageUtils.validateImageFile f) = true ->
      check f = None)
  /\ (check f = None ->
      ImageUtils.isValid (ImageUtils.validateImageFile f) = false ->
      ImageUtils.suspicious f)
  /\ (ImageUtils.oversized f -> ImageUtils.unsupported f ->
      check f = Some (unsupportedError f)
      /\ ImageUtils.error (ImageUtils.validateImageFile f)
         = Some (ImageUtils.tooLargeError f)).
Proof.
  assert (Hc : check f = None
               <-> ~ ImageUtils.oversized f /\ ~ ImageUtils.unsupported f).
  { unfold check, ImageUtils.oversized, ImageUtils.unsupported.
    change allowedTypes with ImageUtils.ALLOWED_MIME_TYPES.
    change maxSize with ImageUtils.MAX_FILE_SIZE.
    destruct (JS.arrayIncludes ImageUtils.ALLOWED_MIME_TYPES (type f))
      eqn:Ht; cbn [negb].
    - apply ValidatorFacts.arrayIncludes_In in Ht.
      destruct (ImageUtils.MAX_FILE_SIZE <? size f) eqn:Hs.
      + apply Z.ltb_lt in Hs. split; [discriminate|tauto].
      + apply Z.ltb_ge in Hs. split; [|reflexivity].
        intros _. split; [lia|tauto].
    - split; [discriminate|]. intros [_ H]. exfalso. apply H. intros Hin.
      apply ValidatorFacts.arrayIncludes_In in Hin. congruence. }
  pose proof (ValidatorFacts.validateImageFile_cases f) as Hv.
  split; [exact Hc|]. split; [|split].
  - intros H. apply Hc.
    destruct Hv as [(_ & E)|[(_ & _ & E)|[(_ & _ & _ & E)|(H1 & H2 & _)]]];
      try (rewrite E in H; discriminate H). tauto.
  - intros H Hval. apply Hc in H.
    destruct Hv as [(H1 & _)|[(_ & H2 & _)|[(_ & _ & H3 & _)
                   |(_ & _ & _ & E)]]]; try tauto.
    rewrite E in Hval. discriminate Hval.
  - intros Ho Hu. split.
    + unfold check.
      destruct (JS.arrayIncludes allowedTypes (type f)) eqn:Ht;
        [|reflexivity].
      apply ValidatorFacts.arrayIncludes_In in Ht. contradiction.
    + destruct Hv as [(_ & ->)|[(H1 & _)|[(H1 & _)|(H1 & _)]]];
        [reflexivity|contradiction..].
Qed.

Lemma check_vs_validateImageFile_witness :
  check Samples.bigFile = Some (unsupportedError Samples.bigFile)
  /\ ImageUtils.error (ImageUtils.validateImageFile Samples.bigFile)
     = Some (ImageUtils.tooLargeError Samples.bigFile).
Proof.
  destruct (check_vs_validateImageFile Samples.bigFile) as (_ & _ & _ & H).
  apply H.
  - unfold ImageUtils.oversized. vm_compute. reflexivity.
  - unfold ImageUtils.unsupported. simpl. intuition discriminate.
Defined.

Section UploaderRuns.

Variable generateImageMeta : string -> string * string.
Variable cloud : bool.

Lemma loop_uploaded (env : nat -> Env) (files : list File) : forall i,
  let '(newFiles, uploadErrors, urls) :=
    loop generateImageMeta cloud env i files in
  (List.length newFiles + List.length uploadErrors
   = List.length files)%nat
  /\ (2 * List.length newFiles <= List.length urls)%nat
  /\ Forall (uploaded cloud) newFiles.
Proof.
  induction files as [|f rest IH]; intros i; simpl.
  - repeat split; constructor.
  - specialize (IH (S i)).
    destruct (loop generateImageMeta cloud env (S i) rest)
      as [[n' e'] u'].
    destruct IH as (IH1 & IH2 & IH3).
    unfold turn. destruct (check f) as [err|] eqn:Hc.
    + simpl. repeat split; auto; lia.
    + destruct (loaded (env i)) as [[w h]|].
      * simpl. repeat split; try lia.
        constructor; [|exact IH3].
        unfold uploaded. cbn [src cloudUrl].
        split; [apply (StringFacts.prefix_app "blob:")|].
        split; [discriminate | destruct cloud; reflexivity].
      * simpl. repeat split; auto; lia.
Qed.

Lemma cleanup_uploaded (l : list MediaFile) :
  Forall (uploaded cloud) l ->
  StorageUtils.cleanupObjectUrls l = (if cloud then [] else map src l).
Proof.
  induction 1 as [|m l (Hs & Hne & Hc) _ IH].
  - now destruct cloud.
  - change (StorageUtils.cleanupObjectUrls (m :: l))
      with ((if JS.startsWith (src m) "blob:"
                && negb (match cloudUrl m with
                         | Some u => negb (String.eqb u "")
                         | None => false
                         end)
             then [src m] else [])
            ++ StorageUtils.cleanupObjectUrls l)%list.
    rewrite IH, Hs, Hc. apply String.eqb_neq in Hne.
    destruct cloud; simpl; [now rewrite Hne | reflexivity].
Qed.

(** X22.  When the uploader hands a list to [onMediaFilesChange], it is
    the list it was given followed by at least one new entry and at most
    one per file, twelve entries at most in all; each new entry cost two
    object URLs, of which the one made to load the image is in no entry.
    With the store configured every new entry carries its object URL as
    remote URL too, and [cleanupObjectUrls] then revokes none of them;
    without it, it revokes the source of each. *)
Theorem uploader_entries_and_cleanup (disabled : bool) (env : nat -> Env)
    (files : list File) (mediaFiles newList : list MediaFile) :
  changed (processFiles generateImageMeta cloud disabled env files
             mediaFiles) = Some newList ->
  exists newFiles,
    newList = (mediaFiles ++ newFiles)%list
    /\ disabled = false
    /\ (0 < List.length newFiles <= List.length files)%nat
    /\ Z.of_nat (List.length newList) <= maxFiles
    /\ (2 * List.length newFiles
        <= List.length
             (created (processFiles generateImageMeta cloud disabled env
                         files mediaFiles)))%nat
    /\ StorageUtils.cleanupObjectUrls newFiles
       = (if cloud then [] else map src newFiles).
Proof.
  unfold processFiles. destruct disabled; [discriminate|].
  destruct (maxFiles <? _) eqn:Hcap; [discriminate|].
  apply Z.ltb_ge in Hcap.
  pose proof (loop_uploaded env files 0) as Hl.
  destruct (loop generateImageMeta cloud env 0 files) as [[n e] u].
  destruct Hl as (H1 & H2 & H3). simpl.
  destruct (0 <? List.length n)%nat eqn:Hn; [|discriminate].
  apply Nat.ltb_lt in Hn. intros [= <-].
  exists n. split; [reflexivity|]. split; [reflexivity|].
  split; [lia|]. split; [rewrite length_app; lia|].
  split; [exact H2 | now apply cleanup_uploaded].
Qed.

End UploaderRuns.

Lemma uploader_entries_and_cleanup_witness :
  exists newFiles,
    changed
      (processFiles (fun n => (n, n)) true false
         (fun _ => mkEnv 1700000000000 "a1" (Some (800, 600)) "b2")
         [Samples.pngFile] [])
    = Some newFiles
    /\ StorageUtils.cleanupObjectUrls newFiles = [].
Proof.
  destruct (uploader_entries_and_cleanup (fun n => (n, n)) true false
              (fun _ => mkEnv 1700000000000 "a1" (Some (800, 600)) "b2")
              [Samples.pngFile] [] _ eq_refl)
    as (newFiles & E & _ & _ & _ & _ & H).
  exists newFiles. split; [|exact H].
  change ([] ++ newFiles)%list with newFiles in E.
  rewrite <- E. reflexivity.
Defined.

End UploaderFacts.

(* ------------------------------------------------------------------ *)

Module NameFacts.

Import ExportUtils.

Lemma append_assoc (a b c : string) :
  ((a ++ b) ++ c = a ++ (b ++ c))%string.
Proof. induction a as [|x a IH]; simpl; [reflexivity | now rewrite IH]. Qed.

Lemma sanitize_cons (c : ascii) (s : string) :
  sanitize (String c s)
  = String (JS.lowerChar (if isAlnum c then c else "_"%char)) (sanitize s).
Proof. reflexivity. Qed.

Lemma sanitize_char_fixed (c : ascii) :
  let c' := JS.lowerChar (if isAlnum c then c else "_"%char) in
  JS.lowerChar (if isAlnum c' then c' else "_"%char) = c'.
Proof.
  destruct c as [[] [] [] [] [] [] [] []]; vm_compute; reflexivity.
Qed.

(** X23.  The transformation behind the three download names works code
    unit by code unit: it keeps the length, goes through concatenation,
    and applied to its own result changes nothing.  So two titles that
    differ only where it rewrites (case, punctuation, spaces) are saved
    under the same name. *)
Theorem sanitize_algebra (a b : string) :
  String.length (sanitize a) = String.length a
  /\ sanitize (a ++ b) = (sanitize a ++ sanitize b)%string
  /\ sanitize (sanitize a) = sanitize a
  /\ (sanitize a = sanitize b ->
      forall p p',
        title p = a -> title p' = b ->
        pdfFileName p = pdfFileName p' /\ pptxFileName p = pptxFileName p'
        /\ pngDownloadName a = pngDownloadName b).
Proof.
  split; [|split; [|split]].
  - induction a as [|c a IH]; [reflexivity|].
    rewrite sanitize_cons. simpl. now rewrite IH.
  - induction a as [|c a IH]; [reflexivity|].
    change (String c a ++ b)%string with (String c (a ++ b)).
    rewrite !sanitize_cons, IH. reflexivity.
  - induction a as [|c a IH]; [reflexivity|].
    rewrite !sanitize_cons, IH. f_equal. apply sanitize_char_fixed.
  - intros E p p' <- <-.
    unfold pdfFileName, pptxFileName, pngDownloadName. now rewrite E.
Qed.

Lemma sanitize_algebra_witness :
  pdfFileName (mkProjectData "Soil & Water" "" [] [])
  = pdfFileName (mkProjectData "soil_._WATER" "" [] []).
Proof.
  destruct (sanitize_algebra "Soil & Water" "soil_._WATER")
    as (_ & _ & _ & H).
  destruct (H eq_refl (mkProjectData "Soil & Water" "" [] [])
              (mkProjectData "soil_._WATER" "" [] []) eq_refl eq_refl)
    as [H1 _].
  exact H1.
Defined.

Section DashboardExports.

Variables pageWidth pageHeight : float.
Variable splitTextToSize : string -> float -> list string.
Variable fileToDataURL : File -> option string.
Variable addImageAccepts : string -> bool.

Local Abbreviation handleExport writes galleryElement :=
  (Dashboard.handleExport pageWidth pageHeight splitTextToSize fileToDataURL
     addImageAccepts writes galleryElement).

(** X24.  The dashboard makes a report exactly from a form none of whose
    three fields is blank (empty once trimmed).  The document and the
    presentation of that report are saved as [ai_generated_report__]
    followed by the rewritten idea of the form as it was when the report
    was made, with the extension of the format; the presentation only if
    it can be written, the handler alerting otherwise.  The picture of the
    gallery is downloaded only if the gallery is in the page, the handler
    alerting otherwise, and is named after the idea as it is when it is
    saved, or [project] if that is empty.  Without a report the handler
    only alerts. *)
Theorem dashboard_download_names (made now : ProjectStepper.FormData)
    (mediaFiles : list MediaFile) :
  (Dashboard.handleGenerateProject made = None
   <-> JS.trim (ProjectStepper.projectIdea made) = ""%string
       \/ JS.trim (ProjectStepper.subject made) = ""%string
       \/ JS.trim (ProjectStepper.steps made) = ""%string)
  /\ (forall report,
        Dashboard.handleGenerateProject made = Some report ->
        report = Dashboard.generateProjectWithAI made
        /\ (forall writes galleryElement,
              exists calls,
                handleExport writes galleryElement Dashboard.pdf
                  (Some report) now mediaFiles
                = Dashboard.document calls
                /\ last calls addPage
                   = save ("ai_generated_report__"
                             ++ sanitize (ProjectStepper.projectIdea made)
                             ++ ".pdf")%string)
        /\ (forall galleryElement,
              exists slides,
                handleExport true galleryElement Dashboard.pptx
                  (Some report) now mediaFiles
                = Dashboard.presentation slides
                    ("ai_generated_report__"
                       ++ sanitize (ProjectStepper.projectIdea made)
                       ++ ".pptx")%string)
        /\ (forall galleryElement,
              handleExport false galleryElement Dashboard.pptx
                (Some report) now mediaFiles
              = Dashboard.alert "Failed to export PPTX. Please try again.")
        /\ (forall writes,
              handleExport writes true Dashboard.png (Some report) now
                mediaFiles
              = Dashboard.picture
                  (sanitize
                     (if String.eqb (ProjectStepper.projectIdea now) ""
                      then "project"
                      else ProjectStepper.projectIdea now)
                     ++ "_gallery.png")%string)
        /\ (forall writes,
              handleExport writes false Dashboard.png (Some report) now
                mediaFiles
              = Dashboard.alert "Failed to export PNG. Please try again."))
  /\ (forall writes galleryElement format,
        handleExport writes galleryElement format None now mediaFiles
        = Dashboard.alert "Please generate a project first").
Proof.
  split; [|split; [|reflexivity]].
  - unfold Dashboard.handleGenerateProject.
    destruct (String.eqb (JS.trim (ProjectStepper.projectIdea made)) "")
      eqn:E1;
    destruct (String.eqb (JS.trim (ProjectStepper.subject made)) "")
      eqn:E2;
    destruct (String.eqb (JS.trim (ProjectStepper.steps made)) "")
      eqn:E3;
    rewrite ?String.eqb_eq in *; rewrite ?String.eqb_neq in *; simpl;
      split; try discriminate; try tauto.
  - intros report. unfold Dashboard.handleGenerateProject.
    destruct (_ || _ || _); [discriminate|]. intros [= <-].
    assert (Hname :
              sanitize (title (Dashboard.generateProjectWithAI made))
              = ("ai_generated_report__"
                   ++ sanitize (ProjectStepper.projectIdea made))%string).
    { unfold Dashboard.generateProjectWithAI. cbn [title].
      destruct (sanitize_algebra "AI-Generated Report: "
                  (ProjectStepper.projectIdea made)) as (_ & -> & _).
      reflexivity. }
    split; [reflexivity|]. split; [|split; [|split; [|split]]].
    + intros writes galleryElement. eexists. split; [reflexivity|].
      unfold exportToPDF. cbv zeta. rewrite last_last.
      unfold pdfFileName. now rewrite Hname, append_assoc.
    + intros galleryElement. eexists. unfold Dashboard.handleExport.
      unfold exportToPPTX, pptxFileName.
      now rewrite Hname, append_assoc.
    + reflexivity.
    + reflexivity.
    + reflexivity.
Qed.

End DashboardExports.

(** A form with a blank subject makes no report; a filled one does, and
    its document is saved under the name made from the idea. *)
Lemma dashboard_download_names_witness :
  Dashboard.handleGenerateProject
    (ProjectStepper.mkFormData "Soil & Water" "   " "sample") = None
  /\ exists calls,
       Dashboard.handleExport 210 297 (fun t _ => [t]) (fun _ => None)
         (fun _ => true) true false Dashboard.pdf
         (Some
            (Dashboard.generateProjectWithAI
               (ProjectStepper.mkFormData "Soil & Water" "Biology"
                  "sample")))
         (ProjectStepper.mkFormData "" "" "") []
       = Dashboard.document calls
       /\ last calls addPage
          = save "ai_generated_report__soil___water.pdf".
Proof.
  split.
  - destruct (dashboard_download_names 210 297 (fun t _ => [t])
                (fun _ => None) (fun _ => true)
                (ProjectStepper.mkFormData "Soil & Water" "   " "sample")
                (ProjectStepper.mkFormData "" "" "") []) as [H _].
    apply H. right. left. reflexivity.
  - destruct (dashboard_download_names 210 297 (fun t _ => [t])
                (fun _ => None) (fun _ => true)
                (ProjectStepper.mkFormData "Soil & Water" "Biology" "sample")
                (ProjectStepper.mkFormData "" "" "") []) as (_ & H & _).
    destruct (H _ eq_refl) as (_ & Hpdf & _).
    exact (Hpdf true false).
Defined.

End NameFacts.

(* ------------------------------------------------------------------ *)

Module PictureFacts.

Import ExportUtils.
Local Open Scope list_scope.

Lemma embedding_refl d : embedding d d [].
Proof. exists []. now rewrite app_nil_r. Qed.

Lemma embedding_trans d d' d'' p1 p2 :
  embedding d d' p1 -> embedding d' d'' p2 -> embedding d d'' (p1 ++ p2).
Proof.
  intros (o1 & H1 & I1 & S1) (o2 & H2 & I2 & S2). exists (o1 ++ o2).
  rewrite H2, H1, app_assoc. unfold imagesOf, savesOf in *.
  rewrite !flat_map_app. split; [reflexivity|].
  split; [congruence|]. now rewrite S1, S2.
Qed.

Section Pictures.

Variables pageWidth pageHeight : float.
Variable splitTextToSize : string -> float -> list string.
Variable fileToDataURL : File -> option string.
Variable addImageAccepts : string -> bool.

Local Abbreviation jpeg :=
  (fun mediaFile =>
     map (fun imageData => (imageData, "JPEG"%string))
       (embeddedData fileToDataURL addImageAccepts mediaFile)).

Lemma addSection_embedding d section :
  embedding d (addSection pageWidth pageHeight splitTextToSize d section) [].
Proof.
  unfold addSection, embedding, draw, advance, moveTo. cbv zeta.
  destruct (PrimFloat.ltb _ _); simpl; rewrite <- ?app_assoc;
    eexists; (split; [reflexivity|]); split; reflexivity.
Qed.

Lemma addSections_embedding l : forall d,
  embedding d
    (fold_left (addSection pageWidth pageHeight splitTextToSize) l d) [].
Proof.
  induction l as [|section l IH]; intros d; simpl.
  - apply embedding_refl.
  - exact (embedding_trans _ _ _ _ _ (addSection_embedding d section)
             (IH _)).
Qed.

Lemma addFigure_embedding i mediaFile d :
  embedding d
    (addFigure pageWidth pageHeight splitTextToSize fileToDataURL
       addImageAccepts i mediaFile d)
    (jpeg mediaFile).
Proof.
  unfold addFigure, embeddedData, embedding, draw, advance, moveTo.
  destruct (fileToDataURL (file mediaFile)) as [data|].
  2:{ exists []. now rewrite app_nil_r. }
  destruct (getScaledDimensions _ _ _ _) as [sw sh].
  destruct (PrimFloat.ltb _ _), (addImageAccepts data); simpl;
    rewrite <- ?app_assoc;
    try (eexists; split; [reflexivity|]; split; reflexivity).
  exists []. now rewrite app_nil_r.
Qed.

Lemma addFigures_embedding l : forall i d,
  embedding d
    (addFigures pageWidth pageHeight splitTextToSize fileToDataURL
       addImageAccepts i l d)
    (flat_map jpeg l).
Proof.
  induction l as [|m l IH]; intros i d; simpl.
  - apply embedding_refl.
  - exact (embedding_trans _ _ _ _ _ (addFigure_embedding i m d)
             (IH (S i) _)).
Qed.

Lemma addCitations_embedding l : forall index d,
  embedding d (addCitations pageWidth splitTextToSize index l d) [].
Proof.
  induction l as [|citation l IH]; intros index d; simpl.
  - apply embedding_refl.
  - assert (H1 : embedding d
                   (addCitation pageWidth splitTextToSize index citation d)
                   []).
    { unfold addCitation, embedding, draw, advance. simpl. eexists.
      split; [reflexivity|]. split; reflexivity. }
    exact (embedding_trans _ _ _ _ _ H1 (IH (S index) _)).
Qed.

Lemma draw_embedding o d :
  imagesOf o = [] -> savesOf o = [] -> embedding d (draw o d) [].
Proof. intros H1 H2. exists o. auto. Qed.

Lemma moved_embedding d d' y p :
  embedding d d' p -> embedding d (mkDoc (ops d') y) p.
Proof. intros (o & H & R). exists o. auto. Qed.

(** X25.  The document embeds one picture for each media file whose
    image is read and taken, in the order of the list and once each, and
    declares every one of them as JPEG, whatever the type of the file; and
    it is saved once, after all else, under the name made from the
    title. *)
Theorem exportToPDF_pictures (projectData : ProjectData)
    (mediaFiles : list MediaFile) :
  let calls :=
    exportToPDF pageWidth pageHeight splitTextToSize fileToDataURL
      addImageAccepts projectData mediaFiles in
  imagesOf calls = flat_map jpeg mediaFiles
  /\ savesOf calls = [pdfFileName projectData]
  /\ last calls addPage = save (pdfFileName projectData).
Proof.
  cbv zeta. unfold exportToPDF. cbv zeta.
  set (d0 := mkDoc [] margin).
  assert (G1 : embedding d0
                 (addTitleAndAbstract pageWidth splitTextToSize projectData
                    d0) []).
  { unfold addTitleAndAbstract, embedding, draw, advance. simpl.
    eexists. split; [reflexivity|]. split; reflexivity. }
  set (d1 := addTitleAndAbstract _ _ _ d0) in *.
  pose proof (addSections_embedding (sections projectData) d1) as G2.
  set (d2 := fold_left _ _ d1) in *.
  assert (G3 : embedding d2
                 (addFiguresSection pageWidth pageHeight splitTextToSize
                    fileToDataURL addImageAccepts mediaFiles d2)
                 (flat_map jpeg mediaFiles)).
  { unfold addFiguresSection.
    destruct (0 <? List.length mediaFiles)%nat eqn:E.
    - cbv zeta.
      match goal with
      | |- embedding _ (addFigures _ _ _ _ _ 0%nat mediaFiles ?d) _ =>
          pose proof (addFigures_embedding mediaFiles 0%nat d) as H;
          apply (embedding_trans d2 d _ [] _); [|exact H]
      end.
      unfold embedding, draw, advance, moveTo. simpl.
      rewrite <- app_assoc. eexists. split; [reflexivity|].
      split; reflexivity.
    - destruct mediaFiles; [apply embedding_refl | discriminate E]. }
  set (d3 := addFiguresSection _ _ _ _ _ _ d2) in *.
  assert (G4 : embedding d3
                 (addReferences pageWidth splitTextToSize projectData d3)
                 []).
  { unfold addReferences.
    destruct (0 <? List.length (citations projectData))%nat;
      [|apply embedding_refl].
    cbv zeta.
    match goal with
    | |- embedding _ (addCitations _ _ 0%nat _ ?d) _ =>
        pose proof (addCitations_embedding (citations projectData) 0%nat d)
          as H;
        apply (embedding_trans d3 d _ [] []); [|exact H]
    end.
    unfold embedding, draw, advance, moveTo. simpl.
    rewrite <- !app_assoc. eexists. split; [reflexivity|].
    split; reflexivity. }
  set (d4 := addReferences _ _ _ d3) in *.
  pose proof (embedding_trans _ _ _ _ _
                (embedding_trans _ _ _ _ _
                   (embedding_trans _ _ _ _ _ G1 G2) G3) G4)
    as (o & H & I & S).
  rewrite H. simpl ops. cbn [app].
  unfold imagesOf, savesOf in *. rewrite !flat_map_app, I, S. simpl.
  rewrite !app_nil_r. split; [reflexivity|]. split; [reflexivity|].
  apply last_last.
Qed.

End Pictures.

End PictureFacts.
